(** * WopMars: rule model, persistence session and definition reader

    A shallow embedding of three parts of the workflow engine:
    - [Rule]     : wopmars/models/Rule.py
    - [Session]  : wopmars/main/tagc/framework/bdd/WopMarsSession.py
    - [Reader]   : src/main/fr/tagc/wopmars/framework/parsing/Reader.py

    Python values are modelled by inductive types, Python exceptions by the
    [Raise] constructor of [result]. Strings are strings of ASCII characters. *)

From Stdlib Require Import ZArith Bool List Ascii String Lia.
From stdpp Require Import base option list strings gmap fin_maps.
Import ListNotations.

#[local] Set Warnings "-register-all".
Local Open Scope string_scope.
Local Open Scope Z_scope.

(** ** Python exceptions and results *)

Module Py.

(** A Python scalar: [None], a boolean, an integer or a string. Floating-point
    numbers are outside the model. *)
Inductive scalar : Type :=
  | SNone
  | SBool (b : bool)
  | SInt (z : Z)
  | SStr (s : string).

(** A Python value as a YAML document yields it: a scalar, a list, or a dict
    whose keys are scalars, kept in insertion order with distinct keys. *)
Inductive node : Type :=
  | Scalar (v : scalar)
  | Seq (l : list node)
  | Map (d : list (scalar * node)).

(** [None]. *)
Definition PyNone : node := Scalar SNone.

(** [a == b] on scalars: a boolean equals the integer 0 or 1 that it is. *)
Definition scalar_eqb (a b : scalar) : bool :=
  match a, b with
  | SNone, SNone => true
  | SStr x, SStr y => String.eqb x y
  | SBool x, SBool y => Bool.eqb x y
  | SInt x, SInt y => Z.eqb x y
  | SBool x, SInt y | SInt y, SBool x => Z.eqb y (if x then 1 else 0)
  | _, _ => false
  end.

(** The value of a key in the items of a dict. *)
Fixpoint lookup_item (k : scalar) (d : list (scalar * node)) : option node :=
  match d with
  | [] => None
  | (k', v) :: d' => if scalar_eqb k' k then Some v else lookup_item k d'
  end.

(** [a == b]: lists are equal item by item, dicts when they have the same
    keys with equal values, in any order. *)
Fixpoint node_eqb (a b : node) {struct a} : bool :=
  match a, b with
  | Scalar x, Scalar y => scalar_eqb x y
  | Seq l, Seq l' =>
      (fix items_eqb (l l' : list node) {struct l} : bool :=
         match l, l' with
         | [], [] => true
         | x :: t, y :: t' => node_eqb x y && items_eqb t t'
         | _, _ => false
         end) l l'
  | Map d, Map d' =>
      Nat.eqb (length d) (length d')
      && (fix values_eqb (d : list (scalar * node)) {struct d} : bool :=
            match d with
            | [] => true
            | (k, v) :: t =>
                match lookup_item k d' with
                | Some v' => node_eqb v v'
                | None => false
                end && values_eqb t
            end) d
  | _, _ => false
  end.

(** The two-part message of a [WopMarsException], by the place that raises it;
    the arguments are the values the source interpolates in the text. *)
Inductive message : Type :=
  (* Rule.py, runtime facade *)
  | InputFileNotSpecified (key : string)
  | InputTableNotSpecified (key : string)
  | OutputFileNotSpecified (key : string)
  | OutputTableNotSpecified (key : string)
  (* Rule.py, content of the definition *)
  | InputFileNamesNotCorrect (rule : string)
  | InputTableNamesNotCorrect (rule : string)
  | InputTablenameNotCorrect (rule tablename : string)
  | InputTablenameOfModelNotCorrect (rule tablename : string)
  | OutputFileNamesNotCorrect (rule : string)
  | OutputTableNamesNotCorrect (rule : string)
  | OutputTablenameNotCorrect (rule tablename : string)
  | OptionNamesNotCorrect (rule : string)
  | RequiredOptionNotProvided (option : string)
  (* Reader.py *)
  | RuleDuplicated (rule : string)
  | YamlNotRespected
  | DefinitionFileDoesNotExist (path : string)
  | GrammarRuleLine (line : node)
  | GrammarRuleElement (line rule : node)
  | GrammarFilesOrTables (line rule : node)
  | GrammarFilePath (line rule : node)
  | GrammarModelName (line rule : node)
  | MultipleTools (rule : node)
  | NoTool (rule : node)
  | ClassDoesNotExist (wrapper : string)
  | ModuleNotInPythonpath (wrapper : string)
  | ToolWrapperClassDeclaration
  | DatabaseNotSetUp.

Inductive exn : Type :=
  | WopMarsException (m : message)
  | ValueError
  | TypeError
  | KeyError
  | IndexError
  | AttributeError
  | ImportError
  | OSError
  | UnboundLocalError (variable : string)
  | NameError (name : string)
  | ObjectDeletedError
  | NoResultFound
  | MultipleResultsFound
  | YAMLError.

Inductive result (A : Type) : Type :=
  | Ok (a : A)
  | Raise (e : exn).

Arguments Ok {A} a.
Arguments Raise {A} e.

Definition bind {A B : Type} (m : result A) (k : A -> result B) : result B :=
  match m with
  | Ok a => k a
  | Raise e => Raise e
  end.

(** [for x in l: body(x)] where the body may raise. *)
Fixpoint for_each {A : Type} (body : A -> result unit) (l : list A) : result unit :=
  match l with
  | [] => Ok tt
  | x :: l' => bind (body x) (fun _ => for_each body l')
  end.

(** [[f(x) for x in l]] where [f] may raise. *)
Fixpoint map_result {A B : Type} (f : A -> result B) (l : list A) : result (list B) :=
  match l with
  | [] => Ok []
  | x :: l' => bind (f x) (fun y => bind (map_result f l') (fun ys => Ok (y :: ys)))
  end.

(** [try: body except IndexError: handler]. *)
Definition except_IndexError {A : Type} (body handler : result A) : result A :=
  match body with
  | Raise IndexError => handler
  | r => r
  end.

(** [l[0]]. *)
Definition first_item {A : Type} (l : list A) : result A :=
  match l with
  | x :: _ => Ok x
  | [] => Raise IndexError
  end.

(** [x in l] for strings. *)
Definition str_in (x : string) (l : list string) : bool :=
  existsb (String.eqb x) l.

(** [set(l1) == set(l2)] for lists of strings. *)
Definition set_eq (l1 l2 : list string) : bool :=
  forallb (fun x => str_in x l2) l1 && forallb (fun x => str_in x l1) l2.

(** [set(l1).issubset(l2)]. *)
Definition issubset (l1 l2 : list string) : bool :=
  forallb (fun x => str_in x l2) l1.

(** [d[k]] for a dict with string keys, kept in insertion order. *)
Fixpoint getitem {V : Type} (d : list (string * V)) (k : string) : result V :=
  match d with
  | [] => Raise KeyError
  | (k', v) :: d' => if String.eqb k' k then Ok v else getitem d' k
  end.

(** Whitespace in the sense of [str.isspace] and of the class [\s], on ASCII. *)
Definition is_space (c : ascii) : bool :=
  let n := nat_of_ascii c in
  ((9 <=? n)%nat && (n <=? 13)%nat) || ((28 <=? n)%nat && (n <=? 32)%nat).

Fixpoint lstrip (s : string) : string :=
  match s with
  | String c s' => if is_space c then lstrip s' else s
  | EmptyString => EmptyString
  end.

Fixpoint rstrip (s : string) : string :=
  match s with
  | String c s' =>
      match rstrip s' with
      | EmptyString => if is_space c then EmptyString else String c EmptyString
      | r => String c r
      end
  | EmptyString => EmptyString
  end.

(** [s.strip()]. *)
Definition strip (s : string) : string := rstrip (lstrip s).

Definition lower_char (c : ascii) : ascii :=
  let n := nat_of_ascii c in
  if ((65 <=? n)%nat && (n <=? 90)%nat) then ascii_of_nat (n + 32) else c.

(** [s.lower()]. *)
Fixpoint lower (s : string) : string :=
  match s with
  | String c s' => String (lower_char c) (lower s')
  | EmptyString => EmptyString
  end.

(** [s.split(sep)] for a separator of one character. *)
Fixpoint split (sep : ascii) (s : string) : list string :=
  match s with
  | EmptyString => [EmptyString]
  | String c s' =>
      if Ascii.eqb c sep then EmptyString :: split sep s'
      else match split sep s' with
           | h :: t => String c h :: t
           | [] => [String c EmptyString]
           end
  end.

(** [sub in s]. *)
Fixpoint contains (sub s : string) : bool :=
  String.prefix sub s
  || match s with
     | String _ s' => contains sub s'
     | EmptyString => false
     end.

(** [type(v) == str]. *)
Definition is_str (v : node) : bool :=
  match v with Scalar (SStr _) => true | _ => false end.

(** [type(v) == dict]. *)
Definition is_dict (v : node) : bool :=
  match v with Map _ => true | _ => false end.

(** [v == s] for a string literal [s]. *)
Definition eq_str (v : node) (s : string) : bool :=
  match v with Scalar (SStr x) => String.eqb x s | _ => false end.

(** The items that [for x in v] visits: the keys of a dict, the items of a
    list, the characters of a string; other scalars are not iterable. *)
Definition iterate (v : node) : result (list node) :=
  match v with
  | Map d => Ok (List.map (fun kv => Scalar kv.1) d)
  | Seq l => Ok l
  | Scalar (SStr s) =>
      Ok (List.map (fun c => Scalar (SStr (String c EmptyString))) (list_ascii_of_string s))
  | Scalar _ => Raise TypeError
  end.

(** The place of index [i] in a sequence of [len] items; a negative index
    counts from the end. *)
Definition position (i : Z) (len : nat) : option nat :=
  if (0 <=? i)%Z then (if (i <? Z.of_nat len)%Z then Some (Z.to_nat i) else None)
  else (if (- Z.of_nat len <=? i)%Z then Some (Z.to_nat (Z.of_nat len + i)) else None).

Definition item_at {A : Type} (l : list A) (k : node) : result A :=
  match k with
  | Scalar (SInt i) =>
      match position i (length l) with
      | Some n => match nth_error l n with Some x => Ok x | None => Raise IndexError end
      | None => Raise IndexError
      end
  | Scalar (SBool b) =>
      match nth_error l (if b then 1%nat else 0%nat) with
      | Some x => Ok x
      | None => Raise IndexError
      end
  | _ => Raise TypeError
  end.

(** [v[k]]. *)
Definition subscript (v k : node) : result node :=
  match v with
  | Map d =>
      match k with
      | Scalar sk => match lookup_item sk d with Some x => Ok x | None => Raise KeyError end
      | _ => Raise TypeError
      end
  | Seq l => item_at l k
  | Scalar (SStr s) =>
      bind (item_at (list_ascii_of_string s) k)
           (fun c => Ok (Scalar (SStr (String c EmptyString))))
  | Scalar _ => Raise TypeError
  end.

(** [d[k] = v] for a dict with string keys. *)
Fixpoint setitem {V : Type} (d : list (string * V)) (k : string) (v : V) : list (string * V) :=
  match d with
  | [] => [(k, v)]
  | (k', v') :: d' => if String.eqb k' k then (k, v) :: d' else (k', v') :: setitem d' k v
  end.

(** [s.split()]: the words that whitespace separates; [word] is the word
    being read. *)
Fixpoint words_from (word : option string) (s : string) : list string :=
  match s with
  | EmptyString => match word with Some w => [w] | None => [] end
  | String c s' =>
      if is_space c
      then match word with
           | Some w => w :: words_from None s'
           | None => words_from None s'
           end
      else words_from (Some (default EmptyString word ++ String c EmptyString)%string) s'
  end.

Definition words (s : string) : list string := words_from None s.

(** [l[-1]]. *)
Definition last_item {A : Type} (l : list A) : result A :=
  match List.rev l with
  | x :: _ => Ok x
  | [] => Raise IndexError
  end.

Fixpoint lstrip_char (c : ascii) (s : string) : string :=
  match s with
  | String a s' => if Ascii.eqb a c then lstrip_char c s' else s
  | EmptyString => EmptyString
  end.

Fixpoint rstrip_char (c : ascii) (s : string) : string :=
  match s with
  | String a s' =>
      match rstrip_char c s' with
      | EmptyString => if Ascii.eqb a c then EmptyString else String a EmptyString
      | r => String a r
      end
  | EmptyString => EmptyString
  end.

(** [s.strip(c)] for one character [c]. *)
Definition strip_char (c : ascii) (s : string) : string := rstrip_char c (lstrip_char c s).

End Py.

Declare Scope py_scope.
Delimit Scope py_scope with py.
Notation "x <- m ;; k" := (Py.bind m (fun x => k))
  (at level 100, m at next level, right associativity) : py_scope.
Notation "m ;;; k" := (Py.bind m (fun _ => k))
  (at level 100, right associativity) : py_scope.

(** ** wopmars/models/Rule.py *)

Module Rule.
Import Py.

(** A row of the file table: [f.name], [f.path], [f.type.name]. *)
Record FileInputOutputInformation : Type := {
  f_name : string;
  f_path : string;
  f_type_name : string
}.

(** A row of the table of tables: [t.tablename], [t.model], [t.type.name] and
    [t.modification.time], which is [None] when the ledger holds no time. *)
Record TableInputOutputInformation : Type := {
  t_tablename : string;
  t_model : string;
  t_type_name : string;
  t_modification_time : option Z
}.

Record Option : Type := {
  o_name : string;
  o_value : node
}.

(** A rule object. [toolwrapper] is the column on which the classes are told
    apart, the polymorphic identity of the class of the object, and [None] for
    a class that declares none. [mro] lists the names of its class and of the
    classes it inherits from, the class itself first; the [specify_*] fields
    are the answers of the methods that the tool developer overrides. *)
Record Rule : Type := {
  name : string;
  toolwrapper : option string;
  mro : list string;
  files : list FileInputOutputInformation;
  tables : list TableInputOutputInformation;
  options : list Option;
  specify_input_file : list string;
  specify_input_table : list string;
  specify_output_file : list string;
  specify_output_table : list string;
  specify_params : list (string * string)
}.

Definition files_of_type (r : Rule) (ty : string) : list FileInputOutputInformation :=
  List.filter (fun f => String.eqb (f_type_name f) ty) (files r).

Definition tables_of_type (r : Rule) (ty : string) : list TableInputOutputInformation :=
  List.filter (fun t => String.eqb (t_type_name t) ty) (tables r).

(** [Rule.follows]: does [self] directly follow [other] in the DAG? *)
Definition follows (self other : Rule) : bool :=
  existsb (fun rule_f_path =>
             existsb (fun rule_f2_path => String.eqb rule_f_path rule_f2_path)
                     (List.map f_path (files_of_type other "output")))
          (List.map f_path (files_of_type self "input"))
  || existsb (fun rule_t_name =>
                existsb (fun rule_t2_name => String.eqb rule_t_name rule_t2_name)
                        (List.map t_model (tables_of_type other "output")))
             (List.map t_model (tables_of_type self "input")).

(** The Python [max] of a non-empty list: the running maximum is replaced by
    an item that compares greater; comparing with [None] is a [TypeError]. *)
Fixpoint max_from (cur : option Z) (l : list (option Z)) : result (option Z) :=
  match l with
  | [] => Ok cur
  | item :: l' =>
      match cur, item with
      | Some c, Some i => max_from (Some (if c <? i then i else c)) l'
      | _, _ => Raise TypeError
      end
  end.

Definition max (l : list (option Z)) : result (option Z) :=
  match l with
  | [] => Raise ValueError
  | x :: l' => max_from x l'
  end.

Fixpoint min_from (cur : option Z) (l : list (option Z)) : result (option Z) :=
  match l with
  | [] => Ok cur
  | item :: l' =>
      match cur, item with
      | Some c, Some i => min_from (Some (if i <? c then i else c)) l'
      | _, _ => Raise TypeError
      end
  end.

Definition min (l : list (option Z)) : result (option Z) :=
  match l with
  | [] => Raise ValueError
  | x :: l' => min_from x l'
  end.

(** [a < b] on values that may be [None]. *)
Definition lt (a b : option Z) : result bool :=
  match a, b with
  | Some x, Some y => Ok (x <? y)
  | _, _ => Raise TypeError
  end.

(** [os_path_getmtime_ms(path)]. The method below calls this name, and Rule.py
    neither defines nor imports it (its import from [wopmars.utils.various] is
    [get_mtime]); it is no builtin either. The call is the lookup of a global
    name that is not bound: a [NameError]. *)
Definition os_path_getmtime_ms (path : string) : result Z :=
  Raise (NameError "os_path_getmtime_ms").

Definition mtimes (l : list FileInputOutputInformation) : result (list (option Z)) :=
  map_result (fun f => (m <- os_path_getmtime_ms (f_path f) ;; Ok (Some m))%py) l.

(** [Rule.is_output_more_recent_than_input]. *)
Definition is_output_more_recent_than_input (self : Rule) : result bool :=
  (in_files <- mtimes (files_of_type self "input") ;;
   most_recent_input <-
     max (in_files ++ List.map t_modification_time (tables_of_type self "input")) ;;
   out_files <- mtimes (files_of_type self "output") ;;
   oldest_output <-
     min (out_files ++ List.map t_modification_time (tables_of_type self "output")) ;;
   lt most_recent_input oldest_output)%py.

Section Existence.

(** [os.path.exists]. *)
Variable os_path_exists : string -> bool.

(** [SQLManager.instance().get_session().query(ot.get_table()).count()]: the
    number of rows of the table that the model of [ot] maps. *)
Variable count : TableInputOutputInformation -> nat.

(** [Rule.does_output_exist]. *)
Definition does_output_exist (self : Rule) : bool :=
  forallb (fun o_f => os_path_exists (f_path o_f)) (files_of_type self "output")
  && forallb (fun ot => negb (Nat.eqb (count ot) 0)) (tables_of_type self "output").

End Existence.

Section Equality.

(** [os.path.abspath]. *)
Variable os_path_abspath : string -> string.

(** [bool(l)] for a list. *)
Definition bool_of_list {A : Type} (l : list A) : bool :=
  match l with [] => false | _ :: _ => true end.

(** [Rule.same_files]. *)
Definition same_files (self other : Rule) (type_name : string) : bool :=
  forallb
    (fun f =>
       bool_of_list
         (List.filter
            (fun rf => String.eqb (os_path_abspath (f_path f)) (os_path_abspath (f_path rf))
                       && String.eqb (f_name f) (f_name rf)
                       && String.eqb (f_type_name rf) type_name)
            (files other)))
    (files_of_type self type_name).

(** [Rule.same_tables]. In the source the variable of the inner
    comprehension has the name of the variable of the loop and hides it, so
    each comparison has the same table of [other] on both sides. *)
Definition same_tables (self other : Rule) (type_name : string) : bool :=
  forallb
    (fun _ : TableInputOutputInformation =>
       bool_of_list
         (List.filter
            (fun t => String.eqb (t_model t) (t_model t)
                      && String.eqb (t_type_name t) type_name
                      && String.eqb (t_tablename t) (t_tablename t))
            (tables other)))
    (tables_of_type self type_name).

(** [Rule.same_options]. *)
Definition same_options (self other : Rule) : bool :=
  forallb
    (fun opt =>
       bool_of_list
         (List.filter
            (fun o => String.eqb (o_name o) (o_name opt) && node_eqb (o_value o) (o_value opt))
            (options other)))
    (options self).

(** [isinstance(other, self.__class__)]. *)
Definition isinstance (other self : Rule) : bool :=
  match mro self with
  | cls :: _ => str_in cls (mro other)
  | [] => false
  end.

(** [Rule.__eq__]. *)
Definition __eq__ (self other : Rule) : bool :=
  isinstance other self
  && same_files self other "input"
  && same_tables self other "input"
  && same_files self other "output"
  && same_tables self other "output"
  && same_options self other.

End Equality.

Section Content.

(** [Option.correspond], of a class that Rule.py imports: it raises a
    [WopMarsException] when the value of the option has none of the types
    that the tool allows for it. *)
Variable correspond : Option -> string -> result unit.

(** [t.get_table().__tablename__]: the name of the table that the model of
    [t] maps. *)
Variable tablename_of_model : TableInputOutputInformation -> string.

(** [Rule.is_options_respected]. *)
Definition is_options_respected (self : Rule) : result unit :=
  let dict_wrapper_opt_carac := specify_params self in
  if negb (issubset (List.map o_name (options self)) (List.map fst dict_wrapper_opt_carac))
  then Raise (WopMarsException (OptionNamesNotCorrect (name self)))
  else
    (for_each (fun opt => carac <- getitem dict_wrapper_opt_carac (o_name opt) ;;
                          correspond opt carac)
              (options self) ;;;
     for_each (fun opt => carac <- getitem dict_wrapper_opt_carac opt ;;
                          if contains "required" (lower carac)
                             && negb (str_in opt (List.map o_name (options self)))
                          then Raise (WopMarsException (RequiredOptionNotProvided opt))
                          else Ok tt)
              (List.map fst dict_wrapper_opt_carac))%py.

(** [Rule.is_input_respected]. *)
Definition is_input_respected (self : Rule) : result unit :=
  let set_input_file_names := List.map f_name (files_of_type self "input") in
  if negb (set_eq set_input_file_names (specify_input_file self))
  then Raise (WopMarsException (InputFileNamesNotCorrect (name self)))
  else
    let set_input_table := tables_of_type self "input" in
    let set_input_table_names := List.map t_tablename set_input_table in
    if negb (set_eq set_input_table_names (specify_input_table self))
    then Raise (WopMarsException (InputTableNamesNotCorrect (name self)))
    else
      for_each
        (fun t_input =>
           let s_tablename := t_tablename t_input in
           if negb (str_in s_tablename (specify_input_table self))
           then Raise (WopMarsException (InputTablenameNotCorrect (name self) s_tablename))
           else
             let s_tablename_of_model := tablename_of_model t_input in
             if negb (str_in s_tablename_of_model (specify_input_table self))
             then Raise (WopMarsException
                           (InputTablenameOfModelNotCorrect (name self) s_tablename_of_model))
             else Ok tt)
        set_input_table.

(** [Rule.is_output_respected]. *)
Definition is_output_respected (self : Rule) : result unit :=
  if negb (set_eq (List.map f_name (files_of_type self "output")) (specify_output_file self))
  then Raise (WopMarsException (OutputFileNamesNotCorrect (name self)))
  else
    let set_output_table := tables_of_type self "output" in
    let set_output_table_names := List.map t_tablename set_output_table in
    if negb (set_eq set_output_table_names (specify_output_table self))
    then Raise (WopMarsException (OutputTableNamesNotCorrect (name self)))
    else
      for_each
        (fun t_output =>
           let s_tablename := t_tablename t_output in
           if negb (str_in s_tablename (specify_output_table self))
           then Raise (WopMarsException (OutputTablenameNotCorrect (name self) s_tablename))
           else Ok tt)
        set_output_table.

(** [Rule.is_content_respected]: the options are checked first. *)
Definition is_content_respected (self : Rule) : result unit :=
  (is_options_respected self ;;;
   is_input_respected self ;;;
   is_output_respected self)%py.

End Content.

Section Facade.

(** The model class that [t.get_table()] returns. *)
Variable Model : Type.
Variable get_table : TableInputOutputInformation -> Model.

(** [Option.static_option_castable], a table of the class [Option], and the
    call [eval(s_formated_type)(value)] of the Python type of that name. *)
Variable static_option_castable : list string.
Variable cast : string -> node -> result node.

(** [Rule.input_file]. *)
Definition input_file (self : Rule) (key : string) : result string :=
  except_IndexError
    (first_item
       (List.map f_path
          (List.filter (fun f => String.eqb (f_name f) key && String.eqb (f_type_name f) "input")
                       (files self))))
    (Raise (WopMarsException (InputFileNotSpecified key))).

(** [Rule.input_table]. *)
Definition input_table (self : Rule) (key : string) : result Model :=
  except_IndexError
    (t <- first_item
            (List.filter
               (fun t => String.eqb (t_tablename t) key && String.eqb (t_type_name t) "input")
               (tables self)) ;;
     Ok (get_table t))%py
    (Raise (WopMarsException (InputTableNotSpecified key))).

(** [Rule.output_file]. *)
Definition output_file (self : Rule) (key : string) : result string :=
  except_IndexError
    (first_item
       (List.map f_path
          (List.filter (fun f => String.eqb (f_name f) key && String.eqb (f_type_name f) "output")
                       (files self))))
    (Raise (WopMarsException (OutputFileNotSpecified key))).

(** [Rule.output_table]. *)
Definition output_table (self : Rule) (key : string) : result Model :=
  except_IndexError
    (t <- first_item
            (List.filter
               (fun t => String.eqb (t_tablename t) key && String.eqb (t_type_name t) "output")
               (tables self)) ;;
     Ok (get_table t))%py
    (Raise (WopMarsException (OutputTableNotSpecified key))).

(** The loop of [Rule.option] over the types allowed for the option: the
    value is cast to the first type that can be cast to, and the loop ends. *)
Fixpoint cast_to_first (v : node) (list_splitted_carac : list string) : result node :=
  match list_splitted_carac with
  | [] => Ok v
  | s_type :: rest =>
      let s_formated_type := lower (strip s_type) in
      if str_in s_formated_type static_option_castable
      then cast s_formated_type v
      else cast_to_first v rest
  end.

(** [Rule.option]. *)
Definition option (self : Rule) (key : string) : result node :=
  except_IndexError
    (v <- first_item
            (List.map o_value
               (List.filter (fun o => String.eqb (o_name o) key) (options self))) ;;
     carac <- getitem (specify_params self) key ;;
     cast_to_first v (split "|" carac))%py
    (Ok PyNone).

End Facade.

End Rule.

(** ** wopmars/main/tagc/framework/bdd/WopMarsSession.py *)

Module Session.

(** An object of a mapped class: the name of the class and the values of its
    columns. A column that the map does not hold is [None]. *)
Record entity : Type := {
  model : string;
  fields : gmap string Py.scalar
}.

(** A value given for a column in [filter_by]: a plain Python value,
    or a [ClauseElement], an SQL expression, given by the value that it takes
    on a row. *)
Inductive argument : Type :=
  | Plain (v : Py.scalar)
  | ClauseElement (eval : gmap string Py.scalar -> Py.scalar).

(** The ORM session behind a [WopMarsSession], as the ORM documents it:
    [committed] is the database at the last commit, [transaction] the database
    as the open transaction sees it, [new] the objects added and not yet
    flushed, [dirty] the changed rows not yet flushed, each with its place in
    the database. A query flushes before it reads. *)
Record orm_session : Type := {
  committed : list entity;
  transaction : list entity;
  new : list entity;
  dirty : list (nat * entity)
}.

(** A call that the manager serves under its lock. *)
Inductive manager_call : Type :=
  | CallCommit
  | CallRollback.

(** A [WopMarsSession]: [self.__session], and the calls that [self.__manager]
    has served. *)
Record WopMarsSession : Type := {
  session : orm_session;
  manager : list manager_call
}.

Definition write_rows (rows : list entity) (changes : list (nat * entity)) : list entity :=
  fold_left (fun acc change => <[change.1 := change.2]> acc) changes rows.

(** [session.flush()]. *)
Definition orm_flush (s : orm_session) : orm_session :=
  {| committed := committed s;
     transaction := (write_rows (transaction s) (dirty s) ++ new s)%list;
     new := [];
     dirty := [] |}.

(** [session.commit()]. *)
Definition orm_commit (s : orm_session) : orm_session :=
  let s' := orm_flush s in
  {| committed := transaction s'; transaction := transaction s'; new := []; dirty := [] |}.

(** [session.rollback()]. *)
Definition orm_rollback (s : orm_session) : orm_session :=
  {| committed := committed s; transaction := committed s; new := []; dirty := [] |}.

(** [session.add(item)]. *)
Definition orm_add (item : entity) (s : orm_session) : orm_session :=
  {| committed := committed s; transaction := transaction s;
     new := (new s ++ [item])%list; dirty := dirty s |}.

(** Modelled from the spec: [SQLManager.commit], of a class that the session
    calls and that is not among the sources. The spec has every session commit
    under the shared lock: the manager takes the lock, commits the session and
    releases the lock. *)
Definition manager_commit (self : WopMarsSession) : WopMarsSession :=
  {| session := orm_commit (session self);
     manager := (manager self ++ [CallCommit])%list |}.

(** Modelled from the spec: [SQLManager.rollback], as [manager_commit]. *)
Definition manager_rollback (self : WopMarsSession) : WopMarsSession :=
  {| session := orm_rollback (session self);
     manager := (manager self ++ [CallRollback])%list |}.

(** [WopMarsSession.something]. *)
Definition something (self : WopMarsSession) : bool :=
  Rule.bool_of_list (new (session self)) || Rule.bool_of_list (dirty (session self)).

(** [WopMarsSession.commit]. *)
Definition commit (self : WopMarsSession) : WopMarsSession :=
  if something self then manager_commit self else self.

(** [WopMarsSession.rollback]. *)
Definition rollback (self : WopMarsSession) : WopMarsSession :=
  manager_rollback self.

(** [WopMarsSession.add]. *)
Definition add (item : entity) (self : WopMarsSession) : WopMarsSession :=
  {| session := orm_add item (session self); manager := manager self |}.

(** [WopMarsSession.add_all]. *)
Definition add_all (collection : list entity) (self : WopMarsSession) : WopMarsSession :=
  fold_left (fun s item => add item s) collection self.

(** The value of a column of a row. *)
Definition column (row : gmap string Py.scalar) (k : string) : Py.scalar :=
  default Py.SNone (row !! k).

(** One criterion of [filter_by]: the column equals the plain value ([None]
    stands for [IS NULL]), or equals the value of the expression, which no
    column does when that value is [NULL]. *)
Definition criterion (row : gmap string Py.scalar) (k : string) (a : argument) : bool :=
  match a with
  | Plain v => Py.scalar_eqb (column row k) v
  | ClauseElement eval =>
      match eval row with
      | Py.SNone => false
      | v => Py.scalar_eqb (column row k) v
      end
  end.

(** [filter_by] on the rows of a class. *)
Definition filter_by (kwargs : gmap string argument) (e : entity) : bool :=
  forallb (fun kv => criterion (fields e) kv.1 kv.2) (map_to_list kwargs).

(** [self.__session.query(model)]: the rows of the class, after a flush. *)
Definition query (cls : string) (self : WopMarsSession) : list entity * WopMarsSession :=
  let s := orm_flush (session self) in
  (List.filter (fun e => String.eqb (model e) cls) (transaction s),
   {| session := s; manager := manager self |}).

(** [dict((k, v) for k, v in kwargs.items() if not isinstance(v, ClauseElement))]. *)
Definition plain_items (kwargs : gmap string argument) : gmap string Py.scalar :=
  omap (fun a => match a with Plain v => Some v | ClauseElement _ => None end) kwargs.

(** [WopMarsSession.get_or_create]. [params.update(defaults or {})] lets the
    defaults replace the values of [kwargs] for the keys that both hold. *)
Definition get_or_create (cls : string) (defaults : option (gmap string Py.scalar))
    (kwargs : gmap string argument) (self : WopMarsSession)
    : (entity * bool) * WopMarsSession :=
  let (rows, self') := query cls self in
  match List.filter (filter_by kwargs) rows with
  | instance :: _ => ((instance, false), self')
  | [] =>
      let params := default ∅ defaults ∪ plain_items kwargs in
      let instance := {| model := cls; fields := params |} in
      ((instance, true), add instance self')
  end.

End Session.

(** ** src/main/fr/tagc/wopmars/framework/parsing/Reader.py *)

Module Reader.
Import Py.

Definition newline : ascii := "010"%char.
Definition colon : ascii := ":"%char.

(** The text that follows the prefix [p] in [s]. *)
Fixpoint after_prefix (p s : string) : option string :=
  match p, s with
  | EmptyString, _ => Some s
  | String a p', String b s' => if Ascii.eqb a b then after_prefix p' s' else None
  | String _ _, EmptyString => None
  end.

(** *** The regular expressions *)

(** The text up to the first colon, when no newline comes before it. *)
Fixpoint until_colon (s : string) : option string :=
  match s with
  | EmptyString => None
  | String c s' =>
      if Ascii.eqb c colon then Some EmptyString
      else if Ascii.eqb c newline then None
      else option_map (String c) (until_colon s')
  end.

(** The group of [rule (.+?):] at the start of [s]: after the word and the
    space, one character that is no newline, then as few such characters as
    lead to a colon. *)
Definition group_at (s : string) : option string :=
  match after_prefix "rule " s with
  | Some (String c t) =>
      if Ascii.eqb c newline then None else option_map (String c) (until_colon t)
  | _ => None
  end.

(** [re.findall(r'rule (.+?):', s)]: the groups of the matches met from left
    to right; the search resumes where a match ends. [skip] counts the
    characters of the last match still to pass. *)
Fixpoint findall_from (skip : nat) (s : string) : list string :=
  match s with
  | EmptyString => []
  | String _ s' =>
      match skip with
      | S n => findall_from n s'
      | O =>
          match group_at s with
          | Some g => g :: findall_from (5 + String.length g) s'
          | None => findall_from 0 s'
          end
      end
  end.

Definition findall_rule (s : string) : list string := findall_from 0 s.

(** [s] less the newline that ends it, if one does: the dollar of a pattern
    matches at the end of the text and before a newline that ends the text. *)
Fixpoint before_final_newline (s : string) : string :=
  match s with
  | EmptyString => EmptyString
  | String c s' =>
      match s' with
      | EmptyString => if Ascii.eqb c newline then EmptyString else s
      | String _ _ => String c (before_final_newline s')
      end
  end.

(** [regex.search(x)] is a match, for a pattern that is a choice of whole
    words [(^w1$)|(^w2$)|...]; the search of a value that is no string is a
    [TypeError]. *)
Definition search_words (words : list string) (x : node) : result bool :=
  match x with
  | Scalar (SStr s) => Ok (str_in (before_final_newline s) words)
  | _ => Raise TypeError
  end.

(** [regex_step1.search(x)], the pattern being [(^rule [^\s]+$)]. *)
Definition search_step1 (x : node) : result bool :=
  match x with
  | Scalar (SStr s) =>
      match after_prefix "rule " s with
      | Some rest =>
          let word := before_final_newline rest in
          Ok (negb (String.eqb word EmptyString)
              && forallb (fun c => negb (is_space c)) (list_ascii_of_string word))
      | None => Ok false
      end
  | _ => Raise TypeError
  end.

Definition search_step2 : node -> result bool :=
  search_words ["params"; "tool"; "input"; "output"].

Definition search_step3 : node -> result bool :=
  search_words ["files"; "tables"].

(** *** Duplicate rules *)

(** The loop of [check_duplicate_rules] over the names found. *)
Fixpoint check_seen (rules : list string) (seen : gset string) : result unit :=
  match rules with
  | [] => Ok tt
  | r :: rest =>
      if decide (r ∉ seen) then check_seen rest ({[r]} ∪ seen)
      else Raise (WopMarsException (RuleDuplicated r))
  end.

(** [Reader.check_duplicate_rules]. *)
Definition check_duplicate_rules (file : string) : result unit :=
  check_seen (findall_rule file) ∅.

(** *** The grammar *)

(** The loop over the names of the files of a rule. The variable of the loop,
    [s_variable_name], is a local variable of the method and keeps its last
    value when the loop ends; [None] stands for a variable not yet bound. *)
Fixpoint files_loop (files rule : node) (names : list node) (s_variable_name : option node)
    : result (option node) :=
  match names with
  | [] => Ok s_variable_name
  | name :: rest =>
      (path <- subscript files name ;;
       if negb (is_str path)
       then Raise (WopMarsException (GrammarFilePath name rule))
       else files_loop files rule rest (Some name))%py
  end.

(** The loop over the entries of the tables of a rule. The message of its
    error reads [s_variable_name], the variable of the loop over the files. *)
Fixpoint tables_loop (rule : node) (entries : list node) (s_variable_name : option node)
    : result unit :=
  match entries with
  | [] => Ok tt
  | s_tablename :: rest =>
      if negb (is_str s_tablename)
      then match s_variable_name with
           | Some name => Raise (WopMarsException (GrammarModelName name rule))
           | None => Raise (UnboundLocalError "s_variable_name")
           end
      else tables_loop rule rest s_variable_name
  end.

(** The loop over the keys of an [input] or [output] block. *)
Fixpoint step3_loop (block rule : node) (keys : list node) (s_variable_name : option node)
    : result (option node) :=
  match keys with
  | [] => Ok s_variable_name
  | s_key_step3 :: rest =>
      (found <- search_step3 s_key_step3 ;;
       if negb found
       then Raise (WopMarsException (GrammarFilesOrTables s_key_step3 rule))
       else if eq_str s_key_step3 "files"
       then files <- subscript block s_key_step3 ;;
            names <- iterate files ;;
            s_variable_name' <- files_loop files rule names s_variable_name ;;
            step3_loop block rule rest s_variable_name'
       else if eq_str s_key_step3 "tables"
       then tables <- subscript block s_key_step3 ;;
            entries <- iterate tables ;;
            tables_loop rule entries s_variable_name ;;;
            step3_loop block rule rest s_variable_name
       else step3_loop block rule rest s_variable_name)%py
  end.

(** The loop over the keys of a rule; [bool_toolwrapper] tells whether a tool
    has been met. *)
Fixpoint step2_loop (body rule : node) (keys : list node)
    (bool_toolwrapper : bool) (s_variable_name : option node) : result (bool * option node) :=
  match keys with
  | [] => Ok (bool_toolwrapper, s_variable_name)
  | s_key_step2 :: rest =>
      (found <- search_step2 s_key_step2 ;;
       if negb found
       then Raise (WopMarsException (GrammarRuleElement s_key_step2 rule))
       else if eq_str s_key_step2 "input" || eq_str s_key_step2 "output"
       then block <- subscript body s_key_step2 ;;
            keys3 <- iterate block ;;
            s_variable_name' <- step3_loop block rule keys3 s_variable_name ;;
            step2_loop body rule rest bool_toolwrapper s_variable_name'
       else if eq_str s_key_step2 "tool"
       then if negb bool_toolwrapper
            then step2_loop body rule rest true s_variable_name
            else Raise (WopMarsException (MultipleTools rule))
       else step2_loop body rule rest bool_toolwrapper s_variable_name)%py
  end.

(** The loop over the keys of the document. *)
Fixpoint step1_loop (document : node) (keys : list node) (s_variable_name : option node)
    : result unit :=
  match keys with
  | [] => Ok tt
  | s_key_step1 :: rest =>
      (found <- search_step1 s_key_step1 ;;
       if negb found
       then Raise (WopMarsException (GrammarRuleLine s_key_step1))
       else body <- subscript document s_key_step1 ;;
            keys2 <- iterate body ;;
            state <- step2_loop body s_key_step1 keys2 false s_variable_name ;;
            if negb state.1
            then Raise (WopMarsException (NoTool s_key_step1))
            else step1_loop document rest state.2)%py
  end.

(** [Reader.is_grammar_respected], on the document that the reader holds. *)
Definition is_grammar_respected (dict_workflow_definition : node) : result unit :=
  (keys <- iterate dict_workflow_definition ;;
   step1_loop dict_workflow_definition keys None)%py.

(** *** Loading the definition file *)

Section Loading.

(** [open(path).read()], [None] when the file does not exist. *)
Variable read_file : string -> option string.

(** [yaml.load], with the constructor that refuses duplicate keys: the
    document, or a [YAMLError]. *)
Variable yaml_load : string -> result node.

(** [except yaml.YAMLError as exc: raise WopMarsException(...)]. The error of
    the constructor is a [YAMLError] too and ends in this clause. *)
Definition except_YAMLError {A : Type} (body : result A) : result A :=
  match body with
  | Raise YAMLError => Raise (WopMarsException YamlNotRespected)
  | r => r
  end.

(** [Reader.load_definition_file]; the result is the document that the reader
    keeps in [self.__dict_workflow_definition]. *)
Definition load_definition_file (s_definition_file : string) : result node :=
  match read_file s_definition_file with
  | None => Raise (WopMarsException (DefinitionFileDoesNotExist s_definition_file))
  | Some s_def_file_content =>
      except_YAMLError
        (check_duplicate_rules s_def_file_content ;;;
         dict_workflow_definition <- yaml_load s_def_file_content ;;
         is_grammar_respected dict_workflow_definition ;;;
         Ok dict_workflow_definition)%py
  end.

End Loading.

(** *** Binding the rules *)

(** A computation on the session of the reader: its result or its exception,
    and the session as it leaves it. *)
Definition M (A : Type) : Type :=
  Session.WopMarsSession -> result A * Session.WopMarsSession.

Definition ret {A : Type} (a : A) : M A := fun s => (Ok a, s).

Definition bindM {A B : Type} (m : M A) (k : A -> M B) : M B :=
  fun s => match m s with
           | (Ok a, s') => k a s'
           | (Raise e, s') => (Raise e, s')
           end.

(** A step that does not touch the session. *)
Definition lift {A : Type} (r : result A) : M A := fun s => (r, s).

(** A call of a method of the session that returns nothing. *)
Definition call (f : Session.WopMarsSession -> Session.WopMarsSession) : M unit :=
  fun s => (Ok tt, f s).

(** [try: body except NoResultFound: handler]. *)
Definition except_NoResultFound {A : Type} (body handler : M A) : M A :=
  fun s => match body s with
           | (Raise NoResultFound, s') => handler s'
           | r => r
           end.

(** [try: body except ObjectDeletedError: raise WopMarsException(...)], the
    guard of [create_toolwrapper_entry] around the appends to the files and to
    the tables of a tool. *)
Definition except_ObjectDeletedError {A : Type} (body : M A) : M A :=
  fun s => match body s with
           | (Raise ObjectDeletedError, s') =>
               (Raise (WopMarsException ToolWrapperClassDeclaration), s')
           | r => r
           end.

(** The class that a tool name resolves to: its polymorphic identity in the
    table of the rules when it declares one, its classes, and what it
    declares. *)
Record toolwrapper_class : Type := {
  polymorphic_identity : option string;
  class_mro : list string;
  get_input_file : list string;
  get_input_table : list string;
  get_output_file : list string;
  get_output_table : list string;
  get_params : list (string * string)
}.

(** [dict_dict_dict_elm]: the objects of one rule block. *)
Record elements : Type := {
  dict_input_files : list (string * Rule.FileInputOutputInformation);
  dict_input_tables : list (string * Rule.TableInputOutputInformation);
  dict_params : list (string * Rule.Option);
  dict_output_files : list (string * Rule.FileInputOutputInformation);
  dict_output_tables : list (string * Rule.TableInputOutputInformation)
}.

Definition no_elements : elements :=
  {| dict_input_files := []; dict_input_tables := []; dict_params := [];
     dict_output_files := []; dict_output_tables := [] |}.

(** The classes [IOFilePut], [IODbPut] and [ToolWrapper] that Reader.py builds
    are the classes [FileInputOutputInformation], [TableInputOutputInformation]
    and [Rule] of Rule.py under the names they had before. Their columns are
    strings: a name that is no string is refused with a [TypeError] where the
    object is built. An object just built has no type and no modification
    row. *)
Definition expect_str (v : node) : result string :=
  match v with Scalar (SStr s) => Ok s | _ => Raise TypeError end.

Definition IOFilePut (name path : string) : Rule.FileInputOutputInformation :=
  {| Rule.f_name := name; Rule.f_path := path; Rule.f_type_name := EmptyString |}.

Definition IODbPut (model tablename : string) : Rule.TableInputOutputInformation :=
  {| Rule.t_tablename := tablename; Rule.t_model := model;
     Rule.t_type_name := EmptyString; Rule.t_modification_time := None |}.

(** [dict_dict_dict_elm["dict_" + key_second_step]]: the block of the inputs
    ([true]) or of the outputs ([false]). The key [params] does not come here. *)
Definition slot (key_second_step : node) : result bool :=
  match key_second_step with
  | Scalar (SStr k) =>
      if String.eqb k "input" then Ok true
      else if String.eqb k "output" then Ok false
      else Raise KeyError
  | _ => Raise TypeError
  end.

Definition store_file (ddd : elements) (is_input : bool) (key : string)
    (obj : Rule.FileInputOutputInformation) : elements :=
  if is_input
  then {| dict_input_files := setitem (dict_input_files ddd) key obj;
          dict_input_tables := dict_input_tables ddd; dict_params := dict_params ddd;
          dict_output_files := dict_output_files ddd;
          dict_output_tables := dict_output_tables ddd |}
  else {| dict_input_files := dict_input_files ddd;
          dict_input_tables := dict_input_tables ddd; dict_params := dict_params ddd;
          dict_output_files := setitem (dict_output_files ddd) key obj;
          dict_output_tables := dict_output_tables ddd |}.

Definition store_table (ddd : elements) (is_input : bool) (key : string)
    (obj : Rule.TableInputOutputInformation) : elements :=
  if is_input
  then {| dict_input_files := dict_input_files ddd;
          dict_input_tables := setitem (dict_input_tables ddd) key obj;
          dict_params := dict_params ddd;
          dict_output_files := dict_output_files ddd;
          dict_output_tables := dict_output_tables ddd |}
  else {| dict_input_files := dict_input_files ddd;
          dict_input_tables := dict_input_tables ddd; dict_params := dict_params ddd;
          dict_output_files := dict_output_files ddd;
          dict_output_tables := setitem (dict_output_tables ddd) key obj |}.

Definition store_param (ddd : elements) (key : string) (obj : Rule.Option) : elements :=
  {| dict_input_files := dict_input_files ddd;
     dict_input_tables := dict_input_tables ddd;
     dict_params := setitem (dict_params ddd) key obj;
     dict_output_files := dict_output_files ddd;
     dict_output_tables := dict_output_tables ddd |}.

Section Binding.

Variable read_file : string -> option string.
Variable yaml_load : string -> result node.

(** [OptionManager.instance()["--directory"]], [os.path.join] and
    [os.path.abspath]. *)
Variable directory : string.
Variable os_path_join : string -> string -> string.
Variable os_path_abspath : string -> string.

(** [importlib.import_module(name)] followed by the lookup of the class in
    the module: the class, an [ImportError] or an [AttributeError]. *)
Variable import_class : string -> result toolwrapper_class.

(** The clock, as the date of the rows created. *)
Variable now : Z.

(** The ORM finds, at an access to a collection of the tool, that the row of
    the tool has been deleted: the access raises [ObjectDeletedError]. The
    message of the source puts it down to a class without polymorphic
    identity. *)
Variable object_deleted : Rule.Rule -> Session.WopMarsSession -> bool.

(** The order in which the items of [set_wrapper] are met. [set_wrapper] is a
    set of objects hashed by their identity: it holds every tool added, and
    its order is not the order in which they were added. *)
Variable set_order : list Rule.Rule -> list Rule.Rule.

(** [Option.correspond] and [t.get_table().__tablename__], for the content of
    the rules. *)
Variable correspond : Rule.Option -> string -> result unit.
Variable tablename_of_model : Rule.TableInputOutputInformation -> string.

(** The loop over the names of a [files] or [tables] block of the rule. *)
Fixpoint fourth_step (key_second_step key_third_step block : node) (keys : list node)
    (ddd : elements) : result elements :=
  match keys with
  | [] => Ok ddd
  | key_fourth_step :: rest =>
      (if eq_str key_third_step "files"
       then let key := key_fourth_step in
            value <- subscript block key ;;
            s_value <- expect_str value ;;
            let str_path_to_file := os_path_join directory s_value in
            name <- expect_str key ;;
            let obj_created := IOFilePut name (os_path_abspath str_path_to_file) in
            is_input <- slot key_second_step ;;
            fourth_step key_second_step key_third_step block rest
                        (store_file ddd is_input name obj_created)
       else if eq_str key_third_step "tables"
       then let key := key_fourth_step in
            modelname <- subscript block key ;;
            s_modelname <- expect_str modelname ;;
            tablename <- expect_str key ;;
            let obj_created := IODbPut s_modelname tablename in
            is_input <- slot key_second_step ;;
            fourth_step key_second_step key_third_step block rest
                        (store_table ddd is_input tablename obj_created)
       else _ <- slot key_second_step ;; Raise KeyError)%py
  end.

(** The loop over the keys of a block of the rule that is a dict. *)
Fixpoint third_step (key_second_step block : node) (keys : list node) (ddd : elements)
    : result elements :=
  match keys with
  | [] => Ok ddd
  | key_third_step :: rest =>
      (if eq_str key_second_step "params"
       then let key := key_third_step in
            value <- subscript block key_third_step ;;
            name <- expect_str key ;;
            let obj_created := {| Rule.o_name := name; Rule.o_value := value |} in
            third_step key_second_step block rest (store_param ddd name obj_created)
       else inner <- subscript block key_third_step ;;
            keys4 <- iterate inner ;;
            ddd' <- fourth_step key_second_step key_third_step inner keys4 ddd ;;
            third_step key_second_step block rest ddd')%py
  end.

(** The loop over the keys of a rule: the name of the tool and the objects of
    the rule. *)
Fixpoint second_step (body : node) (keys : list node) (str_wrapper_name : node)
    (ddd : elements) : result (node * elements) :=
  match keys with
  | [] => Ok (str_wrapper_name, ddd)
  | key_second_step :: rest =>
      (block <- subscript body key_second_step ;;
       if is_dict block
       then keys3 <- iterate block ;;
            ddd' <- third_step key_second_step block keys3 ddd ;;
            second_step body rest str_wrapper_name ddd'
       else second_step body rest block ddd)%py
  end.

(** [rule.split()[-1].strip(":")]. *)
Definition rule_name_of (rule : node) : result string :=
  match rule with
  | Scalar (SStr s) => (w <- last_item (words s) ;; Ok (strip_char colon w))%py
  | _ => Raise AttributeError
  end.

Definition type_name_of (entry : Session.entity) : string :=
  match Session.fields entry !! "name" with
  | Some (SStr s) => s
  | _ => EmptyString
  end.

Definition date_of (entry : Session.entity) : option Z :=
  match Session.fields entry !! "date" with
  | Some (SInt z) => Some z
  | _ => None
  end.

Definition with_type (f : Rule.FileInputOutputInformation) (entry : Session.entity)
    : Rule.FileInputOutputInformation :=
  {| Rule.f_name := Rule.f_name f; Rule.f_path := Rule.f_path f;
     Rule.f_type_name := type_name_of entry |}.

(** [toolwrapper_wrapper.files], [.tables] or [.options]: the access to a
    collection of the tool. *)
Definition collection (tw : Rule.Rule) : M unit :=
  fun s => if object_deleted tw s then (Raise ObjectDeletedError, s) else (Ok tt, s).

Definition append_file (tw : Rule.Rule) (f : Rule.FileInputOutputInformation) : Rule.Rule :=
  {| Rule.name := Rule.name tw; Rule.toolwrapper := Rule.toolwrapper tw;
     Rule.mro := Rule.mro tw;
     Rule.files := (Rule.files tw ++ [f])%list; Rule.tables := Rule.tables tw;
     Rule.options := Rule.options tw;
     Rule.specify_input_file := Rule.specify_input_file tw;
     Rule.specify_input_table := Rule.specify_input_table tw;
     Rule.specify_output_file := Rule.specify_output_file tw;
     Rule.specify_output_table := Rule.specify_output_table tw;
     Rule.specify_params := Rule.specify_params tw |}.

Definition append_table (tw : Rule.Rule) (t : Rule.TableInputOutputInformation) : Rule.Rule :=
  {| Rule.name := Rule.name tw; Rule.toolwrapper := Rule.toolwrapper tw;
     Rule.mro := Rule.mro tw;
     Rule.files := Rule.files tw; Rule.tables := (Rule.tables tw ++ [t])%list;
     Rule.options := Rule.options tw;
     Rule.specify_input_file := Rule.specify_input_file tw;
     Rule.specify_input_table := Rule.specify_input_table tw;
     Rule.specify_output_file := Rule.specify_output_file tw;
     Rule.specify_output_table := Rule.specify_output_table tw;
     Rule.specify_params := Rule.specify_params tw |}.

Definition append_option (tw : Rule.Rule) (o : Rule.Option) : Rule.Rule :=
  {| Rule.name := Rule.name tw; Rule.toolwrapper := Rule.toolwrapper tw;
     Rule.mro := Rule.mro tw;
     Rule.files := Rule.files tw; Rule.tables := Rule.tables tw;
     Rule.options := (Rule.options tw ++ [o])%list;
     Rule.specify_input_file := Rule.specify_input_file tw;
     Rule.specify_input_table := Rule.specify_input_table tw;
     Rule.specify_output_file := Rule.specify_output_file tw;
     Rule.specify_output_table := Rule.specify_output_table tw;
     Rule.specify_params := Rule.specify_params tw |}.

(** The loop of [create_toolwrapper_entry] over the files of one type: each
    takes the type and joins the tool, under the guard of the append. *)
Fixpoint bind_files (entry : Session.entity)
    (fs : list (string * Rule.FileInputOutputInformation)) (tw : Rule.Rule) : M Rule.Rule :=
  match fs with
  | [] => ret tw
  | (_, iofileput_entry) :: rest =>
      bindM (except_ObjectDeletedError
               (bindM (collection tw) (fun _ =>
                ret (append_file tw (with_type iofileput_entry entry)))))
            (fun tw' => bind_files entry rest tw')
  end.

(** The loop of [create_toolwrapper_entry] over the tables of one type: for
    each, a commit, the ledger row of the table by [get_or_create], and the
    table joins the tool, under the guard of the append. *)
Fixpoint bind_tables (entry : Session.entity)
    (ts : list (string * Rule.TableInputOutputInformation)) (tw : Rule.Rule) : M Rule.Rule :=
  match ts with
  | [] => ret tw
  | (tablename, iodbput_entry) :: rest =>
      bindM (call Session.commit) (fun _ =>
      bindM (fun s => let (r, s') :=
                        Session.get_or_create "ModificationTable"
                          (Some {[ "date" := SInt now ]})
                          {[ "table_name" := Session.Plain (SStr tablename) ]} s in
                      (Ok r, s'))
            (fun r =>
      let modification_table_entry := r.1 in
      let bound :=
        {| Rule.t_tablename := Rule.t_tablename iodbput_entry;
           Rule.t_model := Rule.t_model iodbput_entry;
           Rule.t_type_name := type_name_of entry;
           Rule.t_modification_time := date_of modification_table_entry |} in
      bindM (except_ObjectDeletedError
               (bindM (collection tw) (fun _ => ret (append_table tw bound))))
            (fun tw' => bind_tables entry rest tw')))
  end.

(** The loop of [create_toolwrapper_entry] over the options: each joins the
    tool, and no guard stands around this append. *)
Fixpoint bind_options (os : list (string * Rule.Option)) (tw : Rule.Rule) : M Rule.Rule :=
  match os with
  | [] => ret tw
  | (_, opt) :: rest =>
      bindM (collection tw) (fun _ => bind_options rest (append_option tw opt))
  end.

(** The tool class of a name; the messages of the two errors that the source
    catches join the name to a text, which a name that is no string fails. *)
Definition resolve (str_wrapper_name : node) : result toolwrapper_class :=
  match str_wrapper_name with
  | Scalar (SStr w) =>
      match import_class w with
      | Raise AttributeError => Raise (WopMarsException (ClassDoesNotExist w))
      | Raise ImportError => Raise (WopMarsException (ModuleNotInPythonpath w))
      | r => r
      end
  | _ => Raise TypeError
  end.

(** [toolwrapper_class(rule_name=str_rule_name)]. *)
Definition instantiate (cls : toolwrapper_class) (str_rule_name : string) : Rule.Rule :=
  {| Rule.name := str_rule_name; Rule.toolwrapper := polymorphic_identity cls;
     Rule.mro := class_mro cls;
     Rule.files := []; Rule.tables := []; Rule.options := [];
     Rule.specify_input_file := get_input_file cls;
     Rule.specify_input_table := get_input_table cls;
     Rule.specify_output_file := get_output_file cls;
     Rule.specify_output_table := get_output_table cls;
     Rule.specify_params := get_params cls |}.

(** [Reader.create_toolwrapper_entry]. *)
Definition create_toolwrapper_entry (str_rule_name : string) (str_wrapper_name : node)
    (ddd : elements) (input_entry output_entry : Session.entity) : M Rule.Rule :=
  bindM (lift (resolve str_wrapper_name)) (fun toolwrapper_class =>
  let toolwrapper_wrapper := instantiate toolwrapper_class str_rule_name in
  bindM (bind_files input_entry (dict_input_files ddd) toolwrapper_wrapper) (fun tw1 =>
  bindM (bind_tables input_entry (dict_input_tables ddd) tw1) (fun tw2 =>
  bindM (bind_files output_entry (dict_output_files ddd) tw2) (fun tw3 =>
  bindM (bind_tables output_entry (dict_output_tables ddd) tw3) (fun tw4 =>
  bind_options (dict_params ddd) tw4))))).

(** The row of a tool in the table of the rules. The rows of its files,
    tables and options go with it and are not followed. *)
Definition rule_row (tw : Rule.Rule) : Session.entity :=
  {| Session.model := "ToolWrapper";
     Session.fields := {[ "name" := SStr (Rule.name tw);
                          "toolwrapper" := match Rule.toolwrapper tw with
                                           | Some identity => SStr identity
                                           | None => SNone
                                           end ]} |}.

(** [session.query(Type).filter(Type.name == name).one()]. *)
Definition one_type (name : string) : M Session.entity :=
  fun s =>
    let (rows, s') := Session.query "Type" s in
    (match List.filter (fun e => scalar_eqb (Session.column (Session.fields e) "name")
                                            (SStr name)) rows with
     | [e] => Ok e
     | [] => Raise NoResultFound
     | _ => Raise MultipleResultsFound
     end, s').

(** One turn of the loop of [read] over the rules of the document. *)
Definition bind_rule (document : node) (input_entry output_entry : Session.entity)
    (rule : node) : M Rule.Rule :=
  bindM (lift (str_rule_name <- rule_name_of rule ;;
               body <- subscript document rule ;;
               keys2 <- iterate body ;;
               found <- second_step body keys2 PyNone no_elements ;;
               Ok (str_rule_name, found))%py) (fun r =>
  bindM (create_toolwrapper_entry r.1 r.2.1 r.2.2 input_entry output_entry)
        (fun wrapper_entry =>
  bindM (call Session.commit) (fun _ =>
  bindM (call Session.rollback) (fun _ =>
  ret wrapper_entry)))).

(** The loop of [read] over the rules; the tools are listed in the order in
    which they join [set_wrapper]. *)
Fixpoint bind_rules (document : node) (input_entry output_entry : Session.entity)
    (rules : list node) (set_wrapper : list Rule.Rule) : M (list Rule.Rule) :=
  match rules with
  | [] => ret set_wrapper
  | rule :: rest =>
      bindM (bind_rule document input_entry output_entry rule) (fun wrapper_entry =>
      bind_rules document input_entry output_entry rest
                 (set_wrapper ++ [wrapper_entry])%list)
  end.

(** The statements of [read] inside its [try], up to the commit of the rules:
    the result is [set_wrapper], the tools in the order in which they were
    added. [add_all] meets them in the order of the set. The creation of the
    tables of the tools ([set_tables_properties], [create_all]) leaves the
    rows alone. *)
Definition bind_workflow (document : node) : M (list Rule.Rule) :=
  bindM (one_type "input") (fun input_entry =>
  bindM (one_type "output") (fun output_entry =>
  bindM (lift (iterate document)) (fun rules =>
  bindM (bind_rules document input_entry output_entry rules []) (fun set_wrapper =>
  bindM (call Session.commit) (fun _ =>
  bindM (call Session.rollback) (fun _ =>
  bindM (call (Session.add_all (List.map rule_row (set_order set_wrapper)))) (fun _ =>
  bindM (call Session.commit) (fun _ =>
  ret set_wrapper)))))))).

(** The last loop of [read]: the content of each tool, in the order of the
    set. *)
Definition check_content (set_wrapper : list Rule.Rule) : result unit :=
  for_each (Rule.is_content_respected correspond tablename_of_model) (set_order set_wrapper).

(** [Reader.read]. *)
Definition read (s_definition_file : string) : M unit :=
  bindM (lift (load_definition_file read_file yaml_load s_definition_file)) (fun document =>
  except_NoResultFound
    (bindM (bind_workflow document) (fun set_wrapper => lift (check_content set_wrapper)))
    (bindM (call Session.rollback) (fun _ =>
     lift (Raise (WopMarsException DatabaseNotSetUp))))).

End Binding.

End Reader.

(** ** Vocabulary of the statements and sample objects *)

Module Terms.

(** [x] is the modification time of an input (output, ...) table of [r]: the
    ledger time of one of its tables of that type. *)
Definition time_of (r : Rule.Rule) (ty : string) (x : Z) : Prop :=
  exists t, In t (Rule.tables r) /\ Rule.t_type_name t = ty
            /\ Rule.t_modification_time t = Some x.

Definition maximum (P : Z -> Prop) (m : Z) : Prop := P m /\ forall x, P x -> x <= m.

Definition minimum (P : Z -> Prop) (m : Z) : Prop := P m /\ forall x, P x -> m <= x.

(** Every table of [r] of type [ty] has a modification time. *)
Definition times_defined (r : Rule.Rule) (ty : string) : Prop :=
  forall t, In t (Rule.tables r) -> Rule.t_type_name t = ty ->
            exists x, Rule.t_modification_time t = Some x.

(** [r] has no file of type [ty]. *)
Definition no_file (r : Rule.Rule) (ty : string) : Prop :=
  forall f, In f (Rule.files r) -> Rule.f_type_name f <> ty.

(** Some output of [r'] equals some input of [r]: two files are equal when
    their paths are, two tables when their models are. *)
Definition io_overlap (r r' : Rule.Rule) : Prop :=
  (exists f f', In f (Rule.files r) /\ Rule.f_type_name f = "input"
                /\ In f' (Rule.files r') /\ Rule.f_type_name f' = "output"
                /\ Rule.f_path f' = Rule.f_path f)
  \/ (exists t t', In t (Rule.tables r) /\ Rule.t_type_name t = "input"
                   /\ In t' (Rule.tables r') /\ Rule.t_type_name t' = "output"
                   /\ Rule.t_model t' = Rule.t_model t).

(** The character [c] does not occur in [s]. *)
Definition free_of (c : ascii) (s : string) : Prop := ~ In c (list_ascii_of_string s).

(** The line that declares the rule [name]: the word [rule], the name, a
    colon, and what may follow on the line. *)
Definition header (name rest : string) : string :=
  ("rule " ++ name ++ ":" ++ rest)%string.

(** The text made of the lines [ls]. *)
Definition unlines (ls : list string) : string :=
  String.concat (String Reader.newline EmptyString) ls.


End Terms.

Module Samples.

Definition bare_rule (n : string) : Rule.Rule :=
  {| Rule.name := n; Rule.toolwrapper := Some "FooWrapper"; Rule.mro := ["FooWrapper"; "Rule"];
     Rule.files := []; Rule.tables := []; Rule.options := [];
     Rule.specify_input_file := []; Rule.specify_input_table := [];
     Rule.specify_output_file := []; Rule.specify_output_table := [];
     Rule.specify_params := [] |}.

Definition with_tables (r : Rule.Rule) (ts : list Rule.TableInputOutputInformation) : Rule.Rule :=
  {| Rule.name := Rule.name r; Rule.toolwrapper := Rule.toolwrapper r; Rule.mro := Rule.mro r;
     Rule.files := Rule.files r; Rule.tables := ts; Rule.options := Rule.options r;
     Rule.specify_input_file := Rule.specify_input_file r;
     Rule.specify_input_table := Rule.specify_input_table r;
     Rule.specify_output_file := Rule.specify_output_file r;
     Rule.specify_output_table := Rule.specify_output_table r;
     Rule.specify_params := Rule.specify_params r |}.

Definition with_files (r : Rule.Rule) (fs : list Rule.FileInputOutputInformation) : Rule.Rule :=
  {| Rule.name := Rule.name r; Rule.toolwrapper := Rule.toolwrapper r; Rule.mro := Rule.mro r;
     Rule.files := fs; Rule.tables := Rule.tables r; Rule.options := Rule.options r;
     Rule.specify_input_file := Rule.specify_input_file r;
     Rule.specify_input_table := Rule.specify_input_table r;
     Rule.specify_output_file := Rule.specify_output_file r;
     Rule.specify_output_table := Rule.specify_output_table r;
     Rule.specify_params := Rule.specify_params r |}.

Definition table (tablename model ty : string) (time : Z) : Rule.TableInputOutputInformation :=
  {| Rule.t_tablename := tablename; Rule.t_model := model; Rule.t_type_name := ty;
     Rule.t_modification_time := Some time |}.

Definition file (n path ty : string) : Rule.FileInputOutputInformation :=
  {| Rule.f_name := n; Rule.f_path := path; Rule.f_type_name := ty |}.

(** Two rules of one class, each with one input table; the two tables share
    neither the model nor the table name. *)
Definition rule_snp : Rule.Rule :=
  with_tables (bare_rule "get_snp") [table "snp" "model.Snp" "input" 10].

Definition rule_gene : Rule.Rule :=
  with_tables (bare_rule "get_gene") [table "gene" "model.Gene" "input" 20].

(** A rule that reads [/data/in.txt] and writes [/data/out.txt]. *)
Definition rule_copy : Rule.Rule :=
  with_files (bare_rule "copy")
    [file "input1" "/data/in.txt" "input"; file "output1" "/data/out.txt" "output"].

(** A rule that reads the table [snp], written at time 10, and writes the
    table [gene], written at time 20; and the same with both written at time
    10. *)
Definition rule_join : Rule.Rule :=
  with_tables (bare_rule "join")
    [table "snp" "model.Snp" "input" 10; table "gene" "model.Gene" "output" 20].

Definition rule_join_tie : Rule.Rule :=
  with_tables (bare_rule "join")
    [table "snp" "model.Snp" "input" 10; table "gene" "model.Gene" "output" 10].

(** A session on an empty database, with nothing pending. *)
Definition empty_session : Session.WopMarsSession :=
  {| Session.session := {| Session.committed := []; Session.transaction := [];
                           Session.new := []; Session.dirty := [] |};
     Session.manager := [] |}.

(** The ledger row of table [snp], looked up by its table name. *)
Definition lookup_snp : gmap string Session.argument :=
  {[ "table_name" := Session.Plain (Py.SStr "snp") ]}.

(** Defaults that give the date of the row. *)
Definition defaults_date : gmap string Py.scalar :=
  {[ "date" := Py.SInt 1500 ]}.

(** Defaults that give another table name than the one looked up. *)
Definition defaults_gene : gmap string Py.scalar :=
  {[ "table_name" := Py.SStr "gene" ]}.

(** A definition in which the rule [get_snp] is declared twice, the second
    time with an indent. *)
Definition lines_duplicate : list string :=
  ["rule get_snp:"; "    tool: SNPGetter"; "    rule get_snp:"; "        tool: SNPFilter"].

(** A document whose only rule gives an integer as the name of a table:
<<
rule r1:
    tool: FooWrapper6
    input:
        tables:
            2016: FooBase
>> *)
Definition document_table_key : Py.node :=
  Py.Map [(Py.SStr "rule r1",
           Py.Map [(Py.SStr "tool", Py.Scalar (Py.SStr "FooWrapper6"));
                   (Py.SStr "input",
                    Py.Map [(Py.SStr "tables",
                             Py.Map [(Py.SInt 2016, Py.Scalar (Py.SStr "FooBase"))])])])].

(** The tool of the tests, which declares the input file [input1] and the
    output files [output1] and [output2]. *)
Definition FooWrapper6 : Reader.toolwrapper_class :=
  {| Reader.polymorphic_identity := Some "FooWrapper6";
     Reader.class_mro := ["FooWrapper6"; "ToolWrapper"];
     Reader.get_input_file := ["input1"];
     Reader.get_input_table := [];
     Reader.get_output_file := ["output1"; "output2"];
     Reader.get_output_table := [];
     Reader.get_params := [] |}.

Definition import_class (name : string) : Py.result Reader.toolwrapper_class :=
  if String.eqb name "FooWrapper6" then Py.Ok FooWrapper6 else Py.Raise Py.ImportError.

(** A definition that gives the tool the input file [in2], which the tool does
    not declare, and the document that the YAML loader makes of it. *)
Definition content_in2 : string :=
  String.concat (String Reader.newline EmptyString)
    ["rule copy:"; "    tool: FooWrapper6"; "    input:"; "        files:";
     "            in2: a.txt"].

Definition document_in2 : Py.node :=
  Py.Map [(Py.SStr "rule copy",
           Py.Map [(Py.SStr "tool", Py.Scalar (Py.SStr "FooWrapper6"));
                   (Py.SStr "input",
                    Py.Map [(Py.SStr "files",
                             Py.Map [(Py.SStr "in2", Py.Scalar (Py.SStr "a.txt"))])])])].

Definition read_file (path : string) : option string :=
  if String.eqb path "Wopfile.yml" then Some content_in2 else None.

Definition yaml_load (content : string) : Py.result Py.node :=
  if String.eqb content content_in2 then Py.Ok document_in2 else Py.Raise Py.YAMLError.

Definition os_path_join (a b : string) : string := (a ++ "/" ++ b)%string.

Definition type_row (n : string) : Session.entity :=
  {| Session.model := "Type"; Session.fields := {[ "name" := Py.SStr n ]} |}.

(** A session on a database that holds the two rows of the types only. *)
Definition session_with_types : Session.WopMarsSession :=
  {| Session.session := {| Session.committed := [type_row "input"; type_row "output"];
                           Session.transaction := [type_row "input"; type_row "output"];
                           Session.new := []; Session.dirty := [] |};
     Session.manager := [] |}.


(** Further definitions, each with its path, its text and the document that
    the YAML loader makes of the text. In the first, the rule [a] reads the
    table [FooBase] and the tool of the rule [b] is in no module. In the
    second, the only rule has a tool that is in no module. In the third, two
    rule lines differ by a colon before the name. *)
Definition block_foo : list (Py.scalar * Py.node) :=
  [(Py.SStr "tool", Py.Scalar (Py.SStr "FooWrapper6"));
   (Py.SStr "input",
    Py.Map [(Py.SStr "files",
             Py.Map [(Py.SStr "input1", Py.Scalar (Py.SStr "a.txt"))])]);
   (Py.SStr "output",
    Py.Map [(Py.SStr "files",
             Py.Map [(Py.SStr "output1", Py.Scalar (Py.SStr "b.txt"));
                     (Py.SStr "output2", Py.Scalar (Py.SStr "c.txt"))])])].

Definition lines_foo : list string :=
  ["    tool: FooWrapper6"; "    input:"; "        files:";
   "            input1: a.txt"; "    output:"; "        files:";
   "            output1: b.txt"; "            output2: c.txt"].

Definition definitions : list (string * (string * Py.node)) :=
  [("table_missing.yml",
    (String.concat (String Reader.newline EmptyString)
       ["rule a:"; "    tool: FooWrapper6"; "    input:"; "        tables:";
        "            FooBase: FooBase"; "rule b:"; "    tool: Nope"],
     Py.Map [(Py.SStr "rule a",
              Py.Map [(Py.SStr "tool", Py.Scalar (Py.SStr "FooWrapper6"));
                      (Py.SStr "input",
                       Py.Map [(Py.SStr "tables",
                                Py.Map [(Py.SStr "FooBase",
                                         Py.Scalar (Py.SStr "FooBase"))])])]);
             (Py.SStr "rule b",
              Py.Map [(Py.SStr "tool", Py.Scalar (Py.SStr "Nope"))])]));
   ("missing.yml",
    (String.concat (String Reader.newline EmptyString) ["rule b:"; "    tool: Nope"],
     Py.Map [(Py.SStr "rule b",
              Py.Map [(Py.SStr "tool", Py.Scalar (Py.SStr "Nope"))])]));
   ("colon.yml",
    (String.concat (String Reader.newline EmptyString)
       (("rule x:" :: lines_foo) ++ ("rule :x:" :: lines_foo))%list,
     Py.Map [(Py.SStr "rule x", Py.Map block_foo);
             (Py.SStr "rule :x", Py.Map block_foo)]))].

Definition read_definition (path : string) : option string :=
  option_map (fun d => d.2.1)
             (List.find (fun d => String.eqb d.1 path) definitions).

Definition load_definition (content : string) : Py.result Py.node :=
  match List.find (fun d => String.eqb d.2.1 content) definitions with
  | Some d => Py.Ok d.2.2
  | None => Py.Raise Py.YAMLError
  end.

(** [read] on one of these definitions, in a directory [/work]. *)
Definition read_at (path : string) : Reader.M unit :=
  Reader.read read_definition load_definition "/work" os_path_join (fun p => p)
              import_class 1500 (fun _ _ => false) (fun set_wrapper => set_wrapper)
              (fun _ _ => Py.Ok tt) Rule.t_tablename path.

End Samples.

(** ** wopmars/models/Rule.py, the methods of the workflow manager *)

Module Lifecycle.
Import Py.

(** [Rule.NEW], [Rule.READY] and [Rule.NOT_READY]. *)
Inductive state : Type :=
  | NEW
  | READY
  | NOT_READY.

Section Readiness.

(** [i.is_ready()], of the classes of the files and of the tables. *)
Variable file_is_ready : Rule.FileInputOutputInformation -> bool.
Variable table_is_ready : Rule.TableInputOutputInformation -> bool.

(** [Rule.get_input_files_not_ready]. *)
Definition get_input_files_not_ready (self : Rule.Rule)
    : list Rule.FileInputOutputInformation :=
  List.filter (fun i => negb (file_is_ready i)) (Rule.files_of_type self "input").

(** [Rule.are_inputs_ready]: what it returns, and the state it leaves in
    [self.__state]. The files are asked first, and the first input that is
    not ready ends the method. *)
Definition are_inputs_ready (self : Rule.Rule) : bool * state :=
  if forallb file_is_ready (Rule.files_of_type self "input")
  then if forallb table_is_ready (Rule.tables_of_type self "input")
       then (true, READY)
       else (false, NOT_READY)
  else (false, NOT_READY).

End Readiness.

(** [Rule.same_output_than]. The second loop of the source runs over the
    files of type [input] of both rules. *)
Definition same_output_than (self other : Rule.Rule) : bool :=
  forallb
    (fun t =>
       existsb (fun t2 => String.eqb (Rule.t_model t) (Rule.t_model t2)
                          && String.eqb (Rule.t_tablename t) (Rule.t_tablename t2))
               (Rule.tables_of_type other "output"))
    (Rule.tables_of_type self "output")
  && forallb
       (fun f =>
          existsb (fun f2 => String.eqb (Rule.f_name f) (Rule.f_name f2)
                             && String.eqb (Rule.f_path f) (Rule.f_path f2))
                  (Rule.files_of_type other "input"))
       (Rule.files_of_type self "input").

End Lifecycle.

(** ** src/main/fr/tagc/wopmars/framework/rule/ToolWrapper.py *)

Module ToolWrapper.

(** [WopMarsParsingException(3, ...)]: the code, and whether the message is
    about the names of the inputs or of the outputs. *)
Inductive part : Type :=
  | InputNames
  | OutputNames.

Inductive outcome : Type :=
  | Respected
  | WopMarsParsingException (code : nat) (about : part).

(** A tool wrapper: the three dicts of its constructor, and the names that
    the methods [get_input_file] and [get_output_file] of its class return. *)
Record ToolWrapper : Type := {
  input_file_dict : list (string * Rule.FileInputOutputInformation);
  output_file_dict : list (string * Rule.FileInputOutputInformation);
  option_dict : list (string * Rule.Option);
  get_input_file : list string;
  get_output_file : list string
}.

(** [ToolWrapper.is_input_respected]. *)
Definition is_input_respected (self : ToolWrapper) : outcome :=
  if negb (Py.set_eq (List.map fst (input_file_dict self)) (get_input_file self))
  then WopMarsParsingException 3 InputNames
  else Respected.

(** [ToolWrapper.is_output_respected]. *)
Definition is_output_respected (self : ToolWrapper) : outcome :=
  if negb (Py.set_eq (List.map fst (output_file_dict self)) (get_output_file self))
  then WopMarsParsingException 3 OutputNames
  else Respected.

(** [ToolWrapper.is_options_respected], whose body is [pass]. *)
Definition is_options_respected (self : ToolWrapper) : outcome := Respected.

(** [ToolWrapper.is_content_respected]. *)
Definition is_content_respected (self : ToolWrapper) : outcome :=
  match is_options_respected self with
  | Respected =>
      match is_input_respected self with
      | Respected => is_output_respected self
      | e => e
      end
  | e => e
  end.

(** The class [FooWrapper6] of the tests, built on three dicts. *)
Definition FooWrapper6 (input_dict output_dict : list (string * Rule.FileInputOutputInformation))
    (option_dict : list (string * Rule.Option)) : ToolWrapper :=
  {| input_file_dict := input_dict; output_file_dict := output_dict;
     option_dict := option_dict;
     get_input_file := ["input1"];
     get_output_file := ["output1"; "output2"] |}.

End ToolWrapper.

(** ** Reader.py, the constructor of the mappings *)

Module Loader.
Import Py.

(** The loop of [no_duplicates_constructor] over the keys and values that the
    loader constructs, the keys being scalars; [mapping] is the dict that the
    loop fills. The error is a [ConstructorError], which is a [YAMLError]. *)
Fixpoint fill (pairs mapping : list (scalar * node)) : result (list (scalar * node)) :=
  match pairs with
  | [] => Ok mapping
  | (key, value) :: rest =>
      match lookup_item key mapping with
      | Some _ => Raise YAMLError
      | None => fill rest (mapping ++ [(key, value)])%list
      end
  end.

(** [Reader.no_duplicates_constructor]: after the loop, the mapping of the
    node as the loader constructs it. *)
Definition no_duplicates_constructor (pairs : list (scalar * node)) : result node :=
  (fill pairs [] ;;; Ok (Map pairs))%py.

End Loader.

(** ** Vocabulary of the further statements *)

Module Grammar.
Import Py.






(** What the loops of [is_grammar_respected] ask of the values that they
    visit, level by level. *)






(** No key of the pairs equals a key met before it. *)
Definition distinct_keys (pairs : list (scalar * node)) : Prop :=
  forall before k v after,
    pairs = (before ++ (k, v) :: after)%list -> lookup_item k before = None.

End Grammar.

Module Ledger.

(** The rows that a query of the session sees. *)
Definition visible (s : Session.WopMarsSession) : list Session.entity :=
  Session.transaction (Session.orm_flush (Session.session s)).

(** The rows of the ledger of the modifications for the table [t]. *)
Definition rows_of (t : string) (rows : list Session.entity) : list Session.entity :=
  List.filter (fun e => String.eqb (Session.model e) "ModificationTable"
                        && Py.scalar_eqb (Session.column (Session.fields e) "table_name")
                                         (Py.SStr t)) rows.

(** No table has two rows in the ledger. *)
Definition at_most_one (rows : list Session.entity) : Prop :=
  forall t, (length (rows_of t rows) <= 1)%nat.

(** Neither the rows that the session sees nor the rows committed hold two
    ledger rows for one table. *)
Definition consistent (s : Session.WopMarsSession) : Prop :=
  at_most_one (visible s) /\ at_most_one (Session.committed (Session.session s)).



(** The session holds nothing that is not committed: no object is new or
    dirty, and the open transaction sees the rows committed. *)
Definition all_committed (s : Session.WopMarsSession) : Prop :=
  Session.new (Session.session s) = []
  /\ Session.dirty (Session.session s) = []
  /\ Session.transaction (Session.session s) = Session.committed (Session.session s).

(** When the ledger of [s] is consistent, so is the ledger of [s']. *)
Definition keeps (s s' : Session.WopMarsSession) : Prop :=
  consistent s -> consistent s'.

(** Every run of the computation [m] of the reader takes a session to a
    session that [R] relates to it, whether [m] returns or raises. *)
Definition steps (R : Session.WopMarsSession -> Session.WopMarsSession -> Prop)
    {A : Type} (m : Reader.M A) : Prop :=
  forall s, R s (m s).2.


End Ledger.

Module MoreSamples.

(** A rule of the tool [FooWrapper6] with the files that the tool declares. *)
Definition rule_foo : Rule.Rule :=
  {| Rule.name := "rule1"; Rule.toolwrapper := Some "FooWrapper6";
     Rule.mro := ["FooWrapper6"; "Rule"];
     Rule.files := [Samples.file "input1" "/work/a.txt" "input";
                    Samples.file "output1" "/work/b.txt" "output";
                    Samples.file "output2" "/work/c.txt" "output"];
     Rule.tables := []; Rule.options := [];
     Rule.specify_input_file := ["input1"]; Rule.specify_input_table := [];
     Rule.specify_output_file := ["output1"; "output2"]; Rule.specify_output_table := [];
     Rule.specify_params := [] |}.

(** A rule of the tool [Query] of the tests, which reads the table [FooBase]. *)
Definition rule_query : Rule.Rule :=
  {| Rule.name := "query"; Rule.toolwrapper := Some "sprintFive.Query";
     Rule.mro := ["Query"; "Rule"];
     Rule.files := [];
     Rule.tables := [Samples.table "FooBase" "FooBase" "input" 10];
     Rule.options := [];
     Rule.specify_input_file := []; Rule.specify_input_table := ["FooBase"];
     Rule.specify_output_file := []; Rule.specify_output_table := [];
     Rule.specify_params := [] |}.


(** The types that an option can be cast to, and a cast that makes the
    integer 12 of the text [12]. *)
Definition castable : list string := ["int"; "float"; "bool"; "str"].

Definition cast (ty : string) (v : Py.node) : Py.result Py.node :=
  if String.eqb ty "int"
  then match v with
       | Py.Scalar (Py.SStr "12") => Py.Ok (Py.Scalar (Py.SInt 12))
       | Py.Scalar (Py.SInt z) => Py.Ok v
       | _ => Py.Raise Py.ValueError
       end
  else Py.Ok v.

(** A session with one object added and not yet committed. *)
Definition session_pending : Session.WopMarsSession :=
  Session.add (Samples.type_row "input") Samples.empty_session.

(** A definition that gives the tool [FooWrapper6] the files that it
    declares, and the document that the YAML loader makes of it. *)
Definition content_foo : string :=
  String.concat (String Reader.newline EmptyString)
    ["rule copy:"; "    tool: FooWrapper6"; "    input:"; "        files:";
     "            input1: a.txt"; "    output:"; "        files:";
     "            output1: b.txt"; "            output2: c.txt"].

Definition document_foo : Py.node :=
  Py.Map [(Py.SStr "rule copy",
           Py.Map [(Py.SStr "tool", Py.Scalar (Py.SStr "FooWrapper6"));
                   (Py.SStr "input",
                    Py.Map [(Py.SStr "files",
                             Py.Map [(Py.SStr "input1", Py.Scalar (Py.SStr "a.txt"))])]);
                   (Py.SStr "output",
                    Py.Map [(Py.SStr "files",
                             Py.Map [(Py.SStr "output1", Py.Scalar (Py.SStr "b.txt"));
                                     (Py.SStr "output2", Py.Scalar (Py.SStr "c.txt"))])])])].

Definition read_file_foo (path : string) : option string :=
  if String.eqb path "Wopfile.yml" then Some content_foo else None.

Definition yaml_load_foo (content : string) : Py.result Py.node :=
  if String.eqb content content_foo then Py.Ok document_foo else Py.Raise Py.YAMLError.

(** [read] on the definition above, in a directory [/work]. *)
Definition read_foo : Reader.M unit :=
  Reader.read read_file_foo yaml_load_foo "/work" Samples.os_path_join (fun p => p)
              Samples.import_class 1500 (fun _ _ => false) (fun set_wrapper => set_wrapper)
              (fun _ _ => Py.Ok tt) Rule.t_tablename "Wopfile.yml".

End MoreSamples.

(** ** Properties of Rule.py *)

Module RuleSpec.
Import Py.

Lemma filter_type_In_files (r : Rule.Rule) (ty : string) (f : Rule.FileInputOutputInformation) :
  In f (Rule.files_of_type r ty) <-> In f (Rule.files r) /\ Rule.f_type_name f = ty.
Proof.
  unfold Rule.files_of_type. rewrite List.filter_In, String.eqb_eq. reflexivity.
Qed.

Lemma filter_type_In_tables (r : Rule.Rule) (ty : string) (t : Rule.TableInputOutputInformation) :
  In t (Rule.tables_of_type r ty) <-> In t (Rule.tables r) /\ Rule.t_type_name t = ty.
Proof.
  unfold Rule.tables_of_type. rewrite List.filter_In, String.eqb_eq. reflexivity.
Qed.

(** C3. [follows r r'] is true exactly when some output of [r'] equals some
    input of [r], files being compared by path and tables by model. *)
Theorem follows_iff_io_overlap (r r' : Rule.Rule) :
  Rule.follows r r' = true <-> Terms.io_overlap r r'.
Proof.
  unfold Rule.follows, Terms.io_overlap.
  rewrite orb_true_iff, !existsb_exists.
  split.
  - intros [(p & Hp & Hex) | (m & Hm & Hex)]; [left | right].
    + apply existsb_exists in Hex as (p' & Hp' & Heq).
      apply String.eqb_eq in Heq. subst p'.
      apply in_map_iff in Hp as (f & <- & Hf). apply in_map_iff in Hp' as (f' & Hpath & Hf').
      apply filter_type_In_files in Hf as [Hf Hty], Hf' as [Hf' Hty'].
      exists f, f'. auto.
    + apply existsb_exists in Hex as (m' & Hm' & Heq).
      apply String.eqb_eq in Heq. subst m'.
      apply in_map_iff in Hm as (t & <- & Ht). apply in_map_iff in Hm' as (t' & Hmod & Ht').
      apply filter_type_In_tables in Ht as [Ht Hty], Ht' as [Ht' Hty'].
      exists t, t'. auto.
  - intros [(f & f' & Hf & Hty & Hf' & Hty' & Heq) | (t & t' & Ht & Hty & Ht' & Hty' & Heq)];
      [left | right].
    + exists (Rule.f_path f). split.
      * apply in_map, filter_type_In_files; auto.
      * apply existsb_exists. exists (Rule.f_path f'). split.
        -- apply in_map, filter_type_In_files; auto.
        -- apply String.eqb_eq; auto.
    + exists (Rule.t_model t). split.
      * apply in_map, filter_type_In_tables; auto.
      * apply existsb_exists. exists (Rule.t_model t'). split.
        -- apply in_map, filter_type_In_tables; auto.
        -- apply String.eqb_eq; auto.
Qed.

(** C7. [does_output_exist] is true exactly when every output file of the
    rule exists and every output table of the rule has at least one row. *)
Theorem does_output_exist_iff (os_path_exists : string -> bool)
    (count : Rule.TableInputOutputInformation -> nat) (r : Rule.Rule) :
  Rule.does_output_exist os_path_exists count r = true <->
  (forall f, In f (Rule.files r) -> Rule.f_type_name f = "output" ->
             os_path_exists (Rule.f_path f) = true)
  /\ (forall t, In t (Rule.tables r) -> Rule.t_type_name t = "output" ->
                (0 < count t)%nat).
Proof.
  unfold Rule.does_output_exist.
  rewrite andb_true_iff, !forallb_forall.
  split; intros [Hf Ht]; split.
  - intros f Hin Hty. apply Hf, filter_type_In_files; auto.
  - intros t Hin Hty.
    assert (H : negb (Nat.eqb (count t) 0) = true) by (apply Ht, filter_type_In_tables; auto).
    apply negb_true_iff, Nat.eqb_neq in H. lia.
  - intros f Hin. apply filter_type_In_files in Hin as [Hin Hty]. auto.
  - intros t Hin. apply filter_type_In_tables in Hin as [Hin Hty].
    apply negb_true_iff, Nat.eqb_neq. specialize (Ht t Hin Hty). lia.
Qed.

Lemma bool_of_list_filter {A : Type} (p : A -> bool) (l : list A) :
  Rule.bool_of_list (List.filter p l) = true <-> exists x, In x l /\ p x = true.
Proof.
  induction l as [|a l IH]; simpl.
  - split; [discriminate | intros (x & [] & _)].
  - destruct (p a) eqn:Hpa; simpl.
    + split; [intros _; exists a; auto | reflexivity].
    + rewrite IH. split; intros (x & Hin & Hx).
      * exists x; auto.
      * destruct Hin as [-> | Hin]; [congruence | exists x; auto].
Qed.

(** C9. [same_tables] only asks that [other] has some table of the type
    whenever [r] has one: models and table names are not compared. Hence two
    rules whose tables share neither model nor table name can be equal. *)
Theorem same_tables_only_counts :
  (forall (r other : Rule.Rule) (type_name : string),
      Rule.same_tables r other type_name = true <->
      (forall t, In t (Rule.tables r) -> Rule.t_type_name t = type_name ->
                 exists t', In t' (Rule.tables other) /\ Rule.t_type_name t' = type_name))
  /\ (forall os_path_abspath : string -> string,
        exists r other : Rule.Rule,
          Rule.__eq__ os_path_abspath r other = true
          /\ Rule.tables r <> [] /\ Rule.tables other <> []
          /\ (forall t t', In t (Rule.tables r) -> In t' (Rule.tables other) ->
                           Rule.t_model t <> Rule.t_model t'
                           /\ Rule.t_tablename t <> Rule.t_tablename t')).
Proof.
  split.
  - intros r other type_name. unfold Rule.same_tables.
    rewrite forallb_forall. split.
    + intros H t Hin Hty.
      assert (Hf : In t (Rule.tables_of_type r type_name))
        by (apply filter_type_In_tables; auto).
      apply H, bool_of_list_filter in Hf as (t' & Hin' & Hp).
      rewrite !String.eqb_refl in Hp. simpl in Hp. rewrite andb_true_r in Hp.
      apply String.eqb_eq in Hp. exists t'; auto.
    + intros H t Hin. apply filter_type_In_tables in Hin as [Hin Hty].
      destruct (H t Hin Hty) as (t' & Hin' & Hty').
      apply bool_of_list_filter. exists t'. split; [assumption|].
      rewrite !String.eqb_refl. simpl. rewrite andb_true_r. apply String.eqb_eq; auto.
  - intros os_path_abspath. exists Samples.rule_snp, Samples.rule_gene.
    split; [reflexivity|]. split; [discriminate|]. split; [discriminate|].
    intros t t' [<- | []] [<- | []]. simpl. split; discriminate.
Qed.

(** C4, what fails: the option accessor, asked for an option that the rule
    does not have, returns [None] and raises nothing. *)
Lemma option_undeclared_returns_None :
  let castable := ["int"; "float"; "bool"; "str"] in
  let cast := fun (_ : string) (v : node) => Ok v in
  ~ (forall (r : Rule.Rule) (key : string),
        (forall o, In o (Rule.options r) -> Rule.o_name o <> key) ->
        exists m, Rule.option castable cast r key = Raise (WopMarsException m)).
Proof.
  intros castable cast H.
  destruct (H (Samples.bare_rule "copy") "threshold") as [m Hm].
  - intros o [].
  - discriminate Hm.
Qed.

(** C4, amended. For a name that the rule does not declare for the role, the
    four file and table accessors raise a [WopMarsException] which says that
    the name has not been specified, and the option accessor returns [None]. *)
Theorem undeclared_access (Model : Type) (get_table : Rule.TableInputOutputInformation -> Model)
    (static_option_castable : list string) (cast : string -> node -> result node)
    (r : Rule.Rule) (key : string) :
  ((forall f, In f (Rule.files r) -> Rule.f_type_name f = "input" -> Rule.f_name f <> key) ->
   Rule.input_file r key = Raise (WopMarsException (InputFileNotSpecified key)))
  /\ ((forall f, In f (Rule.files r) -> Rule.f_type_name f = "output" -> Rule.f_name f <> key) ->
      Rule.output_file r key = Raise (WopMarsException (OutputFileNotSpecified key)))
  /\ ((forall t, In t (Rule.tables r) -> Rule.t_type_name t = "input" ->
                 Rule.t_tablename t <> key) ->
      Rule.input_table Model get_table r key
      = Raise (WopMarsException (InputTableNotSpecified key)))
  /\ ((forall t, In t (Rule.tables r) -> Rule.t_type_name t = "output" ->
                 Rule.t_tablename t <> key) ->
      Rule.output_table Model get_table r key
      = Raise (WopMarsException (OutputTableNotSpecified key)))
  /\ ((forall o, In o (Rule.options r) -> Rule.o_name o <> key) ->
      Rule.option static_option_castable cast r key = Ok PyNone).
Proof.
  assert (Hnil : forall (A : Type) (p : A -> bool) (l : list A),
             (forall x, In x l -> p x = false) -> List.filter p l = []).
  { intros A p l Hp. induction l as [|a l IH]; simpl; [reflexivity|].
    rewrite (Hp a) by (left; reflexivity). apply IH. intros x Hx. apply Hp. right; assumption. }
  repeat split; intros Hun.
  - unfold Rule.input_file. rewrite Hnil; [reflexivity|].
    intros f Hin. apply andb_false_iff.
    destruct (String.eqb_spec (Rule.f_type_name f) "input") as [Hty|]; [left | right; reflexivity].
    apply String.eqb_neq. auto.
  - unfold Rule.output_file. rewrite Hnil; [reflexivity|].
    intros f Hin. apply andb_false_iff.
    destruct (String.eqb_spec (Rule.f_type_name f) "output") as [Hty|]; [left | right; reflexivity].
    apply String.eqb_neq. auto.
  - unfold Rule.input_table. rewrite Hnil; [reflexivity|].
    intros t Hin. apply andb_false_iff.
    destruct (String.eqb_spec (Rule.t_type_name t) "input") as [Hty|]; [left | right; reflexivity].
    apply String.eqb_neq. auto.
  - unfold Rule.output_table. rewrite Hnil; [reflexivity|].
    intros t Hin. apply andb_false_iff.
    destruct (String.eqb_spec (Rule.t_type_name t) "output") as [Hty|]; [left | right; reflexivity].
    apply String.eqb_neq. auto.
  - unfold Rule.option. rewrite Hnil; [reflexivity|].
    intros o Hin. apply String.eqb_neq. auto.
Qed.

(** On a rule that declares [output1] as an output file only. *)
Lemma undeclared_access_witness :
  Rule.input_file Samples.rule_copy "output1"
  = Raise (WopMarsException (InputFileNotSpecified "output1"))
  /\ Rule.option ["int"; "str"] (fun _ v => Ok v) Samples.rule_copy "output1" = Ok PyNone.
Proof.
  destruct (undeclared_access string Rule.t_model ["int"; "str"] (fun _ v => Ok v)
              Samples.rule_copy "output1") as (Hif & _ & _ & _ & Hopt).
  split.
  - apply Hif. simpl. intros f [<- | [<- | []]] Hty; simpl in *; discriminate.
  - apply Hopt. simpl. intros o [].
Defined.

(** *** Freshness *)

Lemma max_from_Some (zs : list Z) : forall c : Z,
  exists m, Rule.max_from (Some c) (List.map Some zs) = Ok (Some m)
            /\ (m = c \/ In m zs) /\ c <= m /\ (forall x, In x zs -> x <= m).
Proof.
  induction zs as [|z zs IH]; intros c; simpl.
  - exists c. repeat split; [auto | lia | intros x []].
  - destruct (IH (if c <? z then z else c)) as (m & Hm & Hor & Hle & Hall).
    exists m. split; [assumption|].
    destruct (Z.ltb_spec c z).
    + repeat split.
      * destruct Hor as [-> | Hin]; auto.
      * lia.
      * intros x [<- | Hx]; [lia | auto].
    + repeat split.
      * destruct Hor as [-> | Hin]; auto.
      * lia.
      * intros x [<- | Hx]; [lia | auto].
Qed.

Lemma min_from_Some (zs : list Z) : forall c : Z,
  exists m, Rule.min_from (Some c) (List.map Some zs) = Ok (Some m)
            /\ (m = c \/ In m zs) /\ m <= c /\ (forall x, In x zs -> m <= x).
Proof.
  induction zs as [|z zs IH]; intros c; simpl.
  - exists c. repeat split; [auto | lia | intros x []].
  - destruct (IH (if z <? c then z else c)) as (m & Hm & Hor & Hle & Hall).
    exists m. split; [assumption|].
    destruct (Z.ltb_spec z c).
    + repeat split.
      * destruct Hor as [-> | Hin]; auto.
      * lia.
      * intros x [<- | Hx]; [lia | auto].
    + repeat split.
      * destruct Hor as [-> | Hin]; auto.
      * lia.
      * intros x [<- | Hx]; [lia | auto].
Qed.

Lemma max_of_defined (zs : list Z) :
  match zs with
  | [] => Rule.max (List.map Some zs) = Raise ValueError
  | _ :: _ => exists m, Rule.max (List.map Some zs) = Ok (Some m)
                        /\ In m zs /\ (forall x, In x zs -> x <= m)
  end.
Proof.
  destruct zs as [|z zs]; [reflexivity|]. simpl.
  destruct (max_from_Some zs z) as (m & Hm & Hor & Hle & Hall).
  exists m. split; [assumption|]. split.
  - destruct Hor as [-> | Hin]; auto.
  - intros x [<- | Hx]; auto.
Qed.

Lemma min_of_defined (zs : list Z) :
  match zs with
  | [] => Rule.min (List.map Some zs) = Raise ValueError
  | _ :: _ => exists m, Rule.min (List.map Some zs) = Ok (Some m)
                        /\ In m zs /\ (forall x, In x zs -> m <= x)
  end.
Proof.
  destruct zs as [|z zs]; [reflexivity|]. simpl.
  destruct (min_from_Some zs z) as (m & Hm & Hor & Hle & Hall).
  exists m. split; [assumption|]. split.
  - destruct Hor as [-> | Hin]; auto.
  - intros x [<- | Hx]; auto.
Qed.

Lemma table_times_of_defined (l : list Rule.TableInputOutputInformation) :
  (forall t, In t l -> exists x, Rule.t_modification_time t = Some x) ->
  exists zs, List.map Rule.t_modification_time l = List.map Some zs
             /\ (forall x, In x zs <-> exists t, In t l /\ Rule.t_modification_time t = Some x).
Proof.
  induction l as [|t l IH]; intros Hdef.
  - exists []. split; [reflexivity|]. intros x. split; [intros [] | intros (t & [] & _)].
  - destruct (Hdef t (or_introl eq_refl)) as [x Hx].
    destruct IH as (zs & Hzs & Hmem); [intros g Hg; apply Hdef; right; assumption|].
    exists (x :: zs). split.
    + simpl. rewrite Hx, Hzs. reflexivity.
    + intros y. simpl. rewrite Hmem. split.
      * intros [<- | (g & Hg & Hy)]; [exists t; auto | exists g; auto].
      * intros (g & [<- | Hg] & Hy); [left; congruence | right; exists g; auto].
Qed.

(** The times that the source collects for the tables of one type, when all
    are defined. *)
Lemma times_of_type (r : Rule.Rule) (ty : string) :
  Terms.times_defined r ty ->
  exists zs,
    List.map Rule.t_modification_time (Rule.tables_of_type r ty) = List.map Some zs
    /\ (forall x, In x zs <-> Terms.time_of r ty x).
Proof.
  intros Ht.
  destruct (table_times_of_defined (Rule.tables_of_type r ty)) as (zt & Hzt & Hmt).
  { intros t Hin. apply filter_type_In_tables in Hin as [Hin Hty]. auto. }
  exists zt. split; [exact Hzt|].
  intros x. rewrite Hmt. unfold Terms.time_of.
  split; intros (t & Hin & Hx); exists t.
  - apply filter_type_In_tables in Hin as [Hin Hty]. auto.
  - destruct Hx as [Hty Hx]. split; [apply filter_type_In_tables|]; auto.
Qed.

Lemma no_file_of_type (r : Rule.Rule) (ty : string) :
  Terms.no_file r ty -> Rule.files_of_type r ty = [].
Proof.
  unfold Terms.no_file, Rule.files_of_type.
  induction (Rule.files r) as [|f l IH]; intros Hno; [reflexivity|]. simpl.
  destruct (String.eqb_spec (Rule.f_type_name f) ty) as [Hty | Hty].
  - exfalso. apply (Hno f); [left; reflexivity | exact Hty].
  - apply IH. intros g Hg. apply Hno. right. exact Hg.
Qed.

Lemma mtimes_of_some (f : Rule.FileInputOutputInformation)
    (l : list Rule.FileInputOutputInformation) :
  In f l -> Rule.mtimes l = Raise (NameError "os_path_getmtime_ms").
Proof. destruct l as [|g l]; [intros [] | reflexivity]. Qed.

(** C1, what the code does. [is_output_more_recent_than_input] asks the time
    of a file from [os_path_getmtime_ms], a name that Rule.py does not bind:
    for a rule with an input file it raises a [NameError], and so it does for
    a rule whose inputs are tables with times and which has an output file.
    It returns no answer on a rule with a file. *)
Theorem is_output_more_recent_than_input_name_error (r : Rule.Rule)
    (f : Rule.FileInputOutputInformation) :
  In f (Rule.files r) ->
  (Rule.f_type_name f = "input" ->
   Rule.is_output_more_recent_than_input r = Raise (NameError "os_path_getmtime_ms"))
  /\ (Rule.f_type_name f = "output" ->
      Terms.no_file r "input" -> Terms.times_defined r "input" ->
      (exists x, Terms.time_of r "input" x) ->
      Rule.is_output_more_recent_than_input r = Raise (NameError "os_path_getmtime_ms")).
Proof.
  intros Hin. unfold Rule.is_output_more_recent_than_input. split.
  - intros Hty.
    rewrite (mtimes_of_some f (Rule.files_of_type r "input")); [reflexivity|].
    apply filter_type_In_files. auto.
  - intros Hty Hno Hdef [x Hx].
    rewrite (no_file_of_type r "input" Hno). cbn [Rule.mtimes map_result bind app].
    destruct (times_of_type r "input" Hdef) as (zi & -> & Hmi).
    pose proof (max_of_defined zi) as Hmax.
    destruct zi as [|i0 zi']; [apply Hmi in Hx; destruct Hx|].
    destruct Hmax as (I & -> & _). cbn [bind].
    rewrite (mtimes_of_some f (Rule.files_of_type r "output")); [reflexivity|].
    apply filter_type_In_files. auto.
Qed.

(** C1 on a rule that reads [/data/in.txt] and writes [/data/out.txt]: no
    answer, whatever the times of the two files are. *)
Lemma is_output_more_recent_than_input_name_error_witness :
  Rule.is_output_more_recent_than_input Samples.rule_copy
  = Raise (NameError "os_path_getmtime_ms").
Proof.
  apply (proj1 (is_output_more_recent_than_input_name_error Samples.rule_copy
                  (Samples.file "input1" "/data/in.txt" "input")
                  (or_introl eq_refl))).
  reflexivity.
Defined.

End RuleSpec.


(** ** Properties of WopMarsSession.py *)

Module SessionSpec.

(** C10. When the ORM session has no new and no dirty object, [commit] leaves
    the session as it is: the manager serves no call and the database keeps
    its rows. *)
Theorem commit_nothing_pending (self : Session.WopMarsSession) :
  Session.new (Session.session self) = [] ->
  Session.dirty (Session.session self) = [] ->
  Session.commit self = self
  /\ Session.manager (Session.commit self) = Session.manager self
  /\ Session.committed (Session.session (Session.commit self))
     = Session.committed (Session.session self).
Proof.
  intros Hnew Hdirty.
  assert (H : Session.commit self = self).
  { unfold Session.commit, Session.something. rewrite Hnew, Hdirty. reflexivity. }
  rewrite H. auto.
Qed.

(** A commit on the empty session. *)
Lemma commit_nothing_pending_witness :
  Session.commit Samples.empty_session = Samples.empty_session
  /\ Session.manager (Session.commit Samples.empty_session) = []
  /\ Session.committed (Session.session (Session.commit Samples.empty_session)) = [].
Proof.
  exact (commit_nothing_pending Samples.empty_session eq_refl eq_refl).
Defined.

Lemma scalar_eqb_refl (v : Py.scalar) : Py.scalar_eqb v v = true.
Proof.
  destruct v; simpl; auto using Bool.eqb_reflx, Z.eqb_refl, String.eqb_refl.
Qed.

Lemma orm_flush_flushed (s : Session.orm_session) :
  Session.orm_flush (Session.orm_flush s) = Session.orm_flush s.
Proof.
  unfold Session.orm_flush. simpl. rewrite app_nil_r. reflexivity.
Qed.

Lemma query_after_query (cls : string) (self : Session.WopMarsSession) :
  Session.query cls (Session.query cls self).2 = Session.query cls self.
Proof.
  unfold Session.query, Session.orm_flush. simpl. rewrite app_nil_r. reflexivity.
Qed.

Lemma query_after_add (cls : string) (inst : Session.entity) (self : Session.WopMarsSession) :
  Session.model inst = cls ->
  (Session.query cls (Session.add inst (Session.query cls self).2)).1
  = ((Session.query cls self).1 ++ [inst])%list.
Proof.
  intros Hcls. unfold Session.query, Session.add, Session.orm_add, Session.orm_flush. simpl.
  rewrite List.filter_app. simpl. rewrite Hcls, String.eqb_refl. reflexivity.
Qed.

Lemma filter_none {A : Type} (p : A -> bool) (l : list A) :
  List.filter p l = [] <-> forall x, In x l -> p x = false.
Proof.
  induction l as [|a l IH]; simpl.
  - split; [intros _ x [] | reflexivity].
  - destruct (p a) eqn:Ha.
    + split; [discriminate | intros H; specialize (H a (or_introl eq_refl)); congruence].
    + rewrite IH. split.
      * intros H x [<- | Hx]; auto.
      * intros H x Hx. apply H. right; assumption.
Qed.

(** The object that [get_or_create] creates answers the lookup when the lookup
    has plain values only and the defaults give no other value for its keys. *)
Lemma created_answers_lookup (cls : string) (defaults : gmap string Py.scalar)
    (kwargs : gmap string Session.argument) :
  (forall k a, kwargs !! k = Some a ->
               exists v, a = Session.Plain v
                         /\ forall v', defaults !! k = Some v' -> v' = v) ->
  Session.filter_by kwargs
    {| Session.model := cls; Session.fields := defaults ∪ Session.plain_items kwargs |} = true.
Proof.
  intros Hplain. unfold Session.filter_by. apply forallb_forall.
  intros [k a] Hin. apply list_elem_of_In, elem_of_map_to_list in Hin.
  destruct (Hplain k a Hin) as (v & -> & Hdef). simpl.
  unfold Session.column.
  destruct (defaults !! k) as [v'|] eqn:Hd.
  - rewrite (lookup_union_Some_l _ _ _ _ Hd). simpl. rewrite (Hdef v' eq_refl).
    apply scalar_eqb_refl.
  - rewrite lookup_union_r by assumption.
    unfold Session.plain_items. rewrite lookup_omap, Hin. simpl. apply scalar_eqb_refl.
Qed.

Lemma get_or_create_unfold (cls : string) (defaults : option (gmap string Py.scalar))
    (kwargs : gmap string Session.argument) (self : Session.WopMarsSession) :
  Session.get_or_create cls defaults kwargs self
  = match List.filter (Session.filter_by kwargs) (Session.query cls self).1 with
    | instance :: _ => ((instance, false), (Session.query cls self).2)
    | [] =>
        let instance := {| Session.model := cls;
                           Session.fields := default ∅ defaults ∪ Session.plain_items kwargs |} in
        ((instance, true), Session.add instance (Session.query cls self).2)
    end.
Proof.
  unfold Session.get_or_create. destruct (Session.query cls self) as [rows self']. reflexivity.
Qed.

(** C8, what fails: with defaults that give another value for a field of the
    lookup, the object created by the first call does not answer the lookup,
    and the second call creates an object again. *)
Lemma get_or_create_creates_twice :
  let call := Session.get_or_create "ModificationTable" (Some Samples.defaults_gene)
                                    Samples.lookup_snp in
  (call Samples.empty_session).1.2 = true
  /\ (call (call Samples.empty_session).2).1.2 = true.
Proof. vm_compute. split; reflexivity. Qed.

(** C8, amended. [get_or_create] returns a row of the class that answers the
    lookup, with [False], when there is one; otherwise it creates an object
    from the plain lookup fields updated with the defaults, adds it to the
    session and returns it with [True]. When the lookup has plain values only
    and the defaults give no other value for its fields, a second call with
    the same arguments returns the same object with [False]. *)
Theorem get_or_create_spec (cls : string) (defaults : option (gmap string Py.scalar))
    (kwargs : gmap string Session.argument) (self : Session.WopMarsSession) :
  let rows := (Session.query cls self).1 in
  let flushed := (Session.query cls self).2 in
  let created := {| Session.model := cls;
                    Session.fields := default ∅ defaults ∪ Session.plain_items kwargs |} in
  ((exists e, In e rows /\ Session.filter_by kwargs e = true) ->
   exists e, In e rows /\ Session.filter_by kwargs e = true
             /\ Session.get_or_create cls defaults kwargs self = ((e, false), flushed))
  /\ ((forall e, In e rows -> Session.filter_by kwargs e = false) ->
      Session.get_or_create cls defaults kwargs self
      = ((created, true), Session.add created flushed))
  /\ ((forall k a, kwargs !! k = Some a ->
                   exists v, a = Session.Plain v
                             /\ forall v', default ∅ defaults !! k = Some v' -> v' = v) ->
      (Session.get_or_create cls defaults kwargs
         (Session.get_or_create cls defaults kwargs self).2).1
      = ((Session.get_or_create cls defaults kwargs self).1.1, false)).
Proof.
  intros rows flushed created. subst rows flushed created.
  pose proof (get_or_create_unfold cls defaults kwargs self) as HR.
  destruct (List.filter (Session.filter_by kwargs) (Session.query cls self).1)
    as [|inst rest] eqn:Hfilter; rewrite !HR; clear HR.
  - split; [|split].
    + intros (e & Hin & He). apply filter_none with (x := e) in Hfilter; [congruence | assumption].
    + intros _. reflexivity.
    + intros Hplain. cbn [snd fst]. rewrite get_or_create_unfold.
      rewrite query_after_add by reflexivity.
      rewrite List.filter_app, Hfilter. simpl.
      rewrite created_answers_lookup by assumption. reflexivity.
  - assert (Hinst : In inst (List.filter (Session.filter_by kwargs) (Session.query cls self).1))
      by (rewrite Hfilter; left; reflexivity).
    apply List.filter_In in Hinst as [Hin Hby].
    split; [|split].
    + intros _. exists inst. auto.
    + intros Hnone. rewrite (Hnone inst Hin) in Hby. discriminate.
    + intros _. cbn [snd fst]. rewrite get_or_create_unfold, query_after_query, Hfilter.
      reflexivity.
Qed.

(** The ledger row of [snp], with a default date, is created once. *)
Lemma get_or_create_spec_witness :
  let call := Session.get_or_create "ModificationTable" (Some Samples.defaults_date)
                                    Samples.lookup_snp in
  (call (call Samples.empty_session).2).1 = ((call Samples.empty_session).1.1, false).
Proof.
  apply (get_or_create_spec "ModificationTable" (Some Samples.defaults_date)
           Samples.lookup_snp Samples.empty_session).
  intros k a Hk. unfold Samples.lookup_snp in Hk.
  apply lookup_singleton_Some in Hk as [<- <-].
  exists (Py.SStr "snp"). split; [reflexivity|].
  intros v' Hv'. vm_compute in Hv'. discriminate Hv'.
Defined.

End SessionSpec.


(** ** Further properties of WopMarsSession.py *)

Module SessionMore.

Lemma add_all_fields (rows : list Session.entity) : forall s : Session.WopMarsSession,
  Session.add_all rows s
  = {| Session.session :=
         {| Session.committed := Session.committed (Session.session s);
            Session.transaction := Session.transaction (Session.session s);
            Session.new := (Session.new (Session.session s) ++ rows)%list;
            Session.dirty := Session.dirty (Session.session s) |};
       Session.manager := Session.manager s |}.
Proof.
  unfold Session.add_all.
  induction rows as [|x rows IH]; intros [[c t n d] m]; simpl.
  - rewrite app_nil_r. reflexivity.
  - rewrite IH. simpl. rewrite <- app_assoc. reflexivity.
Qed.

Lemma visible_add (item : Session.entity) (s : Session.WopMarsSession) :
  Ledger.visible (Session.add item s) = (Ledger.visible s ++ [item])%list.
Proof. unfold Ledger.visible. simpl. rewrite app_assoc. reflexivity. Qed.

Lemma visible_add_all (rows : list Session.entity) (s : Session.WopMarsSession) :
  Ledger.visible (Session.add_all rows s) = (Ledger.visible s ++ rows)%list.
Proof. rewrite add_all_fields. unfold Ledger.visible. simpl. rewrite app_assoc. reflexivity. Qed.

Lemma visible_query (cls : string) (s : Session.WopMarsSession) :
  Ledger.visible (Session.query cls s).2 = Ledger.visible s.
Proof. unfold Ledger.visible. simpl. rewrite app_nil_r. reflexivity. Qed.

Lemma visible_commit (s : Session.WopMarsSession) :
  Ledger.visible (Session.commit s) = Ledger.visible s.
Proof.
  unfold Session.commit. destruct (Session.something s); [|reflexivity].
  unfold Ledger.visible. simpl. rewrite app_nil_r. reflexivity.
Qed.

Lemma visible_rollback (s : Session.WopMarsSession) :
  Ledger.visible (Session.rollback s) = Session.committed (Session.session s).
Proof. unfold Ledger.visible. simpl. rewrite app_nil_r. reflexivity. Qed.

Lemma committed_commit (s : Session.WopMarsSession) :
  Session.committed (Session.session (Session.commit s))
  = (if Session.something s then Ledger.visible s
     else Session.committed (Session.session s)).
Proof. unfold Session.commit. destruct (Session.something s); reflexivity. Qed.

Lemma something_add_all (rows : list Session.entity) (s : Session.WopMarsSession) :
  rows <> [] -> Session.something (Session.add_all rows s) = true.
Proof.
  intros Hne. rewrite add_all_fields. unfold Session.something. simpl.
  destruct (Session.new (Session.session s)); simpl; [|reflexivity].
  destruct rows; [contradiction | reflexivity].
Qed.

(** X10. A commit that follows [add_all] of some objects makes the database
    hold the rows that the session saw and then the objects, in their order;
    nothing stays pending, and the manager has served one commit. *)
Theorem commit_after_add_all (rows : list Session.entity) (s : Session.WopMarsSession) :
  rows <> [] ->
  Session.committed (Session.session (Session.commit (Session.add_all rows s)))
  = (Ledger.visible s ++ rows)%list
  /\ Session.something (Session.commit (Session.add_all rows s)) = false
  /\ Session.manager (Session.commit (Session.add_all rows s))
     = (Session.manager s ++ [Session.CallCommit])%list.
Proof.
  intros Hne. rewrite committed_commit.
  unfold Session.commit. rewrite (something_add_all rows s Hne).
  rewrite visible_add_all. repeat split.
  simpl. rewrite add_all_fields. reflexivity.
Qed.

(** One object added and committed. *)
Lemma commit_after_add_all_witness :
  Session.committed
    (Session.session (Session.commit
                        (Session.add_all [Samples.type_row "input"] Samples.empty_session)))
  = [Samples.type_row "input"].
Proof.
  apply (commit_after_add_all [Samples.type_row "input"] Samples.empty_session).
  discriminate.
Defined.

(** X11. After [add_all] and a rollback the session sees the rows committed
    and nothing else, and a commit that follows changes nothing: it does not
    even reach the manager, which has served the rollback only. *)
Theorem rollback_after_add_all (rows : list Session.entity) (s : Session.WopMarsSession) :
  let s' := Session.rollback (Session.add_all rows s) in
  Ledger.visible s' = Session.committed (Session.session s)
  /\ Session.committed (Session.session s') = Session.committed (Session.session s)
  /\ Session.commit s' = s'
  /\ Session.manager s' = (Session.manager s ++ [Session.CallRollback])%list.
Proof.
  intros s'. subst s'. rewrite visible_rollback, add_all_fields. repeat split.
Qed.

(** X12. A second commit in a row does nothing: it leaves the session as the
    first commit left it, and the manager serves no second call. *)
Theorem commit_twice (s : Session.WopMarsSession) :
  Session.commit (Session.commit s) = Session.commit s.
Proof.
  unfold Session.commit. destruct (Session.something s) eqn:Hs.
  - reflexivity.
  - rewrite Hs. reflexivity.
Qed.

(** X13. An object added to the session and then flushed by a query is seen
    by the session, but it is neither new nor dirty any more: [commit] then
    does nothing, and the object does not reach the database. *)
Theorem flushed_object_not_committed (item : Session.entity) (cls : string)
    (s : Session.WopMarsSession) :
  let s' := (Session.query cls (Session.add item s)).2 in
  In item (Ledger.visible s')
  /\ Session.something s' = false
  /\ Session.commit s' = s'
  /\ Session.committed (Session.session (Session.commit s'))
     = Session.committed (Session.session s).
Proof.
  intros s'. subst s'. rewrite visible_query, visible_add. repeat split.
  apply in_or_app. right. left. reflexivity.
Qed.

(** X14. [get_or_create] does not commit: the rows committed and the calls
    served by the manager are those of before. The object that it returns is
    seen by the session afterwards; the session sees the same rows as before
    when the object was found, and the object as one more row when it was
    created. *)
Theorem get_or_create_does_not_commit (cls : string)
    (defaults : option (gmap string Py.scalar)) (kwargs : gmap string Session.argument)
    (s : Session.WopMarsSession) :
  let result := Session.get_or_create cls defaults kwargs s in
  Session.committed (Session.session result.2) = Session.committed (Session.session s)
  /\ Session.manager result.2 = Session.manager s
  /\ In result.1.1 (Ledger.visible result.2)
  /\ Ledger.visible result.2
     = (if result.1.2 then Ledger.visible s ++ [result.1.1] else Ledger.visible s)%list.
Proof.
  intros result. subst result. rewrite SessionSpec.get_or_create_unfold.
  destruct (List.filter (Session.filter_by kwargs) (Session.query cls s).1)
    as [|inst rest] eqn:Hfilter; cbn [fst snd].
  - rewrite visible_add, visible_query. repeat split.
    apply in_or_app. right. left. reflexivity.
  - rewrite visible_query. repeat split.
    assert (Hin : In inst (List.filter (Session.filter_by kwargs) (Session.query cls s).1))
      by (rewrite Hfilter; left; reflexivity).
    apply List.filter_In in Hin as [Hin _].
    unfold Session.query in Hin. simpl in Hin. apply List.filter_In in Hin as [Hin _].
    exact Hin.
Qed.

End SessionMore.


(** ** Properties of Reader.py *)

Module ReaderSpec.
Import Py.

#[local] Arguments String.append !s1 s2 : simpl nomatch.

(** *** The search for the names of the rules *)

Lemma free_of_cons (c a : ascii) (s : string) :
  Terms.free_of c (String a s) <-> a <> c /\ Terms.free_of c s.
Proof.
  unfold Terms.free_of. simpl. split.
  - intros H. split; intros H'; apply H; auto.
  - intros [Hne Hs] [Heq | Hin]; auto.
Qed.

Lemma free_of_app (c : ascii) (s t : string) :
  Terms.free_of c (s ++ t)%string <-> Terms.free_of c s /\ Terms.free_of c t.
Proof.
  induction s as [|a s IH]; simpl.
  - unfold Terms.free_of at 2. simpl. tauto.
  - rewrite !free_of_cons, IH. tauto.
Qed.

Lemma after_prefix_Some (p s t : string) :
  Reader.after_prefix p s = Some t -> s = (p ++ t)%string.
Proof.
  revert s. induction p as [|a p IH]; intros s H; simpl in *.
  - congruence.
  - destruct s as [|b s]; [discriminate|].
    destruct (Ascii.eqb_spec a b) as [->|]; [|discriminate].
    f_equal. apply IH; assumption.
Qed.

Lemma after_prefix_app (p t : string) : Reader.after_prefix p (p ++ t)%string = Some t.
Proof.
  induction p as [|a p IH]; simpl; [reflexivity|]. rewrite Ascii.eqb_refl. assumption.
Qed.

Lemma after_prefix_line (p l rest : string) :
  Terms.free_of Reader.newline p ->
  Reader.after_prefix p (l ++ String Reader.newline rest)%string
  = option_map (fun t => (t ++ String Reader.newline rest)%string) (Reader.after_prefix p l).
Proof.
  revert l. induction p as [|a p IH]; intros l Hp; simpl.
  - reflexivity.
  - apply free_of_cons in Hp as [Hne Hp].
    destruct l as [|b l]; simpl.
    + destruct (Ascii.eqb_spec a Reader.newline); [contradiction | reflexivity].
    + destruct (Ascii.eqb a b); [apply IH; assumption | reflexivity].
Qed.

Lemma until_colon_line (l rest : string) :
  Terms.free_of Reader.newline l ->
  Reader.until_colon (l ++ String Reader.newline rest)%string = Reader.until_colon l.
Proof.
  induction l as [|a l IH]; intros Hl; simpl.
  - reflexivity.
  - apply free_of_cons in Hl as [Hne Hl].
    destruct (Ascii.eqb a Reader.colon); [reflexivity|].
    destruct (Ascii.eqb a Reader.newline); [reflexivity|].
    rewrite IH by assumption. reflexivity.
Qed.

Lemma until_colon_Some (s g : string) :
  Reader.until_colon s = Some g -> exists rest, s = (g ++ String Reader.colon rest)%string.
Proof.
  revert g. induction s as [|a s IH]; intros g H; simpl in H; [discriminate|].
  destruct (Ascii.eqb_spec a Reader.colon) as [->|].
  - injection H as <-. exists s. reflexivity.
  - destruct (Ascii.eqb a Reader.newline); [discriminate|].
    destruct (Reader.until_colon s) as [g'|]; [|discriminate].
    injection H as <-. destruct (IH g' eq_refl) as [rest ->]. exists rest. reflexivity.
Qed.

Lemma until_colon_name (name rest : string) :
  Terms.free_of Reader.colon name -> Terms.free_of Reader.newline name ->
  Reader.until_colon (name ++ String Reader.colon rest)%string = Some name.
Proof.
  induction name as [|a name IH]; intros Hc Hn; simpl.
  - reflexivity.
  - apply free_of_cons in Hc as [Hac Hc]. apply free_of_cons in Hn as [Han Hn].
    destruct (Ascii.eqb_spec a Reader.colon); [contradiction|].
    destruct (Ascii.eqb_spec a Reader.newline); [contradiction|].
    rewrite IH by assumption. reflexivity.
Qed.

Lemma rule_word_free : Terms.free_of Reader.newline "rule ".
Proof. unfold Terms.free_of. simpl. intros H. repeat (destruct H as [H | H]; [discriminate H|]). exact H. Qed.

(** A match lies within a line. *)
Lemma group_at_line (l rest : string) :
  Terms.free_of Reader.newline l ->
  Reader.group_at (l ++ String Reader.newline rest)%string = Reader.group_at l.
Proof.
  intros Hl. unfold Reader.group_at.
  rewrite (after_prefix_line "rule " l rest rule_word_free).
  destruct (Reader.after_prefix "rule " l) as [t|] eqn:Ht; simpl; [|reflexivity].
  apply after_prefix_Some in Ht. subst l.
  apply free_of_app in Hl as [_ Hl].
  destruct t as [|c t]; simpl.
  - reflexivity.
  - apply free_of_cons in Hl as [Hne Hl].
    rewrite until_colon_line by assumption. reflexivity.
Qed.

Lemma length_append (s t : string) :
  String.length (s ++ t)%string = (String.length s + String.length t)%nat.
Proof. induction s as [|a s IH]; simpl; [reflexivity | rewrite IH; reflexivity]. Qed.

Lemma group_at_length (s g : string) :
  Reader.group_at s = Some g -> (5 + String.length g + 1 <= String.length s)%nat.
Proof.
  unfold Reader.group_at. intros H.
  destruct (Reader.after_prefix "rule " s) as [t|] eqn:Ht; [|discriminate].
  apply after_prefix_Some in Ht. subst s.
  destruct t as [|c t]; [discriminate|].
  destruct (Ascii.eqb c Reader.newline); [discriminate|].
  destruct (Reader.until_colon t) as [g'|] eqn:Hg; [|discriminate].
  injection H as <-. apply until_colon_Some in Hg as [rest ->].
  simpl. rewrite length_append. simpl. lia.
Qed.

Lemma findall_from_line (l rest : string) : forall k : nat,
  Terms.free_of Reader.newline l -> (k <= String.length l)%nat ->
  Reader.findall_from k (l ++ String Reader.newline rest)%string
  = (Reader.findall_from k l ++ Reader.findall_from 0 rest)%list.
Proof.
  induction l as [|c l IH]; intros k Hl Hk.
  - simpl in Hk. assert (k = 0%nat) by lia. subst k. reflexivity.
  - pose proof Hl as Hl'. apply free_of_cons in Hl' as [_ Hl'].
    destruct k as [|k].
    + change (Reader.findall_from 0 (String c l ++ String Reader.newline rest)%string)
        with (match Reader.group_at (String c l ++ String Reader.newline rest)%string with
              | Some g => g :: Reader.findall_from (5 + String.length g)
                                 (l ++ String Reader.newline rest)%string
              | None => Reader.findall_from 0 (l ++ String Reader.newline rest)%string
              end).
      rewrite group_at_line by assumption.
      change (Reader.findall_from 0 (String c l))
        with (match Reader.group_at (String c l) with
              | Some g => g :: Reader.findall_from (5 + String.length g) l
              | None => Reader.findall_from 0 l
              end).
      destruct (Reader.group_at (String c l)) as [g|] eqn:Hg.
      * apply group_at_length in Hg. simpl in Hg.
        rewrite IH by (assumption || lia). reflexivity.
      * apply IH; [assumption | lia].
    + simpl. apply IH; [assumption | simpl in Hk; lia].
Qed.

Lemma findall_rule_unlines (ls : list string) :
  Forall (Terms.free_of Reader.newline) ls ->
  Reader.findall_rule (Terms.unlines ls) = List.concat (List.map Reader.findall_rule ls).
Proof.
  induction 1 as [|l ls Hl Hls IH]; [reflexivity|].
  destruct ls as [|l' ls].
  - simpl. rewrite app_nil_r. reflexivity.
  - change (Terms.unlines (l :: l' :: ls))
      with (l ++ String Reader.newline (Terms.unlines (l' :: ls)))%string.
    unfold Reader.findall_rule at 1.
    rewrite findall_from_line by (assumption || lia).
    change (List.concat (List.map Reader.findall_rule (l :: l' :: ls)))
      with (Reader.findall_rule l ++ List.concat (List.map Reader.findall_rule (l' :: ls)))%list.
    rewrite <- IH. reflexivity.
Qed.

(** The line that declares a rule yields the name of the rule. *)
Lemma findall_rule_header (name rest : string) :
  name <> EmptyString ->
  Terms.free_of Reader.colon name -> Terms.free_of Reader.newline name ->
  In name (Reader.findall_rule (Terms.header name rest)).
Proof.
  intros Hne Hc Hn.
  assert (Hg : Reader.group_at (Terms.header name rest) = Some name).
  { unfold Reader.group_at, Terms.header. rewrite after_prefix_app.
    destruct name as [|c name]; [contradiction|]. simpl.
    apply free_of_cons in Hc as [_ Hc]. apply free_of_cons in Hn as [Hne' Hn].
    destruct (Ascii.eqb_spec c Reader.newline); [contradiction|].
    change (":" ++ rest)%string with (String Reader.colon rest).
    rewrite until_colon_name by assumption. reflexivity. }
  unfold Reader.findall_rule.
  assert (Hh : exists c t, Terms.header name rest = String c t)
    by (eexists _, _; reflexivity).
  destruct Hh as (c & t & Hh). rewrite Hh in *.
  cbn [Reader.findall_from]. rewrite Hg. left. reflexivity.
Qed.

(** *** Duplicate rules *)

Lemma check_seen_hit (rules : list string) : forall seen : gset string,
  (exists r, In r rules /\ r ∈ seen) ->
  exists r', Reader.check_seen rules seen = Raise (WopMarsException (RuleDuplicated r')).
Proof.
  induction rules as [|a rules IH]; intros seen (r & Hin & Hseen); [destruct Hin|].
  simpl. destruct (decide (a ∉ seen)) as [Ha|Ha].
  - apply IH. destruct Hin as [<- | Hin]; [contradiction|].
    exists r. split; [assumption | set_solver].
  - exists a. reflexivity.
Qed.

Lemma check_seen_twice (l1 l2 l3 : list string) (r : string) : forall seen : gset string,
  exists r', Reader.check_seen (l1 ++ r :: l2 ++ r :: l3) seen
             = Raise (WopMarsException (RuleDuplicated r')).
Proof.
  induction l1 as [|a l1 IH]; intros seen; simpl.
  - destruct (decide (r ∉ seen)) as [Hr|Hr]; [|exists r; reflexivity].
    apply check_seen_hit. exists r. split; [apply in_elt | set_solver].
  - destruct (decide (a ∉ seen)); [apply IH | exists a; reflexivity].
Qed.

Lemma concat_two_headers (name : string) (before between after : list string) (h1 h2 : string) :
  In name (Reader.findall_rule h1) -> In name (Reader.findall_rule h2) ->
  exists l1 l2 l3,
    List.concat (List.map Reader.findall_rule (before ++ h1 :: between ++ h2 :: after))
    = (l1 ++ name :: l2 ++ name :: l3)%list.
Proof.
  intros H1 H2.
  apply in_split in H1 as (a1 & b1 & E1). apply in_split in H2 as (a2 & b2 & E2).
  rewrite List.map_app, List.concat_app. simpl.
  rewrite List.map_app, List.concat_app. simpl. rewrite E1, E2.
  exists (List.concat (List.map Reader.findall_rule before) ++ a1)%list,
         (b1 ++ List.concat (List.map Reader.findall_rule between) ++ a2)%list,
         (b2 ++ List.concat (List.map Reader.findall_rule after))%list.
  repeat (rewrite <- app_assoc; simpl). reflexivity.
Qed.

(** No match starts in a text without the letter [r]. *)
Lemma findall_from_indent (pre s : string) :
  Terms.free_of "r"%char pre ->
  Reader.findall_from 0 (pre ++ s)%string = Reader.findall_from 0 s.
Proof.
  induction pre as [|c pre IH]; intros Hpre; [reflexivity|].
  apply free_of_cons in Hpre as [Hc Hpre].
  change (Reader.findall_from 0 (String c pre ++ s)%string)
    with (match Reader.group_at (String c (pre ++ s)%string) with
          | Some g => g :: Reader.findall_from (5 + String.length g) (pre ++ s)%string
          | None => Reader.findall_from 0 (pre ++ s)%string
          end).
  assert (Hg : Reader.group_at (String c (pre ++ s)%string) = None).
  { unfold Reader.group_at. cbn [Reader.after_prefix].
    destruct (Ascii.eqb_spec "r"%char c) as [Heq|]; [symmetry in Heq; contradiction | reflexivity]. }
  rewrite Hg. apply IH. exact Hpre.
Qed.

(** X25. When the same rule name, not empty and without colon, heads two
    lines of the definition file, which may be indented, the load of the file
    raises the error of a duplicated rule, and [read] raises it with the
    session as it found it: nothing has been bound or persisted. *)
Theorem duplicate_rule_refused
    (read_file : string -> option string) (yaml_load : string -> result node)
    (directory : string) (os_path_join : string -> string -> string)
    (os_path_abspath : string -> string)
    (import_class : string -> result Reader.toolwrapper_class) (now : Z)
    (object_deleted : Rule.Rule -> Session.WopMarsSession -> bool)
    (set_order : list Rule.Rule -> list Rule.Rule)
    (correspond : Rule.Option -> string -> result unit)
    (tablename_of_model : Rule.TableInputOutputInformation -> string)
    (path name indent1 rest1 indent2 rest2 : string) (before between after : list string)
    (s : Session.WopMarsSession) :
  let lines := (before ++ (indent1 ++ Terms.header name rest1)%string :: between
                       ++ (indent2 ++ Terms.header name rest2)%string :: after)%list in
  read_file path = Some (Terms.unlines lines) ->
  Forall (Terms.free_of Reader.newline) lines ->
  Terms.free_of "r"%char indent1 ->
  Terms.free_of "r"%char indent2 ->
  name <> EmptyString ->
  Terms.free_of Reader.colon name ->
  exists r,
    Reader.load_definition_file read_file yaml_load path
    = Raise (WopMarsException (RuleDuplicated r))
    /\ Reader.read read_file yaml_load directory os_path_join os_path_abspath import_class now
                   object_deleted set_order correspond tablename_of_model path s
       = (Raise (WopMarsException (RuleDuplicated r)), s).
Proof.
  intros lines Hfile Hlines Hi1 Hi2 Hne Hcolon.
  assert (Hnl : Terms.free_of Reader.newline name).
  { assert (Hh : Terms.free_of Reader.newline (indent1 ++ Terms.header name rest1)%string).
    { rewrite List.Forall_forall in Hlines. apply Hlines. subst lines.
      apply in_or_app. right. left. reflexivity. }
    unfold Terms.header in Hh. apply free_of_app in Hh as [_ Hh].
    apply free_of_app in Hh as [_ Hh]. apply free_of_app in Hh as [Hh _]. exact Hh. }
  assert (Hin : forall indent rest, Terms.free_of "r"%char indent ->
             In name (Reader.findall_rule (indent ++ Terms.header name rest)%string)).
  { intros indent rest Hindent. unfold Reader.findall_rule.
    rewrite findall_from_indent by assumption.
    apply findall_rule_header; assumption. }
  destruct (concat_two_headers name before between after
              (indent1 ++ Terms.header name rest1)%string
              (indent2 ++ Terms.header name rest2)%string) as (l1 & l2 & l3 & Hcat);
    [apply Hin; assumption | apply Hin; assumption |].
  destruct (check_seen_twice l1 l2 l3 name ∅) as [r Hr].
  assert (Hdup : Reader.check_duplicate_rules (Terms.unlines lines)
                 = Raise (WopMarsException (RuleDuplicated r))).
  { unfold Reader.check_duplicate_rules.
    rewrite findall_rule_unlines by assumption. subst lines. rewrite Hcat. exact Hr. }
  assert (Hload : Reader.load_definition_file read_file yaml_load path
                  = Raise (WopMarsException (RuleDuplicated r))).
  { unfold Reader.load_definition_file. rewrite Hfile, Hdup. reflexivity. }
  exists r. split; [exact Hload|].
  unfold Reader.read, Reader.bindM, Reader.lift. rewrite Hload. reflexivity.
Qed.

Lemma free_of_check (c : ascii) (s : string) :
  forallb (fun a => negb (Ascii.eqb a c)) (list_ascii_of_string s) = true ->
  Terms.free_of c s.
Proof.
  intros H Hin. rewrite forallb_forall in H. specialize (H c Hin).
  rewrite Ascii.eqb_refl in H. discriminate H.
Qed.

(** The definition that declares [get_snp] twice is refused, and the session
    is left as it was. *)
Lemma duplicate_rule_refused_witness :
  exists r,
    Reader.load_definition_file (fun _ => Some (Terms.unlines Samples.lines_duplicate))
                                Samples.yaml_load "Wopfile.yml"
    = Raise (WopMarsException (RuleDuplicated r))
    /\ Reader.read (fun _ => Some (Terms.unlines Samples.lines_duplicate)) Samples.yaml_load
                   "/work" Samples.os_path_join (fun p => p) Samples.import_class 1500
                   (fun _ _ => false) (fun set_wrapper => set_wrapper)
                   (fun _ _ => Ok tt) Rule.t_tablename "Wopfile.yml" Samples.session_with_types
       = (Raise (WopMarsException (RuleDuplicated r)), Samples.session_with_types).
Proof.
  apply (duplicate_rule_refused
           (fun _ => Some (Terms.unlines Samples.lines_duplicate)) Samples.yaml_load
           "/work" Samples.os_path_join (fun p => p) Samples.import_class 1500
           (fun _ _ => false) (fun set_wrapper => set_wrapper)
           (fun _ _ => Ok tt) Rule.t_tablename
           "Wopfile.yml" "get_snp" "" "" "    " ""
           [] ["    tool: SNPGetter"] ["        tool: SNPFilter"]
           Samples.session_with_types).
  - vm_compute. reflexivity.
  - repeat constructor; apply free_of_check; reflexivity.
  - apply free_of_check. reflexivity.
  - apply free_of_check. reflexivity.
  - discriminate.
  - apply free_of_check. reflexivity.
Defined.

(** C6, what the code does. The definition [colon.yml] has the rule lines
    [rule x:] and [rule :x:]. The search for the duplicates reads the names
    [x] and [:x] and finds no duplicate, the load returns the document, and
    [read], which strips the colons around a name, binds both rules under the
    name [x]: the database ends with two rules of that name and no error of a
    duplicated rule has been raised. *)
Theorem duplicate_rule_not_detected :
  (exists content,
      Samples.read_definition "colon.yml" = Some content
      /\ Reader.findall_rule content = ["x"; ":x"]
      /\ Reader.check_duplicate_rules content = Ok tt)
  /\ (exists document rules,
         Reader.load_definition_file Samples.read_definition Samples.load_definition
                                     "colon.yml" = Ok document
         /\ iterate document = Ok rules
         /\ List.map (Reader.rule_name_of) rules = [Ok "x"; Ok "x"])
  /\ (Samples.read_at "colon.yml" Samples.session_with_types).1 = Ok tt
  /\ List.map (fun e => Session.fields e !! "name")
       (List.filter (fun e => String.eqb (Session.model e) "ToolWrapper")
          (Session.committed
             (Session.session (Samples.read_at "colon.yml" Samples.session_with_types).2)))
     = [Some (SStr "x"); Some (SStr "x")].
Proof.
  split; [eexists; split; [reflexivity|]; split; vm_compute; reflexivity|].
  split; [eexists _, _; split; [vm_compute; reflexivity|]; split; vm_compute; reflexivity|].
  split; vm_compute; reflexivity.
Qed.

(** *** The grammar *)

(** C5. On a document whose first tables entry is no string, met before any
    files entry, [is_grammar_respected] raises an [UnboundLocalError] for the
    variable [s_variable_name], which is none of the errors it declares. *)
Theorem is_grammar_respected_unbound_variable :
  Reader.is_grammar_respected Samples.document_table_key
  = Raise (UnboundLocalError "s_variable_name").
Proof. reflexivity. Qed.

(** *** What the binding leaves alone *)

Section Steps.

Variable R : Session.WopMarsSession -> Session.WopMarsSession -> Prop.

Hypothesis R_refl : forall s, R s s.
Hypothesis R_trans : forall s1 s2 s3, R s1 s2 -> R s2 s3 -> R s1 s3.
Hypothesis R_commit : forall s, R s (Session.commit s).
Hypothesis R_rollback : forall s, R s (Session.rollback s).
Hypothesis R_query : forall cls s, R s (Session.query cls s).2.
Hypothesis R_ledger : forall now t s,
  R s (Session.get_or_create "ModificationTable" (Some {[ "date" := SInt now ]})
                             {[ "table_name" := Session.Plain (SStr t) ]} s).2.

Lemma steps_ret {A : Type} (a : A) : Ledger.steps R (Reader.ret a).
Proof. intros s. apply R_refl. Qed.

Lemma steps_lift {A : Type} (r : result A) : Ledger.steps R (Reader.lift r).
Proof. intros s. apply R_refl. Qed.

Lemma steps_call (f : Session.WopMarsSession -> Session.WopMarsSession) :
  (forall s, R s (f s)) -> Ledger.steps R (Reader.call f).
Proof. intros Hf s. apply Hf. Qed.

Lemma steps_bind {A B : Type} (m : Reader.M A) (k : A -> Reader.M B) :
  Ledger.steps R m -> (forall a, Ledger.steps R (k a)) -> Ledger.steps R (Reader.bindM m k).
Proof.
  intros Hm Hk s. unfold Reader.bindM. specialize (Hm s).
  destruct (m s) as [[a|e] s']; [|exact Hm].
  eapply R_trans; [exact Hm | apply Hk].
Qed.

Lemma steps_except_NoResultFound {A : Type} (body handler : Reader.M A) :
  Ledger.steps R body -> Ledger.steps R handler ->
  Ledger.steps R (Reader.except_NoResultFound body handler).
Proof.
  intros Hb Hh s. unfold Reader.except_NoResultFound. specialize (Hb s).
  destruct (body s) as [[a|e] s']; [exact Hb|].
  destruct e; try exact Hb. eapply R_trans; [exact Hb | apply Hh].
Qed.

Lemma steps_except_ObjectDeletedError {A : Type} (body : Reader.M A) :
  Ledger.steps R body -> Ledger.steps R (Reader.except_ObjectDeletedError body).
Proof.
  intros Hb s. unfold Reader.except_ObjectDeletedError. specialize (Hb s).
  destruct (body s) as [[a|e] s']; [exact Hb|]. destruct e; exact Hb.
Qed.

Lemma steps_one_type (name : string) : Ledger.steps R (Reader.one_type name).
Proof.
  intros s. unfold Reader.one_type. pose proof (R_query "Type" s) as Hq.
  destruct (Session.query "Type" s) as [rows s']. exact Hq.
Qed.

Variable directory : string.
Variable os_path_join : string -> string -> string.
Variable os_path_abspath : string -> string.
Variable import_class : string -> result Reader.toolwrapper_class.
Variable now : Z.
Variable object_deleted : Rule.Rule -> Session.WopMarsSession -> bool.

Lemma steps_collection (tw : Rule.Rule) :
  Ledger.steps R (Reader.collection object_deleted tw).
Proof.
  intros s. unfold Reader.collection. destruct (object_deleted tw s); apply R_refl.
Qed.

Lemma steps_bind_files (entry : Session.entity)
    (fs : list (string * Rule.FileInputOutputInformation)) :
  forall tw, Ledger.steps R (Reader.bind_files object_deleted entry fs tw).
Proof.
  induction fs as [|[n f] fs IH]; intros tw; cbn [Reader.bind_files]; [apply steps_ret|].
  apply steps_bind; [|intros tw'; apply IH].
  apply steps_except_ObjectDeletedError, steps_bind;
    [apply steps_collection | intros _; apply steps_ret].
Qed.

Lemma steps_bind_tables (entry : Session.entity)
    (ts : list (string * Rule.TableInputOutputInformation)) :
  forall tw, Ledger.steps R (Reader.bind_tables now object_deleted entry ts tw).
Proof.
  induction ts as [|[tablename iodbput_entry] ts IH]; intros tw; cbn [Reader.bind_tables];
    [apply steps_ret|].
  apply steps_bind; [apply steps_call, R_commit|]. intros _. apply steps_bind.
  - intros s. pose proof (R_ledger now tablename s) as Hg.
    destruct (Session.get_or_create _ _ _ s) as [r s']. exact Hg.
  - intros r. cbv zeta. apply steps_bind; [|intros tw'; apply IH].
    apply steps_except_ObjectDeletedError, steps_bind;
      [apply steps_collection | intros _; apply steps_ret].
Qed.

Lemma steps_bind_options (os : list (string * Rule.Option)) :
  forall tw, Ledger.steps R (Reader.bind_options object_deleted os tw).
Proof.
  induction os as [|[n o] os IH]; intros tw; cbn [Reader.bind_options]; [apply steps_ret|].
  apply steps_bind; [apply steps_collection | intros _; apply IH].
Qed.

Lemma steps_create_toolwrapper_entry (str_rule_name : string) (str_wrapper_name : node)
    (ddd : Reader.elements) (input_entry output_entry : Session.entity) :
  Ledger.steps R (Reader.create_toolwrapper_entry import_class now object_deleted
                    str_rule_name str_wrapper_name ddd input_entry output_entry).
Proof.
  unfold Reader.create_toolwrapper_entry.
  apply steps_bind; [apply steps_lift|]. intros cls. cbv zeta.
  apply steps_bind; [apply steps_bind_files|]. intros tw1.
  apply steps_bind; [apply steps_bind_tables|]. intros tw2.
  apply steps_bind; [apply steps_bind_files|]. intros tw3.
  apply steps_bind; [apply steps_bind_tables|]. intros tw4.
  apply steps_bind_options.
Qed.

Lemma steps_bind_rule (document : node) (input_entry output_entry : Session.entity)
    (rule : node) :
  Ledger.steps R (Reader.bind_rule directory os_path_join os_path_abspath import_class now
                    object_deleted document input_entry output_entry rule).
Proof.
  unfold Reader.bind_rule.
  apply steps_bind; [apply steps_lift|]. intros r.
  apply steps_bind; [apply steps_create_toolwrapper_entry|]. intros tw.
  apply steps_bind; [apply steps_call, R_commit|]. intros _.
  apply steps_bind; [apply steps_call, R_rollback|]. intros _. apply steps_ret.
Qed.

Lemma steps_bind_rules (document : node) (input_entry output_entry : Session.entity)
    (rules : list node) :
  forall set_wrapper,
    Ledger.steps R (Reader.bind_rules directory os_path_join os_path_abspath import_class now
                      object_deleted document input_entry output_entry rules set_wrapper).
Proof.
  induction rules as [|rule rules IH]; intros set_wrapper; cbn [Reader.bind_rules];
    [apply steps_ret|].
  apply steps_bind; [apply steps_bind_rule | intros tw; apply IH].
Qed.


Variable set_order : list Rule.Rule -> list Rule.Rule.


End Steps.

(** *** Failures of the binding *)







Section Read.

Variable read_file : string -> option string.
Variable yaml_load : string -> result node.
Variable directory : string.
Variable os_path_join : string -> string -> string.
Variable os_path_abspath : string -> string.
Variable import_class : string -> result Reader.toolwrapper_class.
Variable now : Z.
Variable object_deleted : Rule.Rule -> Session.WopMarsSession -> bool.
Variable set_order : list Rule.Rule -> list Rule.Rule.
Variable correspond : Rule.Option -> string -> result unit.
Variable tablename_of_model : Rule.TableInputOutputInformation -> string.

(** The set of the tools holds every tool added, and no other. *)
Hypothesis set_order_members : forall l, Permutation (set_order l) l.

Lemma add_all_new (rows : list Session.entity) : forall s : Session.WopMarsSession,
  Session.new (Session.session (Session.add_all rows s))
  = (Session.new (Session.session s) ++ rows)%list.
Proof.
  unfold Session.add_all.
  induction rows as [|x rows IH]; intros s; simpl.
  - rewrite app_nil_r. reflexivity.
  - rewrite IH. simpl. rewrite <- app_assoc. reflexivity.
Qed.

(** A commit that follows [add_all] writes the rows added. *)
Lemma commit_add_all (rows : list Session.entity) (s : Session.WopMarsSession)
    (x : Session.entity) :
  In x rows ->
  In x (Session.committed (Session.session (Session.commit (Session.add_all rows s))))
  /\ exists log, Session.manager (Session.commit (Session.add_all rows s))
                 = (log ++ [Session.CallCommit])%list.
Proof.
  intros Hin. unfold Session.commit, Session.something.
  pose proof (add_all_new rows s) as Hnew.
  destruct (Session.new (Session.session (Session.add_all rows s))) as [|y new'] eqn:Hn.
  - symmetry in Hnew. apply app_eq_nil in Hnew as [_ ->]. destruct Hin.
  - simpl. split.
    + apply in_or_app. right. rewrite Hn, Hnew. apply in_or_app. right. exact Hin.
    + eexists. reflexivity.
Qed.

(** A workflow that is bound ends with the rows of its rules added and
    committed. *)
Lemma bind_workflow_ends (document : node) (s s1 : Session.WopMarsSession)
    (set_wrapper : list Rule.Rule) :
  Reader.bind_workflow directory os_path_join os_path_abspath import_class now
                       object_deleted set_order document s
  = (Ok set_wrapper, s1) ->
  exists s0, s1 = Session.commit
                    (Session.add_all (List.map Reader.rule_row (set_order set_wrapper))
                                     (Session.rollback s0)).
Proof.
  unfold Reader.bind_workflow, Reader.bindM, Reader.call, Reader.ret, Reader.lift.
  intros H.
  destruct (Reader.one_type "input" s) as [[input_entry|e] sa]; [|discriminate].
  destruct (Reader.one_type "output" sa) as [[output_entry|e] sb]; [|discriminate].
  destruct (iterate document) as [rules|e]; [|discriminate].
  destruct (Reader.bind_rules _ _ _ _ _ _ _ _ _ _ _ sb) as [[sw|e] sc]; [|discriminate].
  injection H as <- <-. eexists. reflexivity.
Qed.



End Read.



End ReaderSpec.


(** ** Further properties of Rule.py *)

Module RuleMore.
Import Py.

Lemma str_in_In (x : string) (l : list string) : str_in x l = true <-> In x l.
Proof.
  unfold str_in. rewrite existsb_exists. split.
  - intros (y & Hy & Heq). apply String.eqb_eq in Heq. subst. exact Hy.
  - intros H. exists x. split; [exact H | apply String.eqb_refl].
Qed.

Lemma set_eq_iff (l1 l2 : list string) :
  set_eq l1 l2 = true <-> forall x, In x l1 <-> In x l2.
Proof.
  unfold set_eq. rewrite andb_true_iff, !forallb_forall. split.
  - intros [H1 H2] x. split; intros Hx.
    + apply str_in_In, H1, Hx.
    + apply str_in_In, H2, Hx.
  - intros H. split; intros x Hx; apply str_in_In, H, Hx.
Qed.

Lemma issubset_iff (l1 l2 : list string) :
  issubset l1 l2 = true <-> forall x, In x l1 -> In x l2.
Proof.
  unfold issubset. rewrite forallb_forall. split.
  - intros H x Hx. apply str_in_In, H, Hx.
  - intros H x Hx. apply str_in_In, H, Hx.
Qed.

Lemma for_each_Ok {A : Type} (body : A -> result unit) (l : list A) :
  for_each body l = Ok tt <-> forall x, In x l -> body x = Ok tt.
Proof.
  induction l as [|a l IH]; simpl.
  - split; [intros _ x [] | reflexivity].
  - destruct (body a) as [[]|e] eqn:Ha; simpl.
    + rewrite IH. split.
      * intros H x [<- | Hx]; auto.
      * intros H x Hx. apply H. right. exact Hx.
    + split; [discriminate|]. intros H. specialize (H a (or_introl eq_refl)). congruence.
Qed.

Lemma for_each_Raise {A : Type} (body : A -> result unit) (l : list A) (e : exn) :
  for_each body l = Raise e -> exists x, In x l /\ body x = Raise e.
Proof.
  induction l as [|a l IH]; simpl; [discriminate|].
  destruct (body a) as [[]|e'] eqn:Ha; simpl.
  - intros H. destruct (IH H) as (x & Hx & Hb). exists x. auto.
  - intros H. injection H as <-. exists a. auto.
Qed.

Lemma names_of_type_files (r : Rule.Rule) (ty n : string) :
  In n (List.map Rule.f_name (Rule.files_of_type r ty))
  <-> exists f, In f (Rule.files r) /\ Rule.f_type_name f = ty /\ Rule.f_name f = n.
Proof.
  rewrite in_map_iff. split.
  - intros (f & Hn & Hf). apply RuleSpec.filter_type_In_files in Hf as [Hf Hty]. eauto.
  - intros (f & Hf & Hty & Hn). exists f. split; [exact Hn|].
    apply RuleSpec.filter_type_In_files. auto.
Qed.

Lemma names_of_type_tables (r : Rule.Rule) (ty n : string) :
  In n (List.map Rule.t_tablename (Rule.tables_of_type r ty))
  <-> exists t, In t (Rule.tables r) /\ Rule.t_type_name t = ty /\ Rule.t_tablename t = n.
Proof.
  rewrite in_map_iff. split.
  - intros (t & Hn & Ht). apply RuleSpec.filter_type_In_tables in Ht as [Ht Hty]. eauto.
  - intros (t & Ht & Hty & Hn). exists t. split; [exact Hn|].
    apply RuleSpec.filter_type_In_tables. auto.
Qed.

(** X1. [is_input_respected] passes exactly when the names of the input files
    are the names that the tool declares, the names of the input tables are
    the table names that it declares, and the table of the model of each input
    table is declared too. Its error about a table name that is not declared
    is never raised: the check of the set of names comes first. *)
Theorem is_input_respected_iff
    (tablename_of_model : Rule.TableInputOutputInformation -> string) (r : Rule.Rule) :
  (Rule.is_input_respected tablename_of_model r = Ok tt <->
   (forall n, (exists f, In f (Rule.files r) /\ Rule.f_type_name f = "input"
                         /\ Rule.f_name f = n)
              <-> In n (Rule.specify_input_file r))
   /\ (forall n, (exists t, In t (Rule.tables r) /\ Rule.t_type_name t = "input"
                            /\ Rule.t_tablename t = n)
                 <-> In n (Rule.specify_input_table r))
   /\ (forall t, In t (Rule.tables r) -> Rule.t_type_name t = "input" ->
                 In (tablename_of_model t) (Rule.specify_input_table r)))
  /\ (forall rule tablename,
         Rule.is_input_respected tablename_of_model r
         <> Raise (WopMarsException (InputTablenameNotCorrect rule tablename))).
Proof.
  unfold Rule.is_input_respected.
  destruct (set_eq (List.map Rule.f_name (Rule.files_of_type r "input"))
                   (Rule.specify_input_file r)) eqn:Hf; simpl.
  2:{ split; [|discriminate]. split; [discriminate|].
      intros (H & _). exfalso.
      assert (Ht : set_eq (List.map Rule.f_name (Rule.files_of_type r "input"))
                          (Rule.specify_input_file r) = true).
      { apply set_eq_iff. intros n. rewrite names_of_type_files. apply H. }
      congruence. }
  destruct (set_eq (List.map Rule.t_tablename (Rule.tables_of_type r "input"))
                   (Rule.specify_input_table r)) eqn:Ht; simpl.
  2:{ split; [|discriminate]. split; [discriminate|].
      intros (_ & H & _). exfalso.
      assert (Ht' : set_eq (List.map Rule.t_tablename (Rule.tables_of_type r "input"))
                           (Rule.specify_input_table r) = true).
      { apply set_eq_iff. intros n. rewrite names_of_type_tables. apply H. }
      congruence. }
  pose proof (proj1 (set_eq_iff _ _) Hf) as Hfiles.
  pose proof (proj1 (set_eq_iff _ _) Ht) as Htables.
  assert (Hdeclared : forall t, In t (Rule.tables_of_type r "input") ->
                        str_in (Rule.t_tablename t) (Rule.specify_input_table r) = true).
  { intros t Hin. apply str_in_In, Htables, in_map, Hin. }
  split.
  - rewrite for_each_Ok. split.
    + intros H. split; [|split].
      * intros n. rewrite <- names_of_type_files. apply Hfiles.
      * intros n. rewrite <- names_of_type_tables. apply Htables.
      * intros t Hin Hty.
        assert (Hin' : In t (Rule.tables_of_type r "input"))
          by (apply RuleSpec.filter_type_In_tables; auto).
        specialize (H t Hin'). rewrite (Hdeclared t Hin') in H. simpl in H.
        destruct (str_in (tablename_of_model t) (Rule.specify_input_table r)) eqn:Hm;
          [apply str_in_In; exact Hm | discriminate H].
    + intros (_ & _ & H) t Hin. rewrite (Hdeclared t Hin). simpl.
      apply RuleSpec.filter_type_In_tables in Hin as [Hin Hty].
      rewrite (proj2 (str_in_In _ _) (H t Hin Hty)). reflexivity.
  - intros rule tablename Hraise.
    apply for_each_Raise in Hraise as (t & Hin & Hbody).
    rewrite (Hdeclared t Hin) in Hbody. simpl in Hbody.
    destruct (str_in (tablename_of_model t) (Rule.specify_input_table r)); discriminate Hbody.
Qed.

(** X2. [is_output_respected] passes exactly when the names of the output
    files and of the output tables are the names that the tool declares; the
    models of the output tables are not looked at, and the error about a
    single table name is never raised. *)
Theorem is_output_respected_iff (r : Rule.Rule) :
  (Rule.is_output_respected r = Ok tt <->
   (forall n, (exists f, In f (Rule.files r) /\ Rule.f_type_name f = "output"
                         /\ Rule.f_name f = n)
              <-> In n (Rule.specify_output_file r))
   /\ (forall n, (exists t, In t (Rule.tables r) /\ Rule.t_type_name t = "output"
                            /\ Rule.t_tablename t = n)
                 <-> In n (Rule.specify_output_table r)))
  /\ (forall rule tablename,
         Rule.is_output_respected r
         <> Raise (WopMarsException (OutputTablenameNotCorrect rule tablename))).
Proof.
  unfold Rule.is_output_respected.
  destruct (set_eq (List.map Rule.f_name (Rule.files_of_type r "output"))
                   (Rule.specify_output_file r)) eqn:Hf; simpl.
  2:{ split; [|discriminate]. split; [discriminate|].
      intros (H & _). exfalso.
      assert (Ht : set_eq (List.map Rule.f_name (Rule.files_of_type r "output"))
                          (Rule.specify_output_file r) = true).
      { apply set_eq_iff. intros n. rewrite names_of_type_files. apply H. }
      congruence. }
  destruct (set_eq (List.map Rule.t_tablename (Rule.tables_of_type r "output"))
                   (Rule.specify_output_table r)) eqn:Ht; simpl.
  2:{ split; [|discriminate]. split; [discriminate|].
      intros (_ & H). exfalso.
      assert (Ht' : set_eq (List.map Rule.t_tablename (Rule.tables_of_type r "output"))
                           (Rule.specify_output_table r) = true).
      { apply set_eq_iff. intros n. rewrite names_of_type_tables. apply H. }
      congruence. }
  pose proof (proj1 (set_eq_iff _ _) Hf) as Hfiles.
  pose proof (proj1 (set_eq_iff _ _) Ht) as Htables.
  assert (Hdeclared : forall t, In t (Rule.tables_of_type r "output") ->
                        str_in (Rule.t_tablename t) (Rule.specify_output_table r) = true).
  { intros t Hin. apply str_in_In, Htables, in_map, Hin. }
  split.
  - rewrite for_each_Ok. split.
    + intros _. split.
      * intros n. rewrite <- names_of_type_files. apply Hfiles.
      * intros n. rewrite <- names_of_type_tables. apply Htables.
    + intros _ t Hin. rewrite (Hdeclared t Hin). reflexivity.
  - intros rule tablename Hraise.
    apply for_each_Raise in Hraise as (t & Hin & Hbody).
    rewrite (Hdeclared t Hin) in Hbody. discriminate Hbody.
Qed.

Lemma getitem_In {V : Type} (d : list (string * V)) (k : string) :
  In k (List.map fst d) <-> exists v, getitem d k = Ok v.
Proof.
  induction d as [|[k' v'] d IH]; simpl.
  - split; [intros [] | intros [v H]; discriminate H].
  - destruct (String.eqb_spec k' k) as [->|Hne].
    + split; [intros _; exists v'; reflexivity | intros _; left; reflexivity].
    + rewrite <- IH. split; [intros [H | H]; [contradiction | exact H] | intros H; right; exact H].
Qed.


(** X3. [is_options_respected] passes exactly when every option given has a
    specification that its value corresponds to, and every option whose
    specification holds the word [required], in any case, is given. *)
Theorem is_options_respected_iff
    (correspond : Rule.Option -> string -> result unit) (r : Rule.Rule) :
  Rule.is_options_respected correspond r = Ok tt <->
  (forall o, In o (Rule.options r) ->
             exists carac, getitem (Rule.specify_params r) (Rule.o_name o) = Ok carac
                           /\ correspond o carac = Ok tt)
  /\ (forall opt carac,
         getitem (Rule.specify_params r) opt = Ok carac ->
         contains "required" (lower carac) = true ->
         exists o, In o (Rule.options r) /\ Rule.o_name o = opt).
Proof.
  unfold Rule.is_options_respected.
  destruct (issubset (List.map Rule.o_name (Rule.options r))
                     (List.map fst (Rule.specify_params r))) eqn:Hsub; simpl.
  2:{ split; [discriminate|]. intros [H _]. exfalso.
      assert (Ht : issubset (List.map Rule.o_name (Rule.options r))
                            (List.map fst (Rule.specify_params r)) = true).
      { apply issubset_iff. intros n Hn. apply in_map_iff in Hn as (o & <- & Ho).
        destruct (H o Ho) as (carac & Hc & _). apply getitem_In. eauto. }
      congruence. }
  destruct (for_each _ (Rule.options r)) as [[]|e] eqn:Hfirst; simpl.
  - pose proof (proj1 (for_each_Ok _ _) Hfirst) as Hall.
    rewrite for_each_Ok. split.
    + intros H. split.
      * intros o Ho. specialize (Hall o Ho). simpl in Hall.
        destruct (getitem (Rule.specify_params r) (Rule.o_name o)) as [carac|]; [|discriminate].
        exists carac. auto.
      * intros opt carac Hget Hreq.
        assert (Hin : In opt (List.map fst (Rule.specify_params r)))
          by (apply getitem_In; eauto).
        specialize (H opt Hin). simpl in H. rewrite Hget in H. simpl in H. rewrite Hreq in H.
        simpl in H.
        destruct (str_in opt (List.map Rule.o_name (Rule.options r))) eqn:Hgiven;
          [|discriminate H].
        apply str_in_In, in_map_iff in Hgiven as (o & Hn & Ho). eauto.
    + intros [_ H] opt Hin. apply getitem_In in Hin as [carac Hget]. rewrite Hget. simpl.
      destruct (contains "required" (lower carac)) eqn:Hreq; [|reflexivity]. simpl.
      destruct (H opt carac Hget Hreq) as (o & Ho & Hn).
      assert (Hgiven : str_in opt (List.map Rule.o_name (Rule.options r)) = true).
      { apply str_in_In, in_map_iff. eauto. }
      rewrite Hgiven. reflexivity.
  - split; [discriminate|]. intros [H _]. exfalso.
    apply for_each_Raise in Hfirst as (o & Ho & Hbody).
    destruct (H o Ho) as (carac & Hget & Hcor). rewrite Hget in Hbody. simpl in Hbody.
    congruence.
Qed.

Lemma first_item_filter {A : Type} (p : A -> bool) (l : list A) :
  (exists x, In x l /\ p x = true) ->
  exists x rest, In x l /\ p x = true /\ List.filter p l = x :: rest.
Proof.
  intros (x & Hin & Hp).
  assert (Hf : In x (List.filter p l)) by (apply List.filter_In; auto).
  destruct (List.filter p l) as [|y rest] eqn:E; [destruct Hf|].
  assert (Hy : In y (List.filter p l)) by (rewrite E; left; reflexivity).
  apply List.filter_In in Hy as [Hy Hpy]. exists y, rest. auto.
Qed.

Lemma content_respected_parts
    (correspond : Rule.Option -> string -> result unit)
    (tablename_of_model : Rule.TableInputOutputInformation -> string) (r : Rule.Rule) :
  Rule.is_content_respected correspond tablename_of_model r = Ok tt ->
  set_eq (List.map Rule.f_name (Rule.files_of_type r "input")) (Rule.specify_input_file r) = true
  /\ set_eq (List.map Rule.t_tablename (Rule.tables_of_type r "input"))
            (Rule.specify_input_table r) = true
  /\ set_eq (List.map Rule.f_name (Rule.files_of_type r "output"))
            (Rule.specify_output_file r) = true
  /\ set_eq (List.map Rule.t_tablename (Rule.tables_of_type r "output"))
            (Rule.specify_output_table r) = true.
Proof.
  unfold Rule.is_content_respected. intros H.
  destruct (Rule.is_options_respected correspond r) as [[]|]; [|discriminate]. simpl in H.
  unfold Rule.is_input_respected, Rule.is_output_respected in H.
  destruct (set_eq (List.map Rule.f_name (Rule.files_of_type r "input")) _);
    [|discriminate]. simpl in H.
  destruct (set_eq (List.map Rule.t_tablename (Rule.tables_of_type r "input")) _);
    [|discriminate]. simpl in H.
  destruct (for_each _ (Rule.tables_of_type r "input")) as [[]|]; [|discriminate]. simpl in H.
  destruct (set_eq (List.map Rule.f_name (Rule.files_of_type r "output")) _);
    [|discriminate]. simpl in H.
  destruct (set_eq (List.map Rule.t_tablename (Rule.tables_of_type r "output")) _);
    [|discriminate].
  auto.
Qed.

Lemma file_accessor (r : Rule.Rule) (ty n : string) :
  In n (List.map Rule.f_name (Rule.files_of_type r ty)) ->
  exists f rest,
    In f (Rule.files r) /\ Rule.f_type_name f = ty /\ Rule.f_name f = n
    /\ List.filter (fun f => String.eqb (Rule.f_name f) n && String.eqb (Rule.f_type_name f) ty)
                   (Rule.files r) = f :: rest.
Proof.
  intros Hn. apply names_of_type_files in Hn as (f & Hf & Hty & Hname).
  destruct (first_item_filter
              (fun f => String.eqb (Rule.f_name f) n && String.eqb (Rule.f_type_name f) ty)
              (Rule.files r)) as (g & rest & Hg & Hp & E).
  { exists f. split; [exact Hf|]. apply andb_true_iff. split; apply String.eqb_eq; assumption. }
  apply andb_true_iff in Hp as [Hp1 Hp2]. apply String.eqb_eq in Hp1, Hp2.
  exists g, rest. auto.
Qed.

Lemma table_accessor (r : Rule.Rule) (ty n : string) :
  In n (List.map Rule.t_tablename (Rule.tables_of_type r ty)) ->
  exists t rest,
    In t (Rule.tables r) /\ Rule.t_type_name t = ty /\ Rule.t_tablename t = n
    /\ List.filter (fun t => String.eqb (Rule.t_tablename t) n
                             && String.eqb (Rule.t_type_name t) ty)
                   (Rule.tables r) = t :: rest.
Proof.
  intros Hn. apply names_of_type_tables in Hn as (t & Ht & Hty & Hname).
  destruct (first_item_filter
              (fun t => String.eqb (Rule.t_tablename t) n && String.eqb (Rule.t_type_name t) ty)
              (Rule.tables r)) as (g & rest & Hg & Hp & E).
  { exists t. split; [exact Ht|]. apply andb_true_iff. split; apply String.eqb_eq; assumption. }
  apply andb_true_iff in Hp as [Hp1 Hp2]. apply String.eqb_eq in Hp1, Hp2.
  exists g, rest. auto.
Qed.

(** X4. Once the content of a rule is respected, the accessors of the rule
    answer for every name that the tool declares: [input_file] and
    [output_file] return the path of a file of that name and type, and
    [input_table] and [output_table] the model of a table of that name and
    type. *)
Theorem content_respected_gives_access
    (correspond : Rule.Option -> string -> result unit)
    (tablename_of_model : Rule.TableInputOutputInformation -> string)
    (Model : Type) (get_table : Rule.TableInputOutputInformation -> Model) (r : Rule.Rule) :
  Rule.is_content_respected correspond tablename_of_model r = Ok tt ->
  (forall n, In n (Rule.specify_input_file r) ->
             exists f, In f (Rule.files r) /\ Rule.f_type_name f = "input"
                       /\ Rule.f_name f = n /\ Rule.input_file r n = Ok (Rule.f_path f))
  /\ (forall n, In n (Rule.specify_output_file r) ->
                exists f, In f (Rule.files r) /\ Rule.f_type_name f = "output"
                          /\ Rule.f_name f = n /\ Rule.output_file r n = Ok (Rule.f_path f))
  /\ (forall n, In n (Rule.specify_input_table r) ->
                exists t, In t (Rule.tables r) /\ Rule.t_type_name t = "input"
                          /\ Rule.t_tablename t = n
                          /\ Rule.input_table Model get_table r n = Ok (get_table t))
  /\ (forall n, In n (Rule.specify_output_table r) ->
                exists t, In t (Rule.tables r) /\ Rule.t_type_name t = "output"
                          /\ Rule.t_tablename t = n
                          /\ Rule.output_table Model get_table r n = Ok (get_table t)).
Proof.
  intros H. apply content_respected_parts in H as (Hif & Hit & Hof & Hot).
  rewrite set_eq_iff in Hif, Hit, Hof, Hot.
  repeat split; intros n Hn.
  - apply Hif, file_accessor in Hn as (f & rest & Hf & Hty & Hname & E).
    exists f. repeat split; try assumption. unfold Rule.input_file. rewrite E. reflexivity.
  - apply Hof, file_accessor in Hn as (f & rest & Hf & Hty & Hname & E).
    exists f. repeat split; try assumption. unfold Rule.output_file. rewrite E. reflexivity.
  - apply Hit, table_accessor in Hn as (t & rest & Ht & Hty & Hname & E).
    exists t. repeat split; try assumption. unfold Rule.input_table. rewrite E. reflexivity.
  - apply Hot, table_accessor in Hn as (t & rest & Ht & Hty & Hname & E).
    exists t. repeat split; try assumption. unfold Rule.output_table. rewrite E. reflexivity.
Qed.

(** The tool [Query] of the tests reaches its table [FooBase]. *)
Lemma content_respected_gives_access_witness :
  exists t, In t (Rule.tables MoreSamples.rule_query)
            /\ Rule.input_table string Rule.t_model MoreSamples.rule_query "FooBase"
               = Ok (Rule.t_model t).
Proof.
  destruct (content_respected_gives_access (fun _ _ => Ok tt) Rule.t_tablename
              string Rule.t_model MoreSamples.rule_query eq_refl) as (_ & _ & Hit & _).
  destruct (Hit "FooBase") as (t & Ht & _ & _ & Hacc); [left; reflexivity|].
  exists t. split; [exact Ht | exact Hacc].
Defined.






(** X6. Two rules are equal for [__eq__] exactly when the class of the first
    is among the classes of the second, each input or output file of the first
    has in the second a file of the same type, name and absolute path, the
    second has a table of each type of which the first has one, and each
    option of the first has in the second an option of the same name and
    value. Nothing is asked of what the second rule has besides. *)
Theorem eq_is_inclusion (os_path_abspath : string -> string) (self other : Rule.Rule) :
  Rule.__eq__ os_path_abspath self other = true <->
  (exists cls rest, Rule.mro self = cls :: rest /\ In cls (Rule.mro other))
  /\ (forall f, In f (Rule.files self) ->
                Rule.f_type_name f = "input" \/ Rule.f_type_name f = "output" ->
                exists rf, In rf (Rule.files other)
                           /\ os_path_abspath (Rule.f_path f) = os_path_abspath (Rule.f_path rf)
                           /\ Rule.f_name f = Rule.f_name rf
                           /\ Rule.f_type_name rf = Rule.f_type_name f)
  /\ (forall t, In t (Rule.tables self) ->
                Rule.t_type_name t = "input" \/ Rule.t_type_name t = "output" ->
                exists t', In t' (Rule.tables other)
                           /\ Rule.t_type_name t' = Rule.t_type_name t)
  /\ (forall opt, In opt (Rule.options self) ->
                  exists o, In o (Rule.options other)
                            /\ Rule.o_name o = Rule.o_name opt
                            /\ node_eqb (Rule.o_value o) (Rule.o_value opt) = true).
Proof.
  assert (Hfiles : forall ty,
             Rule.same_files os_path_abspath self other ty = true <->
             forall f, In f (Rule.files self) -> Rule.f_type_name f = ty ->
                       exists rf, In rf (Rule.files other)
                                  /\ os_path_abspath (Rule.f_path f)
                                     = os_path_abspath (Rule.f_path rf)
                                  /\ Rule.f_name f = Rule.f_name rf
                                  /\ Rule.f_type_name rf = ty).
  { intros ty. unfold Rule.same_files. rewrite forallb_forall. split.
    - intros H f Hf Hty.
      assert (Hin : In f (Rule.files_of_type self ty))
        by (apply RuleSpec.filter_type_In_files; auto).
      apply H, RuleSpec.bool_of_list_filter in Hin as (rf & Hrf & Hp).
      apply andb_true_iff in Hp as [Hp Hp3]. apply andb_true_iff in Hp as [Hp1 Hp2].
      apply String.eqb_eq in Hp1, Hp2, Hp3. exists rf. auto.
    - intros H f Hin. apply RuleSpec.filter_type_In_files in Hin as [Hf Hty].
      destruct (H f Hf Hty) as (rf & Hrf & H1 & H2 & H3).
      apply RuleSpec.bool_of_list_filter. exists rf. split; [exact Hrf|].
      rewrite !andb_true_iff, !String.eqb_eq. auto. }
  assert (Htables : forall ty,
             Rule.same_tables self other ty = true <->
             forall t, In t (Rule.tables self) -> Rule.t_type_name t = ty ->
                       exists t', In t' (Rule.tables other) /\ Rule.t_type_name t' = ty).
  { intros ty. unfold Rule.same_tables. rewrite forallb_forall. split.
    - intros H t Ht Hty.
      assert (Hin : In t (Rule.tables_of_type self ty))
        by (apply RuleSpec.filter_type_In_tables; auto).
      apply H, RuleSpec.bool_of_list_filter in Hin as (t' & Ht' & Hp).
      rewrite !String.eqb_refl in Hp. simpl in Hp. rewrite andb_true_r in Hp.
      apply String.eqb_eq in Hp. exists t'. auto.
    - intros H t Hin. apply RuleSpec.filter_type_In_tables in Hin as [Ht Hty].
      destruct (H t Ht Hty) as (t' & Ht' & Hty').
      apply RuleSpec.bool_of_list_filter. exists t'. split; [exact Ht'|].
      rewrite !String.eqb_refl. simpl. rewrite andb_true_r. apply String.eqb_eq. exact Hty'. }
  assert (Hoptions :
             Rule.same_options self other = true <->
             forall opt, In opt (Rule.options self) ->
                         exists o, In o (Rule.options other)
                                   /\ Rule.o_name o = Rule.o_name opt
                                   /\ node_eqb (Rule.o_value o) (Rule.o_value opt) = true).
  { unfold Rule.same_options. rewrite forallb_forall. split.
    - intros H opt Hopt. apply H, RuleSpec.bool_of_list_filter in Hopt as (o & Ho & Hp).
      apply andb_true_iff in Hp as [Hp1 Hp2]. apply String.eqb_eq in Hp1. exists o. auto.
    - intros H opt Hopt. destruct (H opt Hopt) as (o & Ho & H1 & H2).
      apply RuleSpec.bool_of_list_filter. exists o. split; [exact Ho|].
      rewrite andb_true_iff, String.eqb_eq. auto. }
  assert (Hclass : Rule.isinstance other self = true <->
                   exists cls rest, Rule.mro self = cls :: rest /\ In cls (Rule.mro other)).
  { unfold Rule.isinstance. destruct (Rule.mro self) as [|cls rest].
    - split; [discriminate | intros (c & l & H & _); discriminate H].
    - rewrite str_in_In. split.
      + intros H. exists cls, rest. auto.
      + intros (c & l & H & Hin). injection H as <- <-. exact Hin. }
  unfold Rule.__eq__. rewrite !andb_true_iff, Hclass, !Hfiles, !Htables, Hoptions.
  split.
  - intros (((((Hc & Hfi) & Hti) & Hfo) & Hto) & Ho).
    split; [exact Hc|]. split; [|split; [|exact Ho]].
    + intros f Hf [Hty | Hty]; rewrite Hty; [apply Hfi | apply Hfo]; assumption.
    + intros t Ht [Hty | Hty]; rewrite Hty; [apply (Hti t) | apply (Hto t)]; assumption.
  - intros (Hc & Hf & Ht & Ho).
    repeat split; try assumption.
    + intros f Hin Hty. destruct (Hf f Hin (or_introl Hty)) as (rf & ? & ? & ? & Hrf).
      exists rf. rewrite Hty in Hrf. auto.
    + intros t Hin Hty. destruct (Ht t Hin (or_introl Hty)) as (t' & ? & Ht').
      exists t'. rewrite Hty in Ht'. auto.
    + intros f Hin Hty. destruct (Hf f Hin (or_intror Hty)) as (rf & ? & ? & ? & Hrf).
      exists rf. rewrite Hty in Hrf. auto.
    + intros t Hin Hty. destruct (Ht t Hin (or_intror Hty)) as (t' & ? & Ht').
      exists t'. rewrite Hty in Ht'. auto.
Qed.

(** X7. [same_output_than] is true exactly when each output table of the
    first rule has in the second an output table of the same model and table
    name, and each input file of the first has in the second an input file of
    the same name and path: the output files of the two rules are not
    compared. *)
Theorem same_output_than_iff (self other : Rule.Rule) :
  Lifecycle.same_output_than self other = true <->
  (forall t, In t (Rule.tables self) -> Rule.t_type_name t = "output" ->
             exists t2, In t2 (Rule.tables other) /\ Rule.t_type_name t2 = "output"
                        /\ Rule.t_model t = Rule.t_model t2
                        /\ Rule.t_tablename t = Rule.t_tablename t2)
  /\ (forall f, In f (Rule.files self) -> Rule.f_type_name f = "input" ->
                exists f2, In f2 (Rule.files other) /\ Rule.f_type_name f2 = "input"
                           /\ Rule.f_name f = Rule.f_name f2
                           /\ Rule.f_path f = Rule.f_path f2).
Proof.
  unfold Lifecycle.same_output_than. rewrite andb_true_iff, !forallb_forall.
  split; intros [Ht Hf]; split.
  - intros t Hin Hty.
    assert (Hin' : In t (Rule.tables_of_type self "output"))
      by (apply RuleSpec.filter_type_In_tables; auto).
    apply Ht, existsb_exists in Hin' as (t2 & Ht2 & Hp).
    apply RuleSpec.filter_type_In_tables in Ht2 as [Ht2 Hty2].
    apply andb_true_iff in Hp as [H1 H2]. apply String.eqb_eq in H1, H2. exists t2. auto.
  - intros f Hin Hty.
    assert (Hin' : In f (Rule.files_of_type self "input"))
      by (apply RuleSpec.filter_type_In_files; auto).
    apply Hf, existsb_exists in Hin' as (f2 & Hf2 & Hp).
    apply RuleSpec.filter_type_In_files in Hf2 as [Hf2 Hty2].
    apply andb_true_iff in Hp as [H1 H2]. apply String.eqb_eq in H1, H2. exists f2. auto.
  - intros t Hin. apply RuleSpec.filter_type_In_tables in Hin as [Hin Hty].
    destruct (Ht t Hin Hty) as (t2 & Ht2 & Hty2 & H1 & H2).
    apply existsb_exists. exists t2. split.
    + apply RuleSpec.filter_type_In_tables. auto.
    + rewrite andb_true_iff, !String.eqb_eq. auto.
  - intros f Hin. apply RuleSpec.filter_type_In_files in Hin as [Hin Hty].
    destruct (Hf f Hin Hty) as (f2 & Hf2 & Hty2 & H1 & H2).
    apply existsb_exists. exists f2. split.
    + apply RuleSpec.filter_type_In_files. auto.
    + rewrite andb_true_iff, !String.eqb_eq. auto.
Qed.

(** X8. [are_inputs_ready] returns [True] and leaves the rule [READY] exactly
    when [get_input_files_not_ready] finds no file and every input table is
    ready; otherwise it returns [False] and leaves the rule [NOT_READY]. *)
Theorem are_inputs_ready_iff
    (file_is_ready : Rule.FileInputOutputInformation -> bool)
    (table_is_ready : Rule.TableInputOutputInformation -> bool) (r : Rule.Rule) :
  (Lifecycle.are_inputs_ready file_is_ready table_is_ready r = (true, Lifecycle.READY) <->
   Lifecycle.get_input_files_not_ready file_is_ready r = []
   /\ (forall t, In t (Rule.tables r) -> Rule.t_type_name t = "input" ->
                 table_is_ready t = true))
  /\ (Lifecycle.are_inputs_ready file_is_ready table_is_ready r = (true, Lifecycle.READY)
      \/ Lifecycle.are_inputs_ready file_is_ready table_is_ready r
         = (false, Lifecycle.NOT_READY)).
Proof.
  unfold Lifecycle.are_inputs_ready, Lifecycle.get_input_files_not_ready.
  assert (Hfiles : forallb file_is_ready (Rule.files_of_type r "input") = true <->
                   List.filter (fun i => negb (file_is_ready i))
                               (Rule.files_of_type r "input") = []).
  { rewrite forallb_forall, SessionSpec.filter_none. split; intros H x Hx.
    - rewrite (H x Hx). reflexivity.
    - apply negb_false_iff, H, Hx. }
  assert (Htables : forallb table_is_ready (Rule.tables_of_type r "input") = true <->
                    forall t, In t (Rule.tables r) -> Rule.t_type_name t = "input" ->
                              table_is_ready t = true).
  { rewrite forallb_forall. split.
    - intros H t Ht Hty. apply H, RuleSpec.filter_type_In_tables. auto.
    - intros H t Hin. apply RuleSpec.filter_type_In_tables in Hin as [Ht Hty]. auto. }
  destruct (forallb file_is_ready (Rule.files_of_type r "input")) eqn:Hf.
  - destruct (forallb table_is_ready (Rule.tables_of_type r "input")) eqn:Ht.
    + split; [|left; reflexivity]. split; [|reflexivity].
      intros _. split; [apply Hfiles | apply Htables]; reflexivity.
    + split; [|right; reflexivity]. split; [discriminate|].
      intros [_ H]. apply Htables in H. discriminate H.
  - split; [|right; reflexivity]. split; [discriminate|].
    intros [H _]. apply Hfiles in H. discriminate H.
Qed.

(** X9. On a rule without input file and without output file, whose input
    and output tables have times in the ledger,
    [is_output_more_recent_than_input] returns [True] exactly when the latest
    time of the input tables is strictly before the earliest time of the
    output tables, and [False] when the two are equal. On a rule without
    input file it raises a [ValueError] when there is no input table, and
    also when the input tables have times and there is neither output file
    nor output table: the maximum or the minimum of no value. *)
Theorem freshness_of_tables (r : Rule.Rule) :
  Terms.no_file r "input" ->
  (Terms.no_file r "output" ->
   Terms.times_defined r "input" -> Terms.times_defined r "output" ->
   (Rule.is_output_more_recent_than_input r = Ok true <->
    exists I O, Terms.maximum (Terms.time_of r "input") I
                /\ Terms.minimum (Terms.time_of r "output") O
                /\ I < O)
   /\ (forall T, Terms.maximum (Terms.time_of r "input") T ->
                 Terms.minimum (Terms.time_of r "output") T ->
                 Rule.is_output_more_recent_than_input r = Ok false))
  /\ ((forall t, In t (Rule.tables r) -> Rule.t_type_name t <> "input") ->
      Rule.is_output_more_recent_than_input r = Raise ValueError)
  /\ (Terms.no_file r "output" ->
      Terms.times_defined r "input" -> (exists x, Terms.time_of r "input" x) ->
      (forall t, In t (Rule.tables r) -> Rule.t_type_name t <> "output") ->
      Rule.is_output_more_recent_than_input r = Raise ValueError).
Proof.
  intros Hnoin.
  assert (Hnot : forall ty, (forall t, In t (Rule.tables r) -> Rule.t_type_name t <> ty) ->
                            Rule.tables_of_type r ty = []).
  { intros ty H. apply SessionSpec.filter_none. intros t Ht. apply String.eqb_neq. auto. }
  unfold Rule.is_output_more_recent_than_input.
  rewrite (RuleSpec.no_file_of_type r "input" Hnoin). cbn [Rule.mtimes map_result bind app].
  split; [|split].
  - intros Hnoout Hin Hout.
    destruct (RuleSpec.times_of_type r "input" Hin) as (zi & -> & Hmi).
    destruct (RuleSpec.times_of_type r "output" Hout) as (zo & Hzo & Hmo).
    pose proof (RuleSpec.max_of_defined zi) as Hmax.
    destruct zi as [|i0 zi'].
    + rewrite Hmax. cbn [bind]. split.
      * split; [discriminate|]. intros (I & O & [HI _] & _). apply Hmi in HI. destruct HI.
      * intros T [HT _] _. apply Hmi in HT. destruct HT.
    + destruct Hmax as (I & -> & HI & HImax). cbn [bind].
      rewrite (RuleSpec.no_file_of_type r "output" Hnoout).
      cbn [Rule.mtimes map_result bind app]. rewrite Hzo.
      pose proof (RuleSpec.min_of_defined zo) as Hmin.
      destruct zo as [|o0 zo'].
      * rewrite Hmin. cbn [bind]. split.
        -- split; [discriminate|].
           intros (I' & O & _ & [HO _] & _). apply Hmo in HO. destruct HO.
        -- intros T _ [HT _]. apply Hmo in HT. destruct HT.
      * destruct Hmin as (O & -> & HO & HOmin). cbn [bind Rule.lt].
        assert (HIu : forall I', Terms.maximum (Terms.time_of r "input") I' -> I' = I).
        { intros I' [HI' HI'max]. apply Hmi in HI'. apply HImax in HI'.
          apply Hmi in HI. apply HI'max in HI. lia. }
        assert (HOu : forall O', Terms.minimum (Terms.time_of r "output") O' -> O' = O).
        { intros O' [HO' HO'min]. apply Hmo in HO'. apply HOmin in HO'.
          apply Hmo in HO. apply HO'min in HO. lia. }
        split.
        -- split.
           ++ intros Heq. injection Heq as Hlt. apply Z.ltb_lt in Hlt.
              exists I, O. repeat split; try assumption.
              ** apply Hmi; assumption.
              ** intros x Hx. apply HImax, Hmi; assumption.
              ** apply Hmo; assumption.
              ** intros x Hx. apply HOmin, Hmo; assumption.
           ++ intros (I' & O' & HI' & HO' & Hlt).
              apply HIu in HI'. apply HOu in HO'. subst. f_equal. apply Z.ltb_lt; assumption.
        -- intros T HTi HTo. apply HIu in HTi. apply HOu in HTo. subst. f_equal.
           apply Z.ltb_ge. lia.
  - intros Ht. rewrite (Hnot _ Ht). reflexivity.
  - intros Hnoout Hdef [x Hx] Ht.
    destruct (RuleSpec.times_of_type r "input" Hdef) as (zi & -> & Hmi).
    pose proof (RuleSpec.max_of_defined zi) as Hmax.
    destruct zi as [|z zi]; [apply Hmi in Hx; destruct Hx|].
    destruct Hmax as (m & -> & _). cbn [bind].
    rewrite (RuleSpec.no_file_of_type r "output" Hnoout), (Hnot _ Ht). reflexivity.
Qed.

(** A rule whose input table and output table were both written at time 10 is
    not up to date. *)
Lemma freshness_of_tables_witness :
  Terms.maximum (Terms.time_of Samples.rule_join_tie "input") 10
  /\ Terms.minimum (Terms.time_of Samples.rule_join_tie "output") 10
  /\ Rule.is_output_more_recent_than_input Samples.rule_join_tie = Ok false.
Proof.
  assert (Hnone : forall ty, Terms.no_file Samples.rule_join_tie ty) by (intros ty f []).
  assert (Hdef : forall ty, Terms.times_defined Samples.rule_join_tie ty).
  { intros ty t [<- | [<- | []]] _; eexists; reflexivity. }
  assert (Hmax : Terms.maximum (Terms.time_of Samples.rule_join_tie "input") 10).
  { split.
    - eexists. split; [left; reflexivity|]. split; reflexivity.
    - intros x (t & [<- | [<- | []]] & Hty & Hx); [|discriminate Hty].
      injection Hx as <-. lia. }
  assert (Hmin : Terms.minimum (Terms.time_of Samples.rule_join_tie "output") 10).
  { split.
    - eexists. split; [right; left; reflexivity|]. split; reflexivity.
    - intros x (t & [<- | [<- | []]] & Hty & Hx); [discriminate Hty|].
      injection Hx as <-. lia. }
  split; [exact Hmax|]. split; [exact Hmin|].
  exact (proj2 (proj1 (freshness_of_tables Samples.rule_join_tie (Hnone "input"))
                  (Hnone "output") (Hdef "input") (Hdef "output")) 10 Hmax Hmin).
Defined.

End RuleMore.


(** ** Further properties of Reader.py *)

Module ReaderMore.
Import Py.

#[local] Arguments String.append !s1 s2 : simpl nomatch.

(** *** Duplicate rules *)

Lemma check_seen_Ok (rules : list string) : forall seen : gset string,
  Reader.check_seen rules seen = Ok tt <->
  List.NoDup rules /\ (forall r, In r rules -> r ∉ seen).
Proof.
  induction rules as [|a rules IH]; intros seen; simpl.
  - split; [intros _; split; [constructor | intros r []] | reflexivity].
  - destruct (decide (a ∉ seen)) as [Ha|Ha].
    + rewrite IH. split.
      * intros [Hnd Hseen]. split.
        -- constructor; [|exact Hnd]. intros Hin. apply (Hseen a Hin). set_solver.
        -- intros r [<- | Hr]; [exact Ha|]. specialize (Hseen r Hr). set_solver.
      * intros [Hnd Hseen]. inversion Hnd as [|? ? Hnotin Hnd']; subst. split; [exact Hnd'|].
        intros r Hr. specialize (Hseen r (or_intror Hr)).
        assert (r <> a) by (intros ->; contradiction). set_solver.
    + split; [discriminate|]. intros [_ Hseen]. exfalso. apply Ha, Hseen. left. reflexivity.
Qed.

Lemma check_seen_Raise (rules : list string) : forall (seen : gset string) (e : exn),
  Reader.check_seen rules seen = Raise e ->
  exists r l1 l2, e = WopMarsException (RuleDuplicated r)
                  /\ rules = (l1 ++ r :: l2)%list
                  /\ List.NoDup l1 /\ (forall x, In x l1 -> x ∉ seen)
                  /\ (r ∈ seen \/ In r l1).
Proof.
  induction rules as [|a rules IH]; intros seen e; simpl; [discriminate|].
  destruct (decide (a ∉ seen)) as [Ha|Ha].
  - intros H. destruct (IH _ _ H) as (r & l1 & l2 & -> & -> & Hnd & Hfresh & Hr).
    exists r, (a :: l1), l2. split; [reflexivity|]. split; [reflexivity|]. split; [|split].
    + constructor; [|exact Hnd]. intros Hin. apply (Hfresh a Hin). set_solver.
    + intros x [<- | Hx]; [exact Ha|]. specialize (Hfresh x Hx). set_solver.
    + destruct Hr as [Hr | Hr]; [|right; right; exact Hr].
      apply elem_of_union in Hr as [Hr | Hr]; [|left; exact Hr].
      apply elem_of_singleton in Hr. subst. right. left. reflexivity.
  - intros H. injection H as <-. exists a, [], rules.
    split; [reflexivity|]. split; [reflexivity|]. split; [constructor|].
    split; [intros x []|]. left.
    destruct (decide (a ∈ seen)); [assumption | contradiction].
Qed.

(** X15. [check_duplicate_rules] passes exactly when the search for
    [rule (.+?):] finds no name twice in the text. When it fails, the error
    names the first name that the search meets for the second time: the names
    found before it are all different, and it is one of them. *)
Theorem check_duplicate_rules_iff (file : string) :
  (Reader.check_duplicate_rules file = Ok tt <-> List.NoDup (Reader.findall_rule file))
  /\ (forall e, Reader.check_duplicate_rules file = Raise e ->
                exists r found rest,
                  e = WopMarsException (RuleDuplicated r)
                  /\ Reader.findall_rule file = (found ++ r :: rest)%list
                  /\ List.NoDup found /\ In r found).
Proof.
  unfold Reader.check_duplicate_rules. split.
  - rewrite check_seen_Ok. split; [intros [H _]; exact H|].
    intros H. split; [exact H | intros r _; set_solver].
  - intros e H. apply check_seen_Raise in H as (r & l1 & l2 & -> & Hfind & Hnd & _ & Hr).
    destruct Hr as [Hr | Hr]; [set_solver|].
    exists r, l1, l2. auto.
Qed.

Lemma until_colon_free (s g : string) :
  Reader.until_colon s = Some g ->
  Terms.free_of Reader.newline g /\ Terms.free_of Reader.colon g.
Proof.
  revert g. induction s as [|a s IH]; intros g H; simpl in H; [discriminate|].
  destruct (Ascii.eqb_spec a Reader.colon).
  - injection H as <-. split; intros [].
  - destruct (Ascii.eqb_spec a Reader.newline); [discriminate|].
    destruct (Reader.until_colon s) as [g'|]; [|discriminate].
    injection H as <-. destruct (IH g' eq_refl) as [Hn Hc].
    split; apply ReaderSpec.free_of_cons; split; assumption.
Qed.

Lemma group_at_Some (s g : string) :
  Reader.group_at s = Some g ->
  (exists c tail, g = String c tail /\ c <> Reader.newline
                  /\ Terms.free_of Reader.newline tail /\ Terms.free_of Reader.colon tail)
  /\ exists rest, s = Terms.header g rest.
Proof.
  unfold Reader.group_at. intros H.
  destruct (Reader.after_prefix "rule " s) as [t|] eqn:Ht; [|discriminate].
  apply ReaderSpec.after_prefix_Some in Ht. subst s.
  destruct t as [|c t]; [discriminate|].
  destruct (Ascii.eqb_spec c Reader.newline); [discriminate|].
  destruct (Reader.until_colon t) as [g'|] eqn:Hg; [|discriminate].
  injection H as <-. split.
  - exists c, g'. split; [reflexivity|]. split; [assumption|].
    eapply until_colon_free. eassumption.
  - apply ReaderSpec.until_colon_Some in Hg as [rest ->]. exists rest. reflexivity.
Qed.

Lemma findall_from_In (s : string) : forall (k : nat) (g : string),
  In g (Reader.findall_from k s) ->
  (exists c tail, g = String c tail /\ c <> Reader.newline
                  /\ Terms.free_of Reader.newline tail /\ Terms.free_of Reader.colon tail)
  /\ exists before rest, s = (before ++ Terms.header g rest)%string.
Proof.
  induction s as [|c s IH]; intros k g Hin; [destruct Hin|].
  assert (Hrec : forall k', In g (Reader.findall_from k' s) ->
                   (exists c tail, g = String c tail /\ c <> Reader.newline
                                   /\ Terms.free_of Reader.newline tail
                                   /\ Terms.free_of Reader.colon tail)
                   /\ exists before rest, String c s = (before ++ Terms.header g rest)%string).
  { intros k' H. destruct (IH k' g H) as (Hshape & before & rest & ->).
    split; [exact Hshape|]. exists (String c before), rest. reflexivity. }
  destruct k as [|k]; [|exact (Hrec k Hin)].
  cbn [Reader.findall_from] in Hin.
  destruct (Reader.group_at (String c s)) as [g0|] eqn:Hg; [|exact (Hrec _ Hin)].
  destruct Hin as [<- | Hin]; [|exact (Hrec _ Hin)].
  apply group_at_Some in Hg as (Hshape & rest & Hs).
  split; [exact Hshape|]. exists EmptyString, rest. exact Hs.
Qed.

(** X16. Every name that the search for the rules finds has a first character,
    which is no newline and may be a colon, followed by characters among
    which there is neither a newline nor a colon; and it stands in the text
    between the word [rule] with a space and a colon. *)
Theorem findall_rule_sound (file name : string) :
  In name (Reader.findall_rule file) ->
  (exists c tail, name = String c tail /\ c <> Reader.newline
                  /\ Terms.free_of Reader.newline tail /\ Terms.free_of Reader.colon tail)
  /\ exists before rest, file = (before ++ Terms.header name rest)%string.
Proof. apply findall_from_In. Qed.

(** The name found in the definition of the samples. *)
Lemma findall_rule_sound_witness :
  exists before rest, Samples.content_in2 = (before ++ Terms.header "copy" rest)%string.
Proof.
  apply (findall_rule_sound Samples.content_in2 "copy"). vm_compute. left. reflexivity.
Defined.

(** *** Loading *)

Lemma except_YAMLError_Ok {A : Type} (body : result A) (a : A) :
  Reader.except_YAMLError body = Ok a <-> body = Ok a.
Proof. destruct body as [x|[]]; simpl; split; intros H; congruence. Qed.

Lemma except_YAMLError_never {A : Type} (body : result A) :
  Reader.except_YAMLError body <> Raise YAMLError.
Proof. destruct body as [x|[]]; discriminate. Qed.

(** X17. [load_definition_file] returns the document exactly when the file
    exists, no rule is duplicated in its text, the YAML loader makes the
    document of the text, and the grammar of the document is respected. A file
    that does not exist is a [WopMarsException], and so is an error of the
    loader: no [YAMLError] gets out. Whatever the load raises, [read] raises
    it too and leaves the session as it was. *)
Theorem load_definition_file_iff
    (read_file : string -> option string) (yaml_load : string -> result node)
    (directory : string) (os_path_join : string -> string -> string)
    (os_path_abspath : string -> string)
    (import_class : string -> result Reader.toolwrapper_class) (now : Z)
    (object_deleted : Rule.Rule -> Session.WopMarsSession -> bool)
    (set_order : list Rule.Rule -> list Rule.Rule)
    (correspond : Rule.Option -> string -> result unit)
    (tablename_of_model : Rule.TableInputOutputInformation -> string)
    (path : string) :
  (forall document,
      Reader.load_definition_file read_file yaml_load path = Ok document <->
      exists content,
        read_file path = Some content
        /\ Reader.check_duplicate_rules content = Ok tt
        /\ yaml_load content = Ok document
        /\ Reader.is_grammar_respected document = Ok tt)
  /\ (read_file path = None ->
      Reader.load_definition_file read_file yaml_load path
      = Raise (WopMarsException (DefinitionFileDoesNotExist path)))
  /\ (forall content,
         read_file path = Some content ->
         Reader.check_duplicate_rules content = Ok tt ->
         yaml_load content = Raise YAMLError ->
         Reader.load_definition_file read_file yaml_load path
         = Raise (WopMarsException YamlNotRespected))
  /\ Reader.load_definition_file read_file yaml_load path <> Raise YAMLError
  /\ (forall e s,
         Reader.load_definition_file read_file yaml_load path = Raise e ->
         Reader.read read_file yaml_load directory os_path_join os_path_abspath import_class
                     now object_deleted set_order correspond tablename_of_model path s
         = (Raise e, s)).
Proof.
  split; [|split; [|split; [|split]]].
  - intros document. unfold Reader.load_definition_file.
    destruct (read_file path) as [content|] eqn:Hfile.
    + rewrite except_YAMLError_Ok. split.
      * intros H.
        destruct (Reader.check_duplicate_rules content) as [[]|] eqn:Hdup;
          [|discriminate H].
        simpl in H. destruct (yaml_load content) as [d|] eqn:Hyaml; [|discriminate H].
        simpl in H.
        destruct (Reader.is_grammar_respected d) as [[]|] eqn:Hg; [|discriminate H].
        simpl in H. injection H as <-. exists content. auto.
      * intros (c & Hc & Hdup & Hyaml & Hg). injection Hc as <-.
        rewrite Hdup. simpl. rewrite Hyaml. simpl. rewrite Hg. reflexivity.
    + split; [discriminate | intros (c & Hc & _); discriminate Hc].
  - intros Hfile. unfold Reader.load_definition_file. rewrite Hfile. reflexivity.
  - intros content Hfile Hdup Hyaml. unfold Reader.load_definition_file.
    rewrite Hfile, Hdup. simpl. rewrite Hyaml. reflexivity.
  - unfold Reader.load_definition_file.
    destruct (read_file path); [apply except_YAMLError_never | discriminate].
  - intros e s H. unfold Reader.read, Reader.bindM, Reader.lift. rewrite H. reflexivity.
Qed.

(** The definition of the samples is loaded; no file of another name is. *)
Lemma load_definition_file_iff_witness :
  Reader.load_definition_file Samples.read_file Samples.yaml_load "Wopfile.yml"
  = Ok Samples.document_in2
  /\ Reader.load_definition_file Samples.read_file Samples.yaml_load "other.yml"
     = Raise (WopMarsException (DefinitionFileDoesNotExist "other.yml")).
Proof.
  split.
  - apply (load_definition_file_iff Samples.read_file Samples.yaml_load "/work"
             Samples.os_path_join (fun p => p) Samples.import_class 1500
             (fun _ _ => false) (fun set_wrapper => set_wrapper)
             (fun _ _ => Ok tt) Rule.t_tablename "Wopfile.yml").
    exists Samples.content_in2. repeat split.
  - apply (load_definition_file_iff Samples.read_file Samples.yaml_load "/work"
             Samples.os_path_join (fun p => p) Samples.import_class 1500
             (fun _ _ => false) (fun set_wrapper => set_wrapper)
             (fun _ _ => Ok tt) Rule.t_tablename "other.yml").
    reflexivity.
Defined.

(** *** The grammar *)














Lemma scalar_eqb_same (v : scalar) : scalar_eqb v v = true.
Proof.
  destruct v; simpl; auto using Bool.eqb_reflx, Z.eqb_refl, String.eqb_refl.
Qed.













(** *** The constructor of the mappings *)

Lemma lookup_item_app (k : scalar) (l1 l2 : list (scalar * node)) :
  lookup_item k (l1 ++ l2)%list
  = match lookup_item k l1 with Some x => Some x | None => lookup_item k l2 end.
Proof.
  induction l1 as [|[k' v'] l1 IH]; simpl; [reflexivity|].
  destruct (scalar_eqb k' k); [reflexivity | exact IH].
Qed.

Lemma fill_spec (pairs : list (scalar * node)) :
  forall mapping,
    (exists filled, Loader.fill pairs mapping = Ok filled
                    /\ forall before k v after,
                         pairs = (before ++ (k, v) :: after)%list ->
                         lookup_item k (mapping ++ before)%list = None)
    \/ (Loader.fill pairs mapping = Raise YAMLError
        /\ exists before k v after,
             pairs = (before ++ (k, v) :: after)%list
             /\ lookup_item k (mapping ++ before)%list <> None).
Proof.
  induction pairs as [|[k v] rest IH]; intros mapping.
  - left. exists mapping. split; [reflexivity|]. intros before k v after E.
    destruct before; discriminate E.
  - simpl. destruct (lookup_item k mapping) as [x|] eqn:Hk.
    + right. split; [reflexivity|]. exists [], k, v, rest. split; [reflexivity|].
      rewrite app_nil_r, Hk. discriminate.
    + destruct (IH (mapping ++ [(k, v)])%list) as [(filled & Hf & Hall) | (Hf & b & k' & v' & a & E & Hdup)].
      * left. exists filled. split; [exact Hf|]. intros before k' v' after E.
        destruct before as [|p before].
        -- injection E as <- <- <-. rewrite app_nil_r. exact Hk.
        -- injection E as <- E. specialize (Hall _ _ _ _ E).
           rewrite <- app_assoc in Hall. exact Hall.
      * right. split; [exact Hf|]. exists ((k, v) :: b), k', v', a. split.
        -- rewrite E. reflexivity.
        -- rewrite <- app_assoc in Hdup. exact Hdup.
Qed.

(** X20. [no_duplicates_constructor] returns the mapping of the pairs when no
    key equals a key met before it, and then the value of every pair is the
    value of the mapping at its key; otherwise it raises the error of the
    loader. *)
Theorem no_duplicates_constructor_spec (pairs : list (scalar * node)) :
  (Loader.no_duplicates_constructor pairs = Ok (Map pairs)
   /\ Grammar.distinct_keys pairs
   /\ forall k v, In (k, v) pairs -> subscript (Map pairs) (Scalar k) = Ok v)
  \/ (Loader.no_duplicates_constructor pairs = Raise YAMLError
      /\ ~ Grammar.distinct_keys pairs).
Proof.
  unfold Loader.no_duplicates_constructor.
  destruct (fill_spec pairs []) as [(filled & -> & Hall) | (-> & b & k & v & a & E & Hdup)].
  - left. split; [reflexivity|]. split; [exact Hall|].
    intros k v Hin. apply in_split in Hin as (l1 & l2 & ->).
    pose proof (Hall l1 k v l2 eq_refl) as Hnone. cbn [app] in Hnone.
    simpl. rewrite lookup_item_app, Hnone. simpl.
    rewrite scalar_eqb_same. reflexivity.
  - right. split; [reflexivity|]. intros Hd. apply Hdup. exact (Hd _ _ _ _ E).
Qed.

(** *** The ledger of the modifications *)

Lemma rows_of_app (t : string) (l1 l2 : list Session.entity) :
  Ledger.rows_of t (l1 ++ l2)%list = (Ledger.rows_of t l1 ++ Ledger.rows_of t l2)%list.
Proof. apply List.filter_app. Qed.

Lemma consistent_commit (s : Session.WopMarsSession) :
  Ledger.consistent s -> Ledger.consistent (Session.commit s).
Proof.
  intros [Hv Hc]. split.
  - rewrite SessionMore.visible_commit. exact Hv.
  - rewrite SessionMore.committed_commit. destruct (Session.something s); assumption.
Qed.

Lemma consistent_rollback (s : Session.WopMarsSession) :
  Ledger.consistent s -> Ledger.consistent (Session.rollback s).
Proof.
  intros [Hv Hc]. split; [rewrite SessionMore.visible_rollback|]; exact Hc.
Qed.

Lemma consistent_query (cls : string) (s : Session.WopMarsSession) :
  Ledger.consistent s -> Ledger.consistent (Session.query cls s).2.
Proof.
  intros [Hv Hc]. split; [rewrite SessionMore.visible_query; exact Hv | exact Hc].
Qed.

Lemma consistent_add_all (rows : list Session.entity) (s : Session.WopMarsSession) :
  (forall e, In e rows -> Session.model e <> "ModificationTable") ->
  Ledger.consistent s -> Ledger.consistent (Session.add_all rows s).
Proof.
  intros Hrows [Hv Hc]. split.
  - rewrite SessionMore.visible_add_all. intros t. rewrite rows_of_app.
    assert (Hnone : Ledger.rows_of t rows = []).
    { apply SessionSpec.filter_none. intros e He. apply andb_false_iff. left.
      apply String.eqb_neq, Hrows, He. }
    rewrite Hnone, app_nil_r. apply Hv.
  - rewrite SessionMore.add_all_fields. exact Hc.
Qed.

Lemma ledger_lookup (t : string) (e : Session.entity) :
  Session.filter_by {[ "table_name" := Session.Plain (SStr t) ]} e
  = scalar_eqb (Session.column (Session.fields e) "table_name") (SStr t).
Proof.
  unfold Session.filter_by. rewrite map_to_list_singleton. simpl. apply andb_true_r.
Qed.

Lemma ledger_rows (t : string) (rows : list Session.entity) :
  List.filter (Session.filter_by {[ "table_name" := Session.Plain (SStr t) ]})
              (List.filter (fun e => String.eqb (Session.model e) "ModificationTable") rows)
  = Ledger.rows_of t rows.
Proof.
  induction rows as [|e rows IH]; [reflexivity|].
  unfold Ledger.rows_of in *. cbn [List.filter].
  destruct (String.eqb (Session.model e) "ModificationTable"); cbn [List.filter andb];
    [rewrite ledger_lookup, IH; reflexivity | exact IH].
Qed.

Lemma ledger_row_created (now : Z) (t : string) :
  Session.column ({[ "date" := SInt now ]} ∪ Session.plain_items
                    {[ "table_name" := Session.Plain (SStr t) ]}) "table_name"
  = SStr t.
Proof.
  unfold Session.column, Session.plain_items.
  rewrite (omap_singleton_Some _ "table_name" (Session.Plain (SStr t)) (SStr t))
    by reflexivity.
  rewrite lookup_union_r by (rewrite lookup_singleton; reflexivity).
  rewrite lookup_singleton. reflexivity.
Qed.

Lemma consistent_get_or_create (now : Z) (t : string) (s : Session.WopMarsSession) :
  Ledger.consistent s ->
  Ledger.consistent
    (Session.get_or_create "ModificationTable" (Some {[ "date" := SInt now ]})
                           {[ "table_name" := Session.Plain (SStr t) ]} s).2.
Proof.
  intros Hs. rewrite SessionSpec.get_or_create_unfold.
  pose proof (consistent_query "ModificationTable" s Hs) as Hq.
  assert (Hrows : List.filter
                    (Session.filter_by {[ "table_name" := Session.Plain (SStr t) ]})
                    (Session.query "ModificationTable" s).1
                  = Ledger.rows_of t (Ledger.visible s)) by apply ledger_rows.
  rewrite Hrows. destruct (Ledger.rows_of t (Ledger.visible s)) eqn:Hnone; [|exact Hq].
  cbv zeta. cbn [snd]. destruct Hq as [Hv Hc]. split; [|exact Hc].
  rewrite SessionMore.visible_add, SessionMore.visible_query in *.
  intros t'. rewrite rows_of_app. unfold Ledger.rows_of at 2. cbn [List.filter Session.model Session.fields].
  cbn [default from_option id]. rewrite ledger_row_created.
  cbn [String.eqb Ascii.eqb Bool.eqb andb scalar_eqb].
  destruct (String.eqb t t') eqn:E.
  - apply String.eqb_eq in E. subst t'. rewrite Hnone. simpl. lia.
  - rewrite app_nil_r. apply Hv.
Qed.

Lemma keeps_refl (s : Session.WopMarsSession) : Ledger.keeps s s.
Proof. intros H. exact H. Qed.

Lemma keeps_trans (s1 s2 s3 : Session.WopMarsSession) :
  Ledger.keeps s1 s2 -> Ledger.keeps s2 s3 -> Ledger.keeps s1 s3.
Proof. intros H12 H23 H. apply H23, H12, H. Qed.

Lemma keeps_query (cls : string) (s : Session.WopMarsSession) :
  Ledger.keeps s (Session.query cls s).2.
Proof. exact (consistent_query cls s). Qed.

Section Invariant.

Variable read_file : string -> option string.
Variable yaml_load : string -> result node.
Variable directory : string.
Variable os_path_join : string -> string -> string.
Variable os_path_abspath : string -> string.
Variable import_class : string -> result Reader.toolwrapper_class.
Variable now : Z.
Variable object_deleted : Rule.Rule -> Session.WopMarsSession -> bool.
Variable set_order : list Rule.Rule -> list Rule.Rule.
Variable correspond : Rule.Option -> string -> result unit.
Variable tablename_of_model : Rule.TableInputOutputInformation -> string.

Lemma keeps_bind_workflow (document : node) :
  Ledger.steps Ledger.keeps
    (Reader.bind_workflow directory os_path_join os_path_abspath import_class now
       object_deleted set_order document).
Proof.
  unfold Reader.bind_workflow.
  apply (ReaderSpec.steps_bind _ keeps_trans);
    [apply (ReaderSpec.steps_one_type _ keeps_query)|]. intros input_entry.
  apply (ReaderSpec.steps_bind _ keeps_trans);
    [apply (ReaderSpec.steps_one_type _ keeps_query)|]. intros output_entry.
  apply (ReaderSpec.steps_bind _ keeps_trans);
    [apply (ReaderSpec.steps_lift _ keeps_refl)|]. intros rules.
  apply (ReaderSpec.steps_bind _ keeps_trans).
  { apply (ReaderSpec.steps_bind_rules _ keeps_refl keeps_trans consistent_commit
             consistent_rollback consistent_get_or_create). }
  intros set_wrapper.
  apply (ReaderSpec.steps_bind _ keeps_trans);
    [apply ReaderSpec.steps_call; exact consistent_commit|]. intros _.
  apply (ReaderSpec.steps_bind _ keeps_trans);
    [apply ReaderSpec.steps_call; exact consistent_rollback|]. intros _.
  apply (ReaderSpec.steps_bind _ keeps_trans).
  { apply ReaderSpec.steps_call. intros s. unfold Ledger.keeps. apply consistent_add_all.
    intros e He. apply in_map_iff in He as (tw & <- & _). discriminate. }
  intros _.
  apply (ReaderSpec.steps_bind _ keeps_trans);
    [apply ReaderSpec.steps_call; exact consistent_commit|]. intros _.
  apply (ReaderSpec.steps_ret _ keeps_refl).
Qed.

(** X22. [read] never gives a table a second row in the ledger of the
    modifications: when no table has two ledger rows, neither among the rows
    committed nor among the rows that the session sees, the same holds of the
    session that [read] leaves, whether it returns or raises. *)
Theorem read_keeps_ledger (s_definition_file : string) (s : Session.WopMarsSession) :
  Ledger.consistent s ->
  Ledger.consistent
    (Reader.read read_file yaml_load directory os_path_join os_path_abspath import_class
                 now object_deleted set_order correspond tablename_of_model
                 s_definition_file s).2.
Proof.
  revert s.
  change (Ledger.steps Ledger.keeps
            (Reader.read read_file yaml_load directory os_path_join os_path_abspath
                         import_class now object_deleted set_order correspond
                         tablename_of_model s_definition_file)).
  unfold Reader.read.
  apply (ReaderSpec.steps_bind _ keeps_trans);
    [apply (ReaderSpec.steps_lift _ keeps_refl)|]. intros document.
  apply (ReaderSpec.steps_except_NoResultFound _ keeps_trans).
  - apply (ReaderSpec.steps_bind _ keeps_trans); [apply keeps_bind_workflow|].
    intros set_wrapper. apply (ReaderSpec.steps_lift _ keeps_refl).
  - apply (ReaderSpec.steps_bind _ keeps_trans);
      [apply ReaderSpec.steps_call; exact consistent_rollback|].
    intros _. apply (ReaderSpec.steps_lift _ keeps_refl).
Qed.

End Invariant.

(** The definition [table_missing.yml], whose first rule reads the table
    [FooBase], read twice from a database without ledger row: the first
    [read] creates the ledger row of the table, the second finds it, and the
    table has one ledger row after each. *)
Lemma read_keeps_ledger_witness :
  Ledger.rows_of "FooBase" (Session.committed (Session.session Samples.session_with_types))
  = []
  /\ Ledger.consistent (Samples.read_at "table_missing.yml" Samples.session_with_types).2
  /\ length (Ledger.rows_of "FooBase"
               (Session.committed
                  (Session.session
                     (Samples.read_at "table_missing.yml" Samples.session_with_types).2)))
     = 1%nat
  /\ Ledger.consistent
       (Samples.read_at "table_missing.yml"
          (Samples.read_at "table_missing.yml" Samples.session_with_types).2).2
  /\ length (Ledger.rows_of "FooBase"
               (Session.committed
                  (Session.session
                     (Samples.read_at "table_missing.yml"
                        (Samples.read_at "table_missing.yml"
                           Samples.session_with_types).2).2)))
     = 1%nat.
Proof.
  assert (H0 : Ledger.consistent Samples.session_with_types).
  { split; intros t; vm_compute; lia. }
  pose proof (read_keeps_ledger Samples.read_definition Samples.load_definition "/work"
                Samples.os_path_join (fun p => p) Samples.import_class 1500
                (fun _ _ => false) (fun set_wrapper => set_wrapper) (fun _ _ => Ok tt)
                Rule.t_tablename "table_missing.yml") as Hread.
  pose proof (Hread Samples.session_with_types H0) as H1.
  pose proof (Hread _ H1) as H2.
  split; [reflexivity|]. split; [exact H1|]. split; [vm_compute; reflexivity|].
  split; [exact H2 | vm_compute; reflexivity].
Defined.

(** *** The objects of a rule *)



Section Objects.

Variable import_class : string -> result Reader.toolwrapper_class.
Variable now : Z.
Variable object_deleted : Rule.Rule -> Session.WopMarsSession -> bool.


Lemma guarded_append_Ok (tw appended : Rule.Rule) (s : Session.WopMarsSession) :
  object_deleted tw s = false ->
  Reader.except_ObjectDeletedError
    (Reader.bindM (Reader.collection object_deleted tw) (fun _ => Reader.ret appended)) s
  = (Ok appended, s).
Proof.
  intros H.
  unfold Reader.except_ObjectDeletedError, Reader.bindM, Reader.collection, Reader.ret.
  rewrite H. reflexivity.
Qed.




Hypothesis never_deleted : forall tw s, object_deleted tw s = false.





End Objects.



(** *** A definition that is read *)

Lemma all_committed_rollback (s : Session.WopMarsSession) :
  Ledger.all_committed (Session.rollback s).
Proof. repeat split. Qed.

Lemma all_committed_commit_add_all (rows : list Session.entity)
    (s : Session.WopMarsSession) :
  Ledger.all_committed s -> Ledger.all_committed (Session.commit (Session.add_all rows s)).
Proof.
  intros (Hnew & Hdirty & Htr). rewrite SessionMore.add_all_fields.
  unfold Session.commit, Session.something. cbn [Session.session Session.new Session.dirty].
  rewrite Hnew, Hdirty. cbn [app].
  destruct rows as [|x rows]; cbn.
  - repeat split. exact Htr.
  - repeat split.
Qed.

Section Success.

Variable read_file : string -> option string.
Variable yaml_load : string -> result node.
Variable directory : string.
Variable os_path_join : string -> string -> string.
Variable os_path_abspath : string -> string.
Variable import_class : string -> result Reader.toolwrapper_class.
Variable now : Z.
Variable object_deleted : Rule.Rule -> Session.WopMarsSession -> bool.
Variable set_order : list Rule.Rule -> list Rule.Rule.
Variable correspond : Rule.Option -> string -> result unit.
Variable tablename_of_model : Rule.TableInputOutputInformation -> string.

(** The set of the tools holds every tool added, and no other. *)
Hypothesis set_order_members : forall l, Permutation (set_order l) l.

Lemma bind_files_name (entry : Session.entity)
    (fs : list (string * Rule.FileInputOutputInformation)) :
  forall tw s tw' s',
    Reader.bind_files object_deleted entry fs tw s = (Ok tw', s') ->
    Rule.name tw' = Rule.name tw.
Proof.
  induction fs as [|[n f] fs IH]; intros tw s tw' s' H.
  - injection H as <- _. reflexivity.
  - cbn [Reader.bind_files] in H. unfold Reader.bindM at 1 in H.
    destruct (object_deleted tw s) eqn:Hd.
    + unfold Reader.except_ObjectDeletedError, Reader.bindM, Reader.collection in H.
      rewrite Hd in H. discriminate H.
    + rewrite (guarded_append_Ok _ _ _ _ Hd) in H. apply IH in H. exact H.
Qed.

Lemma bind_tables_name (entry : Session.entity)
    (ts : list (string * Rule.TableInputOutputInformation)) :
  forall tw s tw' s',
    Reader.bind_tables now object_deleted entry ts tw s = (Ok tw', s') ->
    Rule.name tw' = Rule.name tw.
Proof.
  induction ts as [|[tablename iodbput_entry] ts IH]; intros tw s tw' s' H.
  - injection H as <- _. reflexivity.
  - cbn [Reader.bind_tables] in H. unfold Reader.bindM at 1 in H.
    unfold Reader.call at 1 in H. unfold Reader.bindM at 1 in H.
    destruct (Session.get_or_create _ _ _ (Session.commit s)) as [r s2].
    cbv zeta in H. unfold Reader.bindM at 1 in H.
    destruct (object_deleted tw s2) eqn:Hd.
    + unfold Reader.except_ObjectDeletedError, Reader.bindM, Reader.collection in H.
      rewrite Hd in H. discriminate H.
    + rewrite (guarded_append_Ok _ _ _ _ Hd) in H. apply IH in H. exact H.
Qed.

Lemma bind_options_name (os : list (string * Rule.Option)) :
  forall tw s tw' s',
    Reader.bind_options object_deleted os tw s = (Ok tw', s') ->
    Rule.name tw' = Rule.name tw.
Proof.
  induction os as [|[n o] os IH]; intros tw s tw' s' H.
  - injection H as <- _. reflexivity.
  - cbn [Reader.bind_options] in H. unfold Reader.bindM, Reader.collection in H.
    destruct (object_deleted tw s); [discriminate H|]. apply IH in H. exact H.
Qed.

Lemma create_toolwrapper_entry_name (str_rule_name : string) (str_wrapper_name : node)
    (ddd : Reader.elements) (input_entry output_entry : Session.entity)
    (s s' : Session.WopMarsSession) (tw : Rule.Rule) :
  Reader.create_toolwrapper_entry import_class now object_deleted str_rule_name
                                  str_wrapper_name ddd input_entry output_entry s
  = (Ok tw, s') ->
  Rule.name tw = str_rule_name.
Proof.
  unfold Reader.create_toolwrapper_entry. unfold Reader.bindM at 1. unfold Reader.lift.
  destruct (Reader.resolve import_class str_wrapper_name) as [cls|e]; [|discriminate].
  cbv zeta. intros H. unfold Reader.bindM at 1 in H.
  destruct (Reader.bind_files _ _ _ _ s) as [[tw1|e1] s1] eqn:H1; [|discriminate H].
  unfold Reader.bindM at 1 in H.
  destruct (Reader.bind_tables _ _ _ _ _ s1) as [[tw2|e2] s2] eqn:H2; [|discriminate H].
  unfold Reader.bindM at 1 in H.
  destruct (Reader.bind_files _ _ _ _ s2) as [[tw3|e3] s3] eqn:H3; [|discriminate H].
  unfold Reader.bindM at 1 in H.
  destruct (Reader.bind_tables _ _ _ _ _ s3) as [[tw4|e4] s4] eqn:H4; [|discriminate H].
  apply bind_options_name in H. apply bind_tables_name in H4. apply bind_files_name in H3.
  apply bind_tables_name in H2. apply bind_files_name in H1.
  rewrite H, H4, H3, H2, H1. reflexivity.
Qed.

Lemma bind_rule_name (document : node) (input_entry output_entry : Session.entity)
    (rule : node) (s s' : Session.WopMarsSession) (tw : Rule.Rule) :
  Reader.bind_rule directory os_path_join os_path_abspath import_class now object_deleted
                   document input_entry output_entry rule s = (Ok tw, s') ->
  Reader.rule_name_of rule = Ok (Rule.name tw).
Proof.
  unfold Reader.bind_rule. unfold Reader.bindM at 1. unfold Reader.lift. intros H.
  destruct (Reader.rule_name_of rule) as [str_rule_name|e]; [|discriminate H].
  cbn [bind] in H.
  destruct (subscript document rule) as [body|e]; [|discriminate H]. cbn [bind] in H.
  destruct (iterate body) as [keys2|e]; [|discriminate H]. cbn [bind] in H.
  destruct (Reader.second_step _ _ _ _ _ _ _) as [[w ddd]|e]; [|discriminate H].
  cbn [bind fst snd] in H. unfold Reader.bindM at 1 in H.
  destruct (Reader.create_toolwrapper_entry _ _ _ _ _ _ _ _ _) as [[tw0|e] s1] eqn:Hc;
    [|discriminate H].
  unfold Reader.bindM, Reader.call, Reader.ret in H. injection H as <- _.
  apply create_toolwrapper_entry_name in Hc. rewrite Hc. reflexivity.
Qed.

Lemma bind_rules_names (document : node) (input_entry output_entry : Session.entity)
    (rules : list node) :
  forall set_wrapper s bound s',
    Reader.bind_rules directory os_path_join os_path_abspath import_class now object_deleted
                      document input_entry output_entry rules set_wrapper s = (Ok bound, s') ->
    exists added, bound = (set_wrapper ++ added)%list
                  /\ Forall2 (fun rule tw => Reader.rule_name_of rule = Ok (Rule.name tw))
                             rules added.
Proof.
  induction rules as [|rule rules IH]; intros set_wrapper s bound s' H.
  - injection H as <- _. exists []. rewrite app_nil_r. split; [reflexivity | constructor].
  - cbn [Reader.bind_rules] in H. unfold Reader.bindM at 1 in H.
    destruct (Reader.bind_rule _ _ _ _ _ _ _ _ _ _ s) as [[tw|e] s1] eqn:Hrule;
      [|discriminate H].
    apply IH in H as (added & -> & Hall). exists (tw :: added). split.
    + rewrite <- app_assoc. reflexivity.
    + constructor; [|exact Hall]. eapply bind_rule_name. exact Hrule.
Qed.

(** X24. When [read] returns, the definition was loaded and its rules bound
    in the order of the document, each under the name of its rule line; the
    content of every rule is what its tool declares; the row of every rule is
    in the database, and the session holds nothing that is not committed: no
    object is new or dirty, and the open transaction sees the rows of the
    database and no other. *)
Theorem read_success (s_definition_file : string) (s s' : Session.WopMarsSession) :
  Reader.read read_file yaml_load directory os_path_join os_path_abspath import_class now
              object_deleted set_order correspond tablename_of_model s_definition_file s
  = (Ok tt, s') ->
  exists document rules set_wrapper,
    Reader.load_definition_file read_file yaml_load s_definition_file = Ok document
    /\ iterate document = Ok rules
    /\ Forall2 (fun rule tw => Reader.rule_name_of rule = Ok (Rule.name tw)) rules set_wrapper
    /\ (forall tw, In tw set_wrapper ->
                   Rule.is_content_respected correspond tablename_of_model tw = Ok tt
                   /\ In (Reader.rule_row tw) (Session.committed (Session.session s')))
    /\ Ledger.all_committed s'.
Proof.
  unfold Reader.read. unfold Reader.bindM at 1. unfold Reader.lift at 1. intros H.
  destruct (Reader.load_definition_file read_file yaml_load s_definition_file)
    as [document|e]; [|discriminate H].
  unfold Reader.except_NoResultFound in H. unfold Reader.bindM at 1 in H.
  destruct (Reader.bind_workflow _ _ _ _ _ _ _ _ s) as [[set_wrapper|e] s1] eqn:Hbind.
  - unfold Reader.lift at 1 in H.
    destruct (Reader.check_content set_order correspond tablename_of_model set_wrapper)
      as [[]|e] eqn:Hcheck; [|destruct e; discriminate H].
    injection H as <-.
    destruct (ReaderSpec.bind_workflow_ends _ _ _ _ _ _ _ _ _ _ _ Hbind) as [s0 Hs1].
    unfold Reader.bind_workflow in Hbind. unfold Reader.bindM at 1 in Hbind.
    destruct (Reader.one_type "input" s) as [[input_entry|e] sa]; [|discriminate Hbind].
    unfold Reader.bindM at 1 in Hbind.
    destruct (Reader.one_type "output" sa) as [[output_entry|e] sb]; [|discriminate Hbind].
    unfold Reader.bindM at 1 in Hbind. unfold Reader.lift at 1 in Hbind.
    destruct (iterate document) as [rules|e] eqn:Hiter; [|discriminate Hbind].
    unfold Reader.bindM at 1 in Hbind.
    destruct (Reader.bind_rules _ _ _ _ _ _ _ _ _ _ _ sb) as [[sw|e] sc] eqn:Hrules;
      [|discriminate Hbind].
    unfold Reader.bindM, Reader.call, Reader.ret in Hbind. injection Hbind as <- _.
    apply bind_rules_names in Hrules as (added & -> & Hnames).
    exists document, rules, added. split; [reflexivity|]. split; [exact Hiter|].
    split; [exact Hnames|]. split.
    + intros tw Htw.
      assert (Hmember : In tw (set_order ([] ++ added))).
      { apply (Permutation_in tw (Permutation_sym (set_order_members _))). exact Htw. }
      split.
      * unfold Reader.check_content in Hcheck.
        apply (proj1 (RuleMore.for_each_Ok _ _) Hcheck). exact Hmember.
      * subst s1. apply ReaderSpec.commit_add_all, in_map. exact Hmember.
    + subst s1. apply all_committed_commit_add_all, all_committed_rollback.
  - destruct e; discriminate H.
Qed.

End Success.

Lemma read_success_witness :
  exists s', MoreSamples.read_foo Samples.session_with_types = (Ok tt, s')
             /\ Ledger.all_committed s'.
Proof.
  eexists. split; [vm_compute; reflexivity|].
  destruct (read_success MoreSamples.read_file_foo MoreSamples.yaml_load_foo "/work"
              Samples.os_path_join (fun p => p) Samples.import_class 1500
              (fun _ _ => false) (fun set_wrapper => set_wrapper)
              (fun _ _ => Ok tt) Rule.t_tablename (fun l => Permutation_refl l)
              "Wopfile.yml" Samples.session_with_types _ ltac:(vm_compute; reflexivity))
    as (document & rules & set_wrapper & _ & _ & _ & _ & Hnothing).
  exact Hnothing.
Defined.

End ReaderMore.

(** ** Properties of ToolWrapper.py *)

Module ToolWrapperMore.

(** X21. The content of a tool wrapper is respected exactly when the keys of
    its input dict are, as a set, the names of [get_input_file], and the keys
    of its output dict the names of [get_output_file]; the options play no
    part. The inputs are checked first: when they differ, the error is about
    the inputs whatever the outputs are. *)
Theorem is_content_respected_iff (tw : ToolWrapper.ToolWrapper) :
  (ToolWrapper.is_content_respected tw = ToolWrapper.Respected
   <-> (forall n, In n (List.map fst (ToolWrapper.input_file_dict tw))
                  <-> In n (ToolWrapper.get_input_file tw))
       /\ (forall n, In n (List.map fst (ToolWrapper.output_file_dict tw))
                     <-> In n (ToolWrapper.get_output_file tw)))
  /\ (~ (forall n, In n (List.map fst (ToolWrapper.input_file_dict tw))
                   <-> In n (ToolWrapper.get_input_file tw))
      <-> ToolWrapper.is_content_respected tw
          = ToolWrapper.WopMarsParsingException 3 ToolWrapper.InputNames).
Proof.
  unfold ToolWrapper.is_content_respected, ToolWrapper.is_options_respected,
    ToolWrapper.is_input_respected, ToolWrapper.is_output_respected.
  rewrite <- !RuleMore.set_eq_iff.
  destruct (Py.set_eq (List.map fst (ToolWrapper.input_file_dict tw))
                      (ToolWrapper.get_input_file tw));
    destruct (Py.set_eq (List.map fst (ToolWrapper.output_file_dict tw))
                        (ToolWrapper.get_output_file tw)); simpl;
    repeat split; try discriminate; try tauto; try congruence;
    intros H; try (destruct H; congruence); try (exfalso; apply H; reflexivity).
Qed.

End ToolWrapperMore.
